(** * oerbservatory: vocabulary normalisation of harvested OER metadata

    A shallow embedding of the normalisation code of
    [oerbservatory.sources.tess], [oerbservatory.sources.dalia],
    [oerbservatory.sources.oersi] and [oerbservatory.export.tess], with
    the properties of the specification stated and settled against it,
    and further properties of the code after them.

    Python text is modelled as [string] whose characters are the code points
    0..255 (Latin-1); [str.lower], [str.strip] and the regular-expression
    classes are written out for that whole range. *)

From Stdlib Require Import ZArith Ascii String List Bool Lia.
From Stdlib Require Import Floats.SpecFloat.
From Stdlib Require Import DecimalString.
From stdpp Require Import gmap strings list fin_maps.

Local Open Scope string_scope.

(** ** Python built-ins on [str] *)

Module PyStr.

Definition ord (c : ascii) : nat := nat_of_ascii c.

Definition between (lo hi n : nat) : bool := Nat.leb lo n && Nat.leb n hi.

(** [str.isspace] on one character: TAB..CR, FS..US, SPACE, NEL, NBSP. *)
Definition isspace (c : ascii) : bool :=
  between 9 13 (ord c) || between 28 32 (ord c)
  || Nat.eqb (ord c) 133 || Nat.eqb (ord c) 160.

(** Upper-case letters of Latin-1: A..Z and U+00C0..U+00DE without the
    multiplication sign U+00D7. *)
Definition isupper (c : ascii) : bool :=
  between 65 90 (ord c)
  || (between 192 222 (ord c) && negb (Nat.eqb (ord c) 215)).

Definition lower_char (c : ascii) : ascii :=
  if isupper c then ascii_of_nat (ord c + 32) else c.

(** [s.lower()] *)
Fixpoint lower (s : string) : string :=
  match s with
  | EmptyString => EmptyString
  | String c s' => String (lower_char c) (lower s')
  end.

Fixpoint lstrip (s : string) : string :=
  match s with
  | EmptyString => EmptyString
  | String c s' => if isspace c then lstrip s' else s
  end.

Fixpoint rstrip (s : string) : string :=
  match s with
  | EmptyString => EmptyString
  | String c s' =>
      match rstrip s' with
      | EmptyString => if isspace c then EmptyString else String c EmptyString
      | r => String c r
      end
  end.

(** [s.strip()] *)
Definition strip (s : string) : string := rstrip (lstrip s).

(** [s.endswith(suffix)] *)
Fixpoint endswith (s suffix : string) : bool :=
  if String.eqb s suffix then true
  else match s with
       | EmptyString => false
       | String _ s' => endswith s' suffix
       end.

(** [s.removesuffix(suffix)] *)
Fixpoint removesuffix (s suffix : string) : string :=
  if String.eqb s suffix then EmptyString
  else match s with
       | EmptyString => EmptyString
       | String c s' => String c (removesuffix s' suffix)
       end.

(** [s.startswith(prefix)] *)
Fixpoint startswith (s prefix : string) : bool :=
  match prefix, s with
  | EmptyString, _ => true
  | String p prefix', String c s' => Ascii.eqb c p && startswith s' prefix'
  | String _ _, EmptyString => false
  end.

(** [s[n:]] *)
Fixpoint slice_from (n : nat) (s : string) : string :=
  match n, s with
  | O, _ => s
  | S n', String _ s' => slice_from n' s'
  | S _, EmptyString => EmptyString
  end.

(** [s.removeprefix(prefix)] *)
Definition removeprefix (s prefix : string) : string :=
  if startswith s prefix then slice_from (String.length prefix) s else s.

(** [sub in s] *)
Fixpoint contains (s sub : string) : bool :=
  if startswith s sub then true
  else match s with
       | EmptyString => false
       | String _ s' => contains s' sub
       end.

(** [str(n)] for an [int] that is not negative. *)
Definition str_of_nat (n : nat) : string :=
  NilZero.string_of_uint (Nat.to_uint n).

(** The format [,]: a comma before every group of three digits but the
    first. *)
Fixpoint commas (digits : string) : string :=
  match digits with
  | EmptyString => EmptyString
  | String c rest =>
      String c
        (if Nat.ltb 0 (String.length rest)
            && Nat.eqb (String.length rest mod 3) 0
         then String "," (commas rest)
         else commas rest)
  end.

(** [f"{n:,}"] *)
Definition format_thousands (n : nat) : string := commas (str_of_nat n).

(** The quotation mark (U+0022) used inside formatted messages. *)
Definition dquote : string := String (ascii_of_nat 34) EmptyString.

End PyStr.

(** ** Exceptions and results *)

Inductive exn : Set :=
| ValueError | AttributeError | IndexError | OverflowError | TypeError
| ValidationError.

Inductive result (A : Type) : Type :=
| Ok (a : A)
| Raise (e : exn).
Arguments Ok {A} a.
Arguments Raise {A} e.

(** ** Python's [float] and [int]

    A [float] is a binary64 number, modelled with the Standard Library's
    [spec_float] and its correctly rounded operations. *)

Module PyFloat.
Import PyStr.

Definition prec : Z := 53.
Definition emax : Z := 1024.

(** The white space that [float(text)] skips on both sides: TAB..CR,
    SPACE, NEL and NBSP (the separators FS..US are not skipped). *)
Definition isblank (c : ascii) : bool :=
  between 9 13 (ord c) || Nat.eqb (ord c) 32
  || Nat.eqb (ord c) 133 || Nat.eqb (ord c) 160.

Fixpoint lskip (s : string) : string :=
  match s with
  | EmptyString => EmptyString
  | String c s' => if isblank c then lskip s' else s
  end.

Fixpoint rskip (s : string) : string :=
  match s with
  | EmptyString => EmptyString
  | String c s' =>
      match rskip s' with
      | EmptyString => if isblank c then EmptyString else String c EmptyString
      | r => String c r
      end
  end.

Definition isdigit (c : ascii) : bool := between 48 57 (ord c).

Definition digit_value (c : ascii) : Z := Z.of_nat (ord c - 48).

Definition underscore : ascii := ascii_of_nat 95.

(** The digits at the start of [s], single underscores between two digits
    being skipped: the number read so far, how many digits it has, and
    what follows. *)
Fixpoint digits_loop (acc : Z) (n : nat) (s : string) : Z * nat * string :=
  match s with
  | EmptyString => (acc, n, s)
  | String c s' =>
      if isdigit c then digits_loop (10 * acc + digit_value c) (S n) s'
      else if Ascii.eqb c underscore then
        match s' with
        | String c' s'' =>
            if isdigit c'
            then digits_loop (10 * acc + digit_value c') (S n) s''
            else (acc, n, s)
        | EmptyString => (acc, n, s)
        end
      else (acc, n, s)
  end.

(** A run of digits; it starts with a digit, or it is empty. *)
Definition digitpart (s : string) : Z * nat * string :=
  match s with
  | String c _ => if isdigit c then digits_loop 0 0 s else (0%Z, 0, s)
  | EmptyString => (0%Z, 0, s)
  end.

Definition sign_of (s : string) : bool * string :=
  match s with
  | String "-" s' => (true, s')
  | String "+" s' => (false, s')
  | _ => (false, s)
  end.

(** The binary64 number nearest to [m * 10 ^ e10] (ties to even), for
    [m >= 0], with the sign [negative]. *)
Definition of_decimal (negative : bool) (m e10 : Z) : spec_float :=
  match m with
  | Zpos _ =>
      match e10 with
      | Zneg k =>
          let '(q, e, l) :=
            SFdiv_core_binary prec emax m 0 (Z.pow 10 (Zpos k)) 0 in
          binary_round_aux prec emax negative q e l
      | _ => binary_round prec emax negative (Z.to_pos (m * Z.pow 10 e10)) 0
      end
  | _ => S754_zero negative
  end.

(** [float(text)] *)
Definition float (text : string) : result spec_float :=
  let '(negative, body) := sign_of (rskip (lskip text)) in
  let word := lower body in
  if String.eqb word "inf" || String.eqb word "infinity"
  then Ok (S754_infinity negative)
  else if String.eqb word "nan" then Ok S754_nan
  else
    let '(mi, ni, after_int) := digitpart body in
    let '(mf, nf, after_frac) :=
      match after_int with
      | String "." s => digitpart s
      | _ => (0%Z, 0, after_int)
      end in
    let m := (mi * Z.pow 10 (Z.of_nat nf) + mf)%Z in
    if Nat.eqb (ni + nf) 0 then Raise ValueError
    else
      match after_frac with
      | EmptyString => Ok (of_decimal negative m (- Z.of_nat nf))
      | String c s =>
          if Ascii.eqb (lower_char c) "e" then
            let '(eneg, s') := sign_of s in
            let '(me, ne, after_exp) := digitpart s' in
            match ne, after_exp with
            | S _, EmptyString =>
                Ok (of_decimal negative m
                      ((if eneg then - me else me) - Z.of_nat nf))
            | _, _ => Raise ValueError
            end
          else Raise ValueError
      end.

(** [float(n)] for an integer [n]. *)
Definition of_int (n : Z) : spec_float := binary_normalize prec emax n 0 false.

(** [x * y] *)
Definition mul (x y : spec_float) : spec_float := SFmul prec emax x y.

(** [int(x)]: the integer part of [x], towards zero. *)
Definition int (x : spec_float) : result Z :=
  match x with
  | S754_zero _ => Ok 0%Z
  | S754_infinity _ => Raise OverflowError
  | S754_nan => Raise ValueError
  | S754_finite s m e =>
      let magnitude :=
        match e with
        | Zneg k => Z.shiftr (Zpos m) (Zpos k)
        | _ => Z.shiftl (Zpos m) e
        end in
      Ok (if s then - magnitude else magnitude)%Z
  end.

(** [round(x)]: the integer nearest to [x], the even one of two that are
    equally near. *)
Definition round (x : spec_float) : result Z :=
  match x with
  | S754_zero _ => Ok 0%Z
  | S754_infinity _ => Raise OverflowError
  | S754_nan => Raise ValueError
  | S754_finite s m e =>
      let magnitude :=
        match e with
        | Zneg k =>
            let q := Z.shiftr (Zpos m) (Zpos k) in
            let r := (Zpos m - Z.shiftl q (Zpos k))%Z in
            match Z.compare (2 * r) (Z.shiftl 1 (Zpos k)) with
            | Lt => q
            | Gt => (q + 1)%Z
            | Eq => if Z.even q then q else (q + 1)%Z
            end
        | _ => Z.shiftl (Zpos m) e
        end in
      Ok (if s then - magnitude else magnitude)%Z
  end.

End PyFloat.

(** ** RDF identifiers *)

Inductive Namespace : Set := SDO | MODALIA | HCRT | BIBO | SPDX_LICENSE.

(** [ns[label]]: a [URIRef] made of a namespace and a local name.  Every
    namespace has a non-empty base IRI, so every such [URIRef] is truthy. *)
Record URIRef : Set := NS { uri_namespace : Namespace; uri_label : string }.

#[global] Instance Namespace_eq_dec : EqDecision Namespace.
Proof. solve_decision. Defined.
#[global] Instance URIRef_eq_dec : EqDecision URIRef.
Proof. solve_decision. Defined.

(** ** [oerbservatory.sources.tess] *)

Module Tess.
Import PyStr.

Definition RESOURCE_TYPE_MAP_items : list (string * option URIRef) :=
  [ ("video", Some (NS SDO "VideoObject"));
    ("series of videos", Some (NS SDO "VideoObject"));
    ("youtube video", Some (NS SDO "VideoObject"));
    ("computer software", Some (NS SDO "SoftwareSourceCode"));
    ("coding", Some (NS SDO "SoftwareSourceCode"));
    ("scripts", Some (NS SDO "SoftwareSourceCode"));
    ("programming", Some (NS SDO "SoftwareSourceCode"));
    ("poster", Some (NS SDO "Poster"));
    ("workshop", Some (NS MODALIA "Workshop"));
    ("podcast", Some (NS SDO "PodcastEpisode"));
    ("slidedeck", Some (NS HCRT "slide"));
    ("slideshow", Some (NS HCRT "slide"));
    ("slides", Some (NS HCRT "slide"));
    ("slide deck / presentation", Some (NS HCRT "slide"));
    ("slides / presentation", Some (NS HCRT "slide"));
    ("slideck/ presentation", Some (NS HCRT "slide"));
    ("presentation", Some (NS HCRT "slide"));
    ("jupyter notebooks", Some (NS MODALIA "CodeNotebook"));
    ("jupyter notebook", Some (NS MODALIA "CodeNotebook"));
    ("blog post", None);
    ("training materials", None);
    ("examples", None);
    ("documentation", None);
    ("bioinformatics", None);
    ("hands-on tutorial", None);
    ("learning pathway", None);
    ("tutorials", None);
    ("handbook", None);
    ("case studies", None);
    ("implementation guidelines", None);
    ("additional reading", None);
    ("didactic activities", None);
    ("mock data", None);
    ("how-to guide", None);
    ("online course", None);
    ("online material", None);
    ("education", None);
    ("open educational resource", None);
    ("tool", None);
    ("toolkit", None);
    ("e-learning + workshop", None);
    ("pdf", None);
    ("recording", None);
    ("r shiny application", None);
    ("free online course", None);
    ("carpentries style curriculum", None);
    ("training materials with mock data", None);
    ("online modules", None);
    ("hackathon", None);
    ("vignette", None);
    ("api reference", None);
    ("educational materials", None);
    ("exercise", None);
    ("handout", None);
    ("workflow", None);
    ("installation instructions", None);
    ("manual", None);
    ("talk", None);
    ("knowledgebase", None);
    ("book", Some (NS BIBO "book"));
    ("notes", None);
    ("computational biology", None);
    ("computer science", None);
    ("data science", None);
    ("transcriptomics", None);
    ("machine learning", None);
    ("life sciences literature database", None);
    ("life science literature database", None);
    ("viralzone", None) ].

Definition RESOURCE_TYPE_MAP : gmap string (option URIRef) :=
  list_to_map RESOURCE_TYPE_MAP_items.

Definition DIFFICULTY_LEVEL_MAP_items : list (string * option URIRef) :=
  [ ("advanced", Some (NS MODALIA "Expert"));
    ("beginner", Some (NS MODALIA "Beginner"));
    ("intermediate", Some (NS MODALIA "Competent"));
    ("notspecified", None) ].

Definition DIFFICULTY_LEVEL_MAP : gmap string (option URIRef) :=
  list_to_map DIFFICULTY_LEVEL_MAP_items.

(** The SPDX identifiers as the dict literal spells them; the key of each
    entry is [label.lower()]. *)
Definition LICENSES_source : list (string * string) :=
  [ ("CC-BY-1.0", "CC-BY-1.0");
    ("CC-BY-2.0", "CC-BY-2.0");
    ("CC-BY-3.0", "CC-BY-3.0");
    ("CC-BY-4.0", "CC-BY-4.0");
    ("CC-BY-SA-4.0", "CC-BY-SA-4.0");
    ("CC-BY-ND-4.0", "CC-BY-ND-4.0");
    ("CC-BY-ND-2.0", "CC-BY-ND-2.0");
    ("CC-BY-NC-4.0", "CC-BY-NC-4.0");
    ("CC-BY-NC-2.0", "CC-BY-NC-2.0");
    ("CC-BY-NC-SA-3.0", "CC-BY-NC-SA-3.0");
    ("CC-BY-NC-SA-4.0", "CC-BY-NC-SA-4.0");
    ("CC-BY-NC-ND-3.0", "CC-BY-NC-ND-3.0");
    ("CC-BY-NC-ND-4.0", "CC-BY-NC-ND-4.0");
    ("CC0-1.0", "CC0-1.0");
    ("MIT", "MIT");
    ("gpl-2.0", "GPL-2.0");
    ("gpl-3.0-only", "GPL-3.0-only");
    ("gpl-3.0", "GPL-3.0-or-later");
    ("agpl-3.0-only", "AGPL-3.0-only");
    ("unlicense", "Unlicense");
    ("Apache-2.0", "Apache-2.0");
    ("BSD-3-Clause", "BSD-3-Clause");
    ("Artistic-2.0", "Artistic-2.0");
    ("AFL-3.0", "AFL-3.0");
    ("ODC-By-1.0", "ODC-By-1.0");
    ("WTFPL", "WTFPL") ].

Definition LICENSES_items : list (string * URIRef) :=
  map (fun kv => (lower (fst kv), NS SPDX_LICENSE (snd kv))) LICENSES_source.

Definition LICENSES : gmap string URIRef := list_to_map LICENSES_items.

Arguments RESOURCE_TYPE_MAP : simpl never.
Arguments DIFFICULTY_LEVEL_MAP : simpl never.
Arguments LICENSES : simpl never.

(** A line written with [tqdm.write], with the colour given to
    [click.style] when there is one. *)
Inductive line : Set :=
| Plain (text : string)
| Styled (fg : string) (text : string).

(** The module-level mutable state: the two [Counter]s, the set of
    unmappable difficulty levels, and what has been written out. *)
Record globals : Type := Globals {
  unknown_resource_type : gmap string nat;
  unknown_difficulty : gset string;
  license_counter : gmap string nat;
  written : list line;
}.

Definition initial : globals :=
  {| unknown_resource_type := ∅; unknown_difficulty := ∅;
     license_counter := ∅; written := [] |}.

(** Computations over the module state that may raise. *)
Definition M (A : Type) : Type := globals -> result A * globals.

Definition ret {A} (a : A) : M A := fun g => (Ok a, g).
Definition raise {A} (e : exn) : M A := fun g => (Raise e, g).
Definition bind {A B} (m : M A) (k : A -> M B) : M B :=
  fun g => match m g with
           | (Ok a, g') => k a g'
           | (Raise e, g') => (Raise e, g')
           end.

(** [counter[key]]: a missing key reads as 0 and is not inserted. *)
Definition counter_get (c : gmap string nat) (key : string) : nat :=
  default 0 (c !! key).

(** [counter[key] += 1] *)
Definition counter_incr (c : gmap string nat) (key : string)
  : gmap string nat :=
  <[key := counter_get c key + 1]> c.

Definition tqdm_write (l : line) : M unit :=
  fun g => (Ok tt,
            {| unknown_resource_type := unknown_resource_type g;
               unknown_difficulty := unknown_difficulty g;
               license_counter := license_counter g;
               written := (written g ++ [l])%list |}).

Definition incr_unknown_resource_type (key : string) : M unit :=
  fun g => (Ok tt,
            {| unknown_resource_type :=
                 counter_incr (unknown_resource_type g) key;
               unknown_difficulty := unknown_difficulty g;
               license_counter := license_counter g;
               written := written g |}).

Definition incr_license_counter (key : string) : M unit :=
  fun g => (Ok tt,
            {| unknown_resource_type := unknown_resource_type g;
               unknown_difficulty := unknown_difficulty g;
               license_counter := counter_incr (license_counter g) key;
               written := written g |}).

Definition add_unknown_difficulty (key : string) : M unit :=
  fun g => (Ok tt,
            {| unknown_resource_type := unknown_resource_type g;
               unknown_difficulty := {[ key ]} ∪ unknown_difficulty g;
               license_counter := license_counter g;
               written := written g |}).

Definition get {A} (f : globals -> A) : M A := fun g => (Ok (f g), g).

Declare Scope tess_scope.
Delimit Scope tess_scope with tess.
Notation "'do' x <- m 'in' k" := (bind m (fun x => k))
  (at level 10, x name, m at level 100, k at level 200,
   format "'[v' 'do'  x  <-  m  'in' '/' k ']'") : tess_scope.
Notation "'run' m 'in' k" := (bind m (fun _ => k))
  (at level 10, m at level 100, k at level 200,
   format "'[v' 'run'  m  'in' '/' k ']'") : tess_scope.
Local Open Scope tess_scope.

(** [for x in xs: acc = body(acc, x)] *)
Fixpoint for_each {A S : Type} (body : S -> A -> M S) (acc : S)
  (xs : list A) : M S :=
  match xs with
  | [] => ret acc
  | x :: xs' => do acc' <- body acc x in for_each body acc' xs'
  end.

(** The [attributes] object of a TeSS material, restricted to the keys
    read here.  ["licence"] holds a string or [None]; ["resource-type"]
    and ["difficulty-level"] may be missing. *)
Record attributes : Set := Attributes {
  licence : option string;
  resource_type : option (list string);
  difficulty_level : option string;
}.

(** [x.lower()] and [x.strip()] on a value that is a [str] or [None]:
    [None] has neither attribute. *)
Definition method_lower (x : option string) : M (option string) :=
  match x with
  | None => raise AttributeError
  | Some s => ret (Some (lower s))
  end.

Definition method_strip (x : option string) : M (option string) :=
  match x with
  | None => raise AttributeError
  | Some s => ret (Some (strip s))
  end.

(** [RESOURCE_TYPE_MAP.get(key)]: [None] for a missing key and for a key
    mapped to [None] alike. *)
Definition dict_get {V} (d : gmap string (option V)) (key : string)
  : option V :=
  match d !! key with
  | Some v => v
  | None => None
  end.

Definition unknown_resource_type_line (resource_type : string) : line :=
  Styled "red" (dquote +:+ resource_type +:+ dquote +:+ ": None,").

(** The body of the loop of [_get_resource_types]. *)
Definition _get_resource_types_body (rv : list URIRef)
  (resource_type : string) : M (list URIRef) :=
  let resource_type := strip (lower resource_type) in
  let nn := dict_get RESOURCE_TYPE_MAP resource_type in
  match nn with
  | Some uri => ret (rv ++ [uri])%list
  | None =>
      do seen <- get (fun g =>
                        counter_get (unknown_resource_type g) resource_type) in
      run (if Nat.eqb seen 0
           then tqdm_write (unknown_resource_type_line resource_type)
           else ret tt) in
      run incr_unknown_resource_type resource_type in
      ret rv
  end.

Definition _get_resource_types (a : attributes) : M (list URIRef) :=
  for_each _get_resource_types_body [] (default [] (resource_type a)).

Definition unmappable_difficulty_line (difficulty_level : string) : line :=
  Styled "red" ("unmappable difficulty-level: " +:+ difficulty_level).

Definition _get_difficulty_levels (a : attributes) : M (list URIRef) :=
  match difficulty_level a with
  | None => ret []
  | Some EmptyString => ret []
  | Some difficulty_level =>
      let difficulty_level := strip (lower difficulty_level) in
      if String.eqb difficulty_level "notspecified" then ret []
      else
        match dict_get DIFFICULTY_LEVEL_MAP difficulty_level with
        | Some xx => ret [xx]
        | None =>
            do known <- get (fun g =>
                               bool_decide
                                 (difficulty_level ∈ unknown_difficulty g)) in
            run (if known then ret tt
                 else run add_unknown_difficulty difficulty_level in
                      tqdm_write
                        (unmappable_difficulty_line difficulty_level)) in
            ret []
        end
  end.

(** What [_get_license] returns besides [None]: an identifier of the
    table, or the text itself. *)
Inductive license : Set :=
| LicenseURI (uri : URIRef)
| LicenseText (text : string).

Definition missing_license_line (license_text : string) : line :=
  Plain ("Missing license for " +:+ license_text).

Definition _get_license (a : attributes) : M (option license) :=
  do lowered <- method_lower (licence a) in
  do license_text <- method_strip lowered in
  match license_text with
  | None => ret None
  | Some license_text =>
      if String.eqb license_text "notspecified" then ret None
      else
        match LICENSES !! license_text with
        | Some uri => ret (Some (LicenseURI uri))
        | None =>
            do absent <- get (fun g =>
                                bool_decide
                                  (license_counter g !! license_text = None)) in
            run (if absent
                 then tqdm_write (missing_license_line license_text)
                 else ret tt) in
            run incr_license_counter license_text in
            ret (Some (LicenseText license_text))
        end
  end.

End Tess.


(** ** Iteration built-ins *)

Module Py.

(** [enumerate(xs, start)] *)
Fixpoint enumerate {A} (start : nat) (xs : list A) : list (nat * A) :=
  match xs with
  | [] => []
  | x :: xs' => (start, x) :: enumerate (S start) xs'
  end.

(** [[y for x in xs if (y := f(x)) is not None]], where [f] may raise:
    the first exception ends the comprehension. *)
Fixpoint collect {A B} (f : A -> result (option B)) (xs : list A)
  : result (list B) :=
  match xs with
  | [] => Ok []
  | x :: xs' =>
      match f x with
      | Raise e => Raise e
      | Ok y =>
          match collect f xs' with
          | Raise e => Raise e
          | Ok ys => Ok (match y with
                         | Some y' => y' :: ys
                         | None => ys
                         end)
          end
      end
  end.

End Py.

(** ** Regular expressions, as [re] matches them

    A backtracking matcher for the constructs used by the patterns of
    [oerbservatory.sources.dalia], with Python's conventions: alternatives
    are tried from left to right, [*] is greedy, [.] matches anything but a
    line feed, [\s] matches what [str.isspace] accepts, [^] matches at the
    start of the subject, and [$] matches at its end or just before a line
    feed that ends it. *)

Module Regex.
Import PyStr.

Inductive re : Set :=
| Lit (c : ascii)
| Dot
| Space
| Bol
| Eol
| Seq (r1 r2 : re)
| Alt (r1 r2 : re)
| Star (r : re)
| Group (name : string) (r : re).

Definition LF : ascii := ascii_of_nat 10.

(** Where the matcher stands: how many characters are behind it, what is
    left of the subject, and the groups captured so far (the latest
    first). *)
Record mstate : Set := MState {
  pos : nat;
  rest : string;
  groups : list (string * string);
}.

Definition advance (st : mstate) (t : string) : mstate :=
  {| pos := S (pos st); rest := t; groups := groups st |}.

Definition set_group (name text : string) (st : mstate) : mstate :=
  {| pos := pos st; rest := rest st; groups := (name, text) :: groups st |}.

Fixpoint take (n : nat) (s : string) : string :=
  match n, s with
  | S n', String c s' => String c (take n' s')
  | _, _ => EmptyString
  end.

(** The text between two places of the subject, given what was left of
    it at each. *)
Definition consumed (before after : string) : string :=
  take (String.length before - String.length after) before.

(** One character accepted by [ok]. *)
Definition one {A} (ok : ascii -> bool) (st : mstate)
  (k : mstate -> option A) : option A :=
  match rest st with
  | String c t => if ok c then k (advance st t) else None
  | EmptyString => None
  end.

Definition at_end (s : string) : bool :=
  match s with
  | EmptyString => true
  | String c EmptyString => Ascii.eqb c LF
  | _ => false
  end.

Definition or_else {A} (x y : option A) : option A :=
  match x with
  | Some _ => x
  | None => y
  end.

(** The loop of a greedy [*]: one more turn of [step] first, as long as
    it moves forward, and the continuation when that fails.  [fuel]
    bounds the turns; the characters left to read are enough. *)
Fixpoint star {A} (step : mstate -> (mstate -> option A) -> option A)
  (k : mstate -> option A) (fuel : nat) (st : mstate) : option A :=
  match fuel with
  | O => k st
  | S fuel' =>
      or_else
        (step st
           (fun st' =>
              if Nat.ltb (String.length (rest st'))
                         (String.length (rest st))
              then star step k fuel' st' else None))
        (k st)
  end.

(** [run r st k]: match [r] from [st], then go on with [k]; when [k]
    fails, the next way of matching [r] is tried. *)
Fixpoint run {A} (r : re) (st : mstate) (k : mstate -> option A)
  : option A :=
  match r with
  | Lit c => one (Ascii.eqb c) st k
  | Dot => one (fun c => negb (Ascii.eqb c LF)) st k
  | Space => one isspace st k
  | Bol => if Nat.eqb (pos st) 0 then k st else None
  | Eol => if at_end (rest st) then k st else None
  | Seq r1 r2 => run r1 st (fun st' => run r2 st' k)
  | Alt r1 r2 => or_else (run r1 st k) (run r2 st k)
  | Star r1 => star (run r1) k (S (String.length (rest st))) st
  | Group name r1 =>
      run r1 st
        (fun st' => k (set_group name (consumed (rest st) (rest st')) st'))
  end.

(** [pattern.match(subject)]: the captured groups, or [None]. *)
Definition re_match (r : re) (subject : string)
  : option (list (string * string)) :=
  run r {| pos := 0; rest := subject; groups := [] |}
    (fun st => Some (groups st)).

(** [m.group(name)] *)
Fixpoint group (m : list (string * string)) (name : string)
  : option string :=
  match m with
  | [] => None
  | (n, text) :: m' => if String.eqb n name then Some text else group m' name
  end.

(** The matches of a pattern, without the order in which they are
    tried. *)
Inductive matches : re -> mstate -> mstate -> Prop :=
| m_lit c st t :
    rest st = String c t -> matches (Lit c) st (advance st t)
| m_dot c st t :
    rest st = String c t -> c <> LF -> matches Dot st (advance st t)
| m_space c st t :
    rest st = String c t -> isspace c = true ->
    matches Space st (advance st t)
| m_bol st : pos st = 0 -> matches Bol st st
| m_eol st : at_end (rest st) = true -> matches Eol st st
| m_seq r1 r2 st st1 st2 :
    matches r1 st st1 -> matches r2 st1 st2 -> matches (Seq r1 r2) st st2
| m_alt_l r1 r2 st st' : matches r1 st st' -> matches (Alt r1 r2) st st'
| m_alt_r r1 r2 st st' : matches r2 st st' -> matches (Alt r1 r2) st st'
| m_star_stop r st : matches (Star r) st st
| m_star_more r st st1 st2 :
    matches r st st1 ->
    String.length (rest st1) < String.length (rest st) ->
    matches (Star r) st1 st2 ->
    matches (Star r) st st2
| m_group name r st st' :
    matches r st st' ->
    matches (Group name r) st
      (set_group name (consumed (rest st) (rest st')) st').

End Regex.

(** ** [oerbservatory.sources.dalia] *)

Module Dalia.
Import PyStr Regex.

(** [RE] (dalia.py, line 40), piece by piece: the start of the subject;
    the group [name], any run of characters, as long as possible; one
    white-space character; an opening parenthesis; the group [relation],
    one of S, R, SR and RS, tried in that order; a closing parenthesis;
    the end of the subject. *)
Definition RE : re :=
  Seq Bol
    (Seq (Group "name" (Star Dot))
       (Seq Space
          (Seq (Lit "(")
             (Seq (Group "relation"
                     (Alt (Lit "S")
                        (Alt (Lit "R")
                           (Alt (Seq (Lit "S") (Lit "R"))
                              (Seq (Lit "R") (Lit "S"))))))
                (Seq (Lit ")") Eol))))).

(** [\d] on the code points 0..255: one of the ten digits. *)
Definition digit : re :=
  Alt (Lit "0")
    (Alt (Lit "1")
       (Alt (Lit "2")
          (Alt (Lit "3")
             (Alt (Lit "4")
                (Alt (Lit "5")
                   (Alt (Lit "6")
                      (Alt (Lit "7") (Alt (Lit "8") (Lit "9"))))))))).

(** [r{n}] and then [tail]. *)
Fixpoint repeat_then (n : nat) (r tail : re) : re :=
  match n with
  | O => tail
  | S n' => Seq r (repeat_then n' r tail)
  end.

(** [ORCID_RE] (dalia.py, line 35): the start of the subject; three
    times four digits and a hyphen; three digits; the group 1, a digit
    or the letter X; the end of the subject. *)
Definition ORCID_RE : re :=
  Seq Bol
    (repeat_then 4 digit
       (Seq (Lit "-")
          (repeat_then 4 digit
             (Seq (Lit "-")
                (repeat_then 4 digit
                   (Seq (Lit "-")
                      (repeat_then 3 digit
                         (Seq (Group "1" (Alt digit (Lit "X"))) Eol)))))))).

(** [_process_size]; [ByteSize] is an [int]. *)
Definition _process_size (x : option string) : result (option Z) :=
  match x with
  | None => Ok None
  | Some x =>
      if negb (endswith x " MB") then Raise ValueError
      else
        match PyFloat.float (removesuffix x " MB") with
        | Raise e => Raise e
        | Ok f =>
            match PyFloat.int (PyFloat.mul f (PyFloat.of_int 1000000)) with
            | Raise e => Raise e
            | Ok n => Ok (Some n)
            end
        end
  end.

(** [parse], with the reading of the file left out: the rows are
    numbered from 2 and the rows for which [_omni_process_row] gives
    [None] are dropped.  [_omni_process_row] calls [parse_dif13_row] of
    dalia_dif, so it is taken as it comes. *)
Definition parse {Row Resource}
  (_omni_process_row : nat -> Row -> result (option Resource))
  (records : list Row) : result (list Resource) :=
  Py.collect (fun ir => _omni_process_row (fst ir) (snd ir))
    (Py.enumerate 2 records).

End Dalia.

(** ** [oerbservatory.export.tess] *)

Module ExportTess.

(** A text per language code. *)
Abbreviation lang_text := (gmap string string).

(** Modelled from the spec: the class [EducationalResource] of
    [oerbservatory.model], which is not under src, with the fields that
    [export_tess] reads.  The language-tagged fields are mappings from a
    language code to a text, and may be absent. *)
Record EducationalResource : Type := {
  oer_title : option lang_text;
  oer_description : option lang_text;
  oer_external_uri : option string;
  oer_keywords : option (list lang_text);
  oer_disciplines : list URIRef;
}.

(** The fields of [EducationalResourceDIF13] (of the library dalia_dif)
    that [_from_dalia_dif13] reads; [dif_uuid] stands for [str(uuid)]. *)
Record EducationalResourceDIF13 : Type := {
  dif_uuid : string;
  dif_title : string;
  dif_links : list string;
  dif_description : option string;
  dif_keywords : list string;
  dif_disciplines : option (list URIRef);
}.





Section WithModel.
(** [EN], the language code of [oerbservatory.model], and
    [get_discipline_label] of dalia_dif: neither is under src. *)
Variable EN : string.
Variable get_discipline_label : URIRef -> string.





End WithModel.

End ExportTess.

(** ** Vocabulary of the specification *)

Module Vocabulary.
Import PyStr Tess.

(** Two characters that are the same letter in either case. *)
Definition same_letter (a b : ascii) : bool :=
  Ascii.eqb a b
  || (isupper a && Ascii.eqb (lower_char a) b)
  || (isupper b && Ascii.eqb (lower_char b) a).

(** [casing_variant s t]: [s] spells [t] with some letters in the other
    case. *)
Fixpoint casing_variant (s t : string) : bool :=
  match s, t with
  | EmptyString, EmptyString => true
  | String a s', String b t' => same_letter a b && casing_variant s' t'
  | _, _ => false
  end.

(** The module states a run can be in: the state at import, and the state
    after any call of the three functions that touch it. *)
Inductive reachable : globals -> Prop :=
| reach_initial : reachable initial
| reach_resource_types a g :
    reachable g -> reachable (snd (_get_resource_types a g))
| reach_difficulty_levels a g :
    reachable g -> reachable (snd (_get_difficulty_levels a g))
| reach_license a g :
    reachable g -> reachable (snd (_get_license a g)).

#[global] Instance line_eq_dec : EqDecision line.
Proof. solve_decision. Defined.

(** How often a line has been written. *)
Definition times_written (l : line) (g : globals) : nat :=
  count_occ line_eq_dec (written g) l.

(** The tallies and the written lines agree: a diagnostic about a value
    has been written once if the value has been counted, and not at all
    otherwise; and a counted license is a key of the counter. *)
Definition tallies_agree (g : globals) : Prop :=
  forall v,
    times_written (unknown_resource_type_line v) g
    = Nat.min 1 (counter_get (unknown_resource_type g) v)
    /\ times_written (missing_license_line v) g
       = Nat.min 1 (counter_get (license_counter g) v)
    /\ (license_counter g !! v = None
        <-> counter_get (license_counter g) v = 0).

(** How many labels of a list are tallied under [v]: those that are [v]
    once lower-cased and trimmed and for which the table gives no
    identifier. *)
Definition tallied_as (v : string) (label : string) : bool :=
  String.eqb (strip (lower label)) v
  && match dict_get RESOURCE_TYPE_MAP (strip (lower label)) with
     | Some _ => false
     | None => true
     end.

Definition occurrences (v : string) (labels : list string) : nat :=
  length (List.filter (tallied_as v) labels).

Fixpoint no_newline (s : string) : bool :=
  match s with
  | EmptyString => true
  | String c s' => negb (Ascii.eqb c Regex.LF) && no_newline s'
  end.

(** The relation markers. *)
Definition markers : list string := ["S"; "R"; "SR"; "RS"].

(** [marked s name relation]: [s] is [name], one white-space character
    and the marker [relation] in parentheses, with nothing after it but
    possibly one line feed; [name] is on one line. *)
Definition marked (s name relation : string) : Prop :=
  no_newline name = true
  /\ In relation markers
  /\ exists ws tail,
      isspace ws = true
      /\ (tail = EmptyString \/ tail = String Regex.LF EmptyString)
      /\ s = name +:+ String ws ("(" +:+ relation +:+ ")" +:+ tail).

(** [truncation_of x n]: [n] is the float [x] without its fractional
    part, that is, the integer next to [x] on the side of zero. *)
Definition truncation_of (x : spec_float) (n : Z) : Prop :=
  match x with
  | S754_zero _ => n = 0%Z
  | S754_finite s m e =>
      (if s then n <= 0 else 0 <= n)%Z
      /\ match e with
         | Zneg k =>
             (Z.abs n * 2 ^ Zpos k <= Zpos m < (Z.abs n + 1) * 2 ^ Zpos k)%Z
         | _ => Z.abs n = (Zpos m * 2 ^ e)%Z
         end
  | _ => False
  end.

End Vocabulary.

(** ** Invariants of the module state *)

Module Invariants.
Import PyStr Tess Vocabulary.

(** A value as the three functions key it: lower-cased, then trimmed. *)
Definition normalised (s : string) : Prop := strip (lower s) = s.

(** The set of unmappable levels and the written lines agree: the line
    about a level has been written once if the level is in the set, and
    not at all otherwise. *)
Definition levels_agree (g : globals) : Prop :=
  forall d,
    times_written (unmappable_difficulty_line d) g
    = if bool_decide (d ∈ unknown_difficulty g) then 1 else 0.

(** [grows g g']: whatever [g] records, [g'] records too. *)
Definition grows (g g' : globals) : Prop :=
  written g `prefix_of` written g'
  /\ (forall v, counter_get (unknown_resource_type g) v
                <= counter_get (unknown_resource_type g') v)
  /\ (forall v, counter_get (license_counter g) v
                <= counter_get (license_counter g') v)
  /\ unknown_difficulty g ⊆ unknown_difficulty g'.

(** Only values without an identifier are recorded, each under its
    normalised spelling, and a recorded value has been seen at least
    once. *)
Definition records_unmapped (g : globals) : Prop :=
  (forall k n, unknown_resource_type g !! k = Some n ->
               1 <= n /\ normalised k
               /\ dict_get RESOURCE_TYPE_MAP k = None)
  /\ (forall k n, license_counter g !! k = Some n ->
                  1 <= n /\ normalised k
                  /\ LICENSES !! k = None /\ k <> "notspecified")
  /\ (forall d, d ∈ unknown_difficulty g ->
                normalised d
                /\ dict_get DIFFICULTY_LEVEL_MAP d = None
                /\ d <> "notspecified").

End Invariants.

(** ** [oerbservatory.sources.tess]: the harvest of a TeSS instance *)

Module Harvest.
Import PyStr Tess.
Local Open Scope tess_scope.

(** Lines 199 to 205 of [get_tess_oers]: the value of [doi] once they
    have run, from the value of [attributes["doi"]].  A value that is
    falsy, [None] or the empty string, is left as it is. *)
Definition doi_uri (doi : option string) : option string :=
  match doi with
  | None => None
  | Some EmptyString => Some EmptyString
  | Some doi =>
      if String.eqb (strip doi) EmptyString || contains doi " " then None
      else
        let doi :=
          strip (removeprefix (removeprefix doi "https://doi.org/")
                   "http://doi.org/") in
        Some ("https://doi.org/" +:+ doi)
  end.

(** [x.strip()] on a value that is a [str] or [None]. *)
Definition str_strip (x : option string) : M string :=
  match x with
  | None => raise AttributeError
  | Some s => ret (strip s)
  end.

(** The outcome of a call that does not touch the module state. *)
Definition lift {A} (r : result A) : M A := fun g => (r, g).

(** The line that ends a harvest. *)
Definition created_line (key : string) (n : nat) : line :=
  Plain ("[" +:+ key +:+ "] created " +:+ format_thousands n +:+ " records").

Section WithModel.
(** [resolve_authors] of the model and [pyobo.get_grounder("ror")] are not
    under src: the grounder, the authors as TeSS gives them and as the
    model keeps them, and the dates, are taken as they come.
    [resolve_authors] may raise, and is taken not to write. *)
Variables RawAuthor Author Grounder Date : Type.
Variable resolve_authors : list RawAuthor -> Grounder -> result (list Author).
Variable pyobo_ror_grounder : Grounder.

(** A material of [client.get_materials()]: [material["links"]["self"]]
    and the entries of [material["attributes"]].  The three entries that
    the functions of [Tess] read are in [attrs]; ["doi"], ["title"] and
    ["description"] hold a string or [None]; ["keywords"],
    ["date-published"] and ["authors"] may be missing. *)
Record material : Type := Material {
  links_self : string;
  attrs : attributes;
  doi : option string;
  title : option string;
  description : option string;
  keywords : option (list string);
  date_published : option Date;
  authors : option (list RawAuthor);
}.

(** The keyword arguments that [get_tess_oers] gives to
    [EducationalResource]. *)
Record EducationalResource : Type := {
  oer_platform : string;
  oer_derived_from : string;
  oer_external_uri : option string;
  oer_title : gmap string string;
  oer_license : option license;
  oer_description : gmap string string;
  oer_keywords : list (gmap string string);
  oer_date_published : option Date;
  oer_resource_types : list URIRef;
  oer_difficulty_level : list URIRef;
  oer_authors : list Author;
}.

(** A [TeSSClient], with what [get_materials()] gives. *)
Record client : Type := Client {
  key : string;
  base_url : string;
  get_materials : list material;
}.

(** One turn of the loop of [get_tess_oers]; the keyword arguments are
    evaluated from first to last. *)
Definition get_tess_oers_body (c : client) (ror_grounder : Grounder)
  (rv : list EducationalResource) (m : material)
  : M (list EducationalResource) :=
  let attributes := attrs m in
  let doi := doi_uri (doi m) in
  let derived_from := base_url c +:+ links_self m in
  do title <- str_strip (title m) in
  do license <- _get_license attributes in
  do description <- str_strip (description m) in
  let keywords :=
    map (fun kw => ({[ "en" := strip kw ]} : gmap string string))
      (default [] (keywords m)) in
  do resource_types <- _get_resource_types attributes in
  do difficulty_level <- _get_difficulty_levels attributes in
  do authors <- lift (resolve_authors (default [] (authors m))
                        ror_grounder) in
  ret (rv ++ [ {| oer_platform := key c;
                  oer_derived_from := derived_from;
                  oer_external_uri := doi;
                  oer_title := {[ "en" := title ]};
                  oer_license := license;
                  oer_description := {[ "en" := description ]};
                  oer_keywords := keywords;
                  oer_date_published := date_published m;
                  oer_resource_types := resource_types;
                  oer_difficulty_level := difficulty_level;
                  oer_authors := authors |} ])%list.

Definition get_tess_oers (c : client) (include_description : bool)
  (ror_grounder : option Grounder) : M (list EducationalResource) :=
  let ror_grounder := default pyobo_ror_grounder ror_grounder in
  do rv <- for_each (get_tess_oers_body c ror_grounder) [] (get_materials c) in
  run tqdm_write (created_line (key c) (length rv)) in
  ret rv.

(** [get_tess], over the clients of [INSTANCES]. *)
Definition get_tess (INSTANCES : list client) (include_description : bool)
  (ror_grounder : option Grounder) : M (list EducationalResource) :=
  let ror_grounder := pyobo_ror_grounder in
  for_each
    (fun resources c =>
       do oers <- get_tess_oers c include_description (Some ror_grounder) in
       ret (resources ++ oers)%list)
    [] INSTANCES.

(** [made_from c m r]: the record [r] holds what [get_tess_oers] keeps of
    the material [m] of the client [c]. *)
Definition made_from (c : client) (m : material) (r : EducationalResource)
  : Prop :=
  oer_platform r = key c
  /\ oer_derived_from r = base_url c +:+ links_self m
  /\ oer_external_uri r = doi_uri (doi m)
  /\ (exists t, title m = Some t /\ oer_title r = {[ "en" := strip t ]})
  /\ (exists d, description m = Some d
                /\ oer_description r = {[ "en" := strip d ]})
  /\ oer_keywords r
     = map (fun kw => ({[ "en" := strip kw ]} : gmap string string))
         (default [] (keywords m))
  /\ oer_date_published r = date_published m
  /\ oer_resource_types r
     = omap (fun label => dict_get RESOURCE_TYPE_MAP (strip (lower label)))
         (default [] (resource_type (attrs m)))
  /\ length (oer_difficulty_level r) <= 1.

(** A material whose title, license and description are strings. *)
Definition has_texts (m : material) : bool :=
  match title m, licence (attrs m), description m with
  | Some _, Some _, Some _ => true
  | _, _, _ => false
  end.

(** A record whose license is the text [t], passed through. *)
Definition licensed_as (t : string) (r : EducationalResource) : bool :=
  match oer_license r with
  | Some (LicenseText t') => String.eqb t' t
  | _ => false
  end.

End WithModel.

Arguments Material {RawAuthor Date}.
Arguments links_self {RawAuthor Date}.
Arguments attrs {RawAuthor Date}.
Arguments doi {RawAuthor Date}.
Arguments title {RawAuthor Date}.
Arguments description {RawAuthor Date}.
Arguments keywords {RawAuthor Date}.
Arguments date_published {RawAuthor Date}.
Arguments authors {RawAuthor Date}.
Arguments oer_platform {Author Date}.
Arguments oer_derived_from {Author Date}.
Arguments oer_external_uri {Author Date}.
Arguments oer_title {Author Date}.
Arguments oer_license {Author Date}.
Arguments oer_description {Author Date}.
Arguments oer_keywords {Author Date}.
Arguments oer_date_published {Author Date}.
Arguments oer_resource_types {Author Date}.
Arguments oer_difficulty_level {Author Date}.
Arguments oer_authors {Author Date}.
Arguments Client {RawAuthor Date}.
Arguments key {RawAuthor Date}.
Arguments base_url {RawAuthor Date}.
Arguments get_materials {RawAuthor Date}.
Arguments get_tess_oers_body {RawAuthor Author Grounder Date}.
Arguments get_tess_oers {RawAuthor Author Grounder Date}.
Arguments get_tess {RawAuthor Author Grounder Date}.
Arguments made_from {RawAuthor Author Date}.
Arguments has_texts {RawAuthor Date}.
Arguments licensed_as {Author Date}.

End Harvest.

(** ** [oerbservatory.sources.dalia]: from a row to a resource *)

Module Convert.
Import PyStr.

(** [[f(x) for x in xs]], where [f] may raise: the first exception ends
    the comprehension. *)
Fixpoint comprehension {A B} (f : A -> result B) (xs : list A)
  : result (list B) :=
  match xs with
  | [] => Ok []
  | x :: xs' =>
      match f x with
      | Raise e => Raise e
      | Ok y =>
          match comprehension f xs' with
          | Raise e => Raise e
          | Ok ys => Ok (y :: ys)
          end
      end
  end.

(** What [_process_author] is given: an [AuthorDIF13], an
    [OrganizationDIF13], or an object of another class. *)
Inductive author_dif13 : Set :=
| AuthorDIF13 (name : string) (orcid : option string)
| OrganizationDIF13 (name : string) (ror wikidata : option string)
| other_object.

Inductive author : Set :=
| Author (name : string) (orcid : option string)
| Organization (name : string) (ror wikidata : option string).

Definition _process_author (e : author_dif13) : result author :=
  match e with
  | AuthorDIF13 name orcid => Ok (Author name orcid)
  | OrganizationDIF13 name ror wikidata => Ok (Organization name ror wikidata)
  | other_object => Raise TypeError
  end.

Section WithModel.
(** [EN] of [oerbservatory.model] and [parse_dif13_row] of dalia_dif are
    not under src; neither are the classes [EducationalResourceDIF13] and
    [EducationalResource], of which the fields that [_convert] reads and
    sets are kept.  [Value] stands for the values that [_convert] passes
    on as they are, and [Row] for a row of [csv.DictReader]. *)
Variable EN : string.
Variables Value Row : Type.

Record EducationalResourceDIF13 : Type := {
  uuid : string;
  links : list string;
  dif_title : string;
  dif_description : option string;
  dif_keywords : list string;
  dif_authors : list author_dif13;
  proficiency_levels : Value;
  dif_languages : Value;
  dif_license : Value;
  dif_file_formats : Value;
  publication_date : Value;
  dif_version : Value;
  target_groups : Value;
  dif_file_size : option string;
  learning_resource_types : Value;
  dif_media_types : Value;
  dif_disciplines : Value;
}.

(** The keyword arguments that [_convert] gives to
    [EducationalResource]; [reference] is the pair of the prefix and the
    identifier. *)
Record EducationalResource : Type := {
  reference : string * string;
  external_uri : list string;
  title : gmap string string;
  description : gmap string (option string);
  keywords : list (gmap string string);
  authors : list author;
  difficulty_level : Value;
  languages : Value;
  license : Value;
  file_formats : Value;
  date_published : Value;
  version : Value;
  audience : Value;
  file_size : option Z;
  resource_types : Value;
  media_types : Value;
  disciplines : Value;
}.

Variable parse_dif13_row :
  string -> nat -> Row -> result (option EducationalResourceDIF13).

(** [_convert]; the keyword arguments are evaluated from first to last,
    the authors before the file size. *)
Definition _convert (e : EducationalResourceDIF13)
  : result (option EducationalResource) :=
  match comprehension _process_author (dif_authors e) with
  | Raise x => Raise x
  | Ok authors_ =>
      match Dalia._process_size (dif_file_size e) with
      | Raise x => Raise x
      | Ok file_size_ =>
          Ok (Some
                {| reference := ("dalia.oer", uuid e);
                   external_uri := links e;
                   title := {[ EN := dif_title e ]};
                   description := {[ EN := dif_description e ]};
                   keywords :=
                     map (fun keyword => {[ EN := keyword ]})
                       (dif_keywords e);
                   authors := authors_;
                   difficulty_level := proficiency_levels e;
                   languages := dif_languages e;
                   license := dif_license e;
                   file_formats := dif_file_formats e;
                   date_published := publication_date e;
                   version := dif_version e;
                   audience := target_groups e;
                   file_size := file_size_;
                   resource_types := learning_resource_types e;
                   media_types := dif_media_types e;
                   disciplines := dif_disciplines e |})
      end
  end.

(** [_omni_process_row]; [path_name] is [path.name]. *)
Definition _omni_process_row (path_name : string) (idx : nat) (row : Row)
  : result (option EducationalResource) :=
  match parse_dif13_row path_name idx row with
  | Raise x => Raise x
  | Ok None => Ok None
  | Ok (Some ed13) => _convert ed13
  end.

(** [parse] on the rows of the file [path_name]. *)
Definition parse (path_name : string) (records : list Row)
  : result (list EducationalResource) :=
  Dalia.parse (_omni_process_row path_name) records.

(** [get_dalia], over the files of [get_dif13_paths()], each with its
    name and its rows: the files are parsed one after the other. *)
Fixpoint get_dalia (files : list (string * list Row))
  : result (list EducationalResource) :=
  match files with
  | [] => Ok []
  | (path_name, records) :: files' =>
      match parse path_name records with
      | Raise x => Raise x
      | Ok resources =>
          match get_dalia files' with
          | Raise x => Raise x
          | Ok others => Ok (resources ++ others)%list
          end
      end
  end.

End WithModel.

Arguments uuid {Value}.
Arguments links {Value}.
Arguments dif_title {Value}.
Arguments dif_description {Value}.
Arguments dif_keywords {Value}.
Arguments dif_authors {Value}.
Arguments dif_file_size {Value}.
Arguments reference {Value}.
Arguments external_uri {Value}.
Arguments title {Value}.
Arguments description {Value}.
Arguments keywords {Value}.
Arguments authors {Value}.
Arguments file_size {Value}.
Arguments _convert EN {Value}.
Arguments _omni_process_row EN {Value Row}.
Arguments parse EN {Value Row}.
Arguments get_dalia EN {Value Row}.

End Convert.

(** ** The shape of an ORCID *)

Module Orcid.
Import PyStr.

Fixpoint all_digits (s : string) : bool :=
  match s with
  | EmptyString => true
  | String c s' => PyFloat.isdigit c && all_digits s'
  end.

(** [n] digits. *)
Definition digits (n : nat) (s : string) : Prop :=
  String.length s = n /\ all_digits s = true.

(** [shaped s check]: [s] is three blocks of four digits and one of three
    digits, with hyphens between them, then [check], a digit or the
    letter X, and nothing after it but possibly one line feed. *)
Definition shaped (s : string) (check : ascii) : Prop :=
  exists a b c d tail,
    digits 4 a /\ digits 4 b /\ digits 4 c /\ digits 3 d
    /\ (PyFloat.isdigit check = true \/ check = "X"%char)
    /\ (tail = EmptyString \/ tail = String Regex.LF EmptyString)
    /\ s = a +:+ "-" +:+ b +:+ "-" +:+ c +:+ "-" +:+ d
           +:+ String check tail.

End Orcid.

(** ** [oerbservatory.sources.oersi] *)

Module Oersi.

(** The exception of a missing key, with the key. *)
Inductive error : Set := KeyError (key : string).

Inductive outcome (A : Type) : Type :=
| Returns (a : A)
| Raises (e : error).
Arguments Returns {A} a.
Arguments Raises {A} e.

(** [[f(x) for x in xs]], where [f] may raise. *)
Fixpoint comprehension {A B} (f : A -> outcome B) (xs : list A)
  : outcome (list B) :=
  match xs with
  | [] => Returns []
  | x :: xs' =>
      match f x with
      | Raises e => Raises e
      | Returns y =>
          match comprehension f xs' with
          | Raises e => Raises e
          | Returns ys => Returns (y :: ys)
          end
      end
  end.

(** A JSON object whose values are strings, such as the entries of
    ["audience"]. *)
Abbreviation object := (gmap string string).

(** [a["id"]] *)
Definition get_id (a : object) : outcome string :=
  match a !! "id" with
  | Some x => Returns x
  | None => Raises (KeyError "id")
  end.

Section WithModel.
(** [Value] stands for the JSON values that [_process] drops or passes on
    without looking at them, and [alpha3] for the table
    [_index_by_alpha2()] of pydantic_extra_types followed by [.alpha3]:
    [None] for a code that is not a key of the table. *)
Variable Value : Type.
Variable alpha3 : string -> option string.

(** A record of the OERSI dump, with the shapes the dump gives to its
    entries: the entries that [_process] pops, missing ([None]) or
    present, and the other entries.  [context] is the entry
    ["@context"]. *)
Record oersi_record : Type := {
  context : option Value;
  conditionsOfAccess : option Value;
  audience : option (list object);
  about : option (list object);
  description : option string;
  inLanguage : option (list string);
  learningResourceType : option (list object);
  datePublished : option Value;
  license : option object;
  name : option string;
  id : option string;
  others : gmap string Value;
}.

(** [record.pop(key, ...)] on the record: one function per key. *)
Definition pop_context (r : oersi_record) : oersi_record :=
  {| context := None;
     conditionsOfAccess := conditionsOfAccess r;
     audience := audience r;
     about := about r;
     description := description r;
     inLanguage := inLanguage r;
     learningResourceType := learningResourceType r;
     datePublished := datePublished r;
     license := license r;
     name := name r;
     id := id r;
     others := others r |}.

Definition pop_conditionsOfAccess (r : oersi_record) : oersi_record :=
  {| context := context r;
     conditionsOfAccess := None;
     audience := audience r;
     about := about r;
     description := description r;
     inLanguage := inLanguage r;
     learningResourceType := learningResourceType r;
     datePublished := datePublished r;
     license := license r;
     name := name r;
     id := id r;
     others := others r |}.

Definition pop_audience (r : oersi_record) : oersi_record :=
  {| context := context r;
     conditionsOfAccess := conditionsOfAccess r;
     audience := None;
     about := about r;
     description := description r;
     inLanguage := inLanguage r;
     learningResourceType := learningResourceType r;
     datePublished := datePublished r;
     license := license r;
     name := name r;
     id := id r;
     others := others r |}.

Definition pop_about (r : oersi_record) : oersi_record :=
  {| context := context r;
     conditionsOfAccess := conditionsOfAccess r;
     audience := audience r;
     about := None;
     description := description r;
     inLanguage := inLanguage r;
     learningResourceType := learningResourceType r;
     datePublished := datePublished r;
     license := license r;
     name := name r;
     id := id r;
     others := others r |}.

Definition pop_description (r : oersi_record) : oersi_record :=
  {| context := context r;
     conditionsOfAccess := conditionsOfAccess r;
     audience := audience r;
     about := about r;
     description := None;
     inLanguage := inLanguage r;
     learningResourceType := learningResourceType r;
     datePublished := datePublished r;
     license := license r;
     name := name r;
     id := id r;
     others := others r |}.

Definition pop_inLanguage (r : oersi_record) : oersi_record :=
  {| context := context r;
     conditionsOfAccess := conditionsOfAccess r;
     audience := audience r;
     about := about r;
     description := description r;
     inLanguage := None;
     learningResourceType := learningResourceType r;
     datePublished := datePublished r;
     license := license r;
     name := name r;
     id := id r;
     others := others r |}.

Definition pop_learningResourceType (r : oersi_record) : oersi_record :=
  {| context := context r;
     conditionsOfAccess := conditionsOfAccess r;
     audience := audience r;
     about := about r;
     description := description r;
     inLanguage := inLanguage r;
     learningResourceType := None;
     datePublished := datePublished r;
     license := license r;
     name := name r;
     id := id r;
     others := others r |}.

Definition pop_datePublished (r : oersi_record) : oersi_record :=
  {| context := context r;
     conditionsOfAccess := conditionsOfAccess r;
     audience := audience r;
     about := about r;
     description := description r;
     inLanguage := inLanguage r;
     learningResourceType := learningResourceType r;
     datePublished := None;
     license := license r;
     name := name r;
     id := id r;
     others := others r |}.

Definition pop_license (r : oersi_record) : oersi_record :=
  {| context := context r;
     conditionsOfAccess := conditionsOfAccess r;
     audience := audience r;
     about := about r;
     description := description r;
     inLanguage := inLanguage r;
     learningResourceType := learningResourceType r;
     datePublished := datePublished r;
     license := None;
     name := name r;
     id := id r;
     others := others r |}.

Definition pop_name (r : oersi_record) : oersi_record :=
  {| context := context r;
     conditionsOfAccess := conditionsOfAccess r;
     audience := audience r;
     about := about r;
     description := description r;
     inLanguage := inLanguage r;
     learningResourceType := learningResourceType r;
     datePublished := datePublished r;
     license := license r;
     name := None;
     id := id r;
     others := others r |}.

Definition pop_id (r : oersi_record) : oersi_record :=
  {| context := context r;
     conditionsOfAccess := conditionsOfAccess r;
     audience := audience r;
     about := about r;
     description := description r;
     inLanguage := inLanguage r;
     learningResourceType := learningResourceType r;
     datePublished := datePublished r;
     license := license r;
     name := name r;
     id := None;
     others := others r |}.

(** [_index_by_alpha2()[language].alpha3] *)
Definition language_alpha3 (language : string) : outcome string :=
  match alpha3 language with
  | Some code => Returns code
  | None => Raises (KeyError language)
  end.

(** The keyword arguments that [_process] gives to
    [EducationalResource]; a [URIRef] is the text of the address. *)
Record EducationalResource : Type := {
  oer_platform : string;
  oer_external_uri : string;
  oer_title : gmap string string;
  oer_description : option (gmap string string);
  oer_date_published : option Value;
  oer_audience : list string;
  oer_resource_types : list string;
  oer_disciplines : list string;
  oer_languages : list string;
}.

(** [_process]: what it returns or raises, and the record as the call
    leaves it, every [pop] taking its entry out of it. *)
Definition _process (record : oersi_record)
  : outcome EducationalResource * oersi_record :=
  let record := pop_conditionsOfAccess (pop_context record) in
  let audience_ := default [] (audience record) in
  let record := pop_audience record in
  match comprehension get_id audience_ with
  | Raises e => (Raises e, record)
  | Returns audiences =>
  let about_ := default [] (about record) in
  let record := pop_about record in
  match comprehension get_id about_ with
  | Raises e => (Raises e, record)
  | Returns disciplines =>
  let description_ := description record in
  let record := pop_description record in
  let inLanguage_ := default [] (inLanguage record) in
  let record := pop_inLanguage record in
  match comprehension language_alpha3 inLanguage_ with
  | Raises e => (Raises e, record)
  | Returns languages =>
  let learningResourceType_ := default [] (learningResourceType record) in
  let record := pop_learningResourceType record in
  match comprehension get_id learningResourceType_ with
  | Raises e => (Raises e, record)
  | Returns resource_types =>
  let date_published := datePublished record in
  let record := pop_datePublished record in
  let license_ := license record in
  let record := pop_license record in
  match
    match license_ with
    | None => Returns None
    | Some o => match get_id o with
                | Returns x => Returns (Some x)
                | Raises e => Raises e
                end
    end
  with
  | Raises e => (Raises e, record)
  | Returns _ =>
  match name record with
  | None => (Raises (KeyError "name"), record)
  | Some name_ =>
  let record := pop_name record in
  match id record with
  | None => (Raises (KeyError "id"), record)
  | Some uri =>
  let record := pop_id record in
  (Returns
     {| oer_platform := "oersi";
        oer_external_uri := uri;
        oer_title := {[ "en" := name_ ]};
        oer_description :=
          match description_ with
          | None | Some EmptyString => None
          | Some text => Some {[ "en" := text ]}
          end;
        oer_date_published := date_published;
        oer_audience := audiences;
        oer_resource_types := resource_types;
        oer_disciplines := disciplines;
        oer_languages := languages |},
   record)
  end end end end end end end.

(** [get_oersi], over the records of [get_oersi_raw()]. *)
Definition get_oersi (records : list oersi_record)
  : outcome (list EducationalResource) :=
  comprehension (fun record => fst (_process record)) records.

(** An object with an ["id"]. *)
Definition has_id (a : object) : bool :=
  match a !! "id" with
  | Some _ => true
  | None => false
  end.

(** A language that is a key of the table. *)
Definition known (language : string) : bool :=
  match alpha3 language with
  | Some _ => true
  | None => false
  end.

(** A record on which [_process] returns: every entry of ["audience"],
    ["about"] and ["learningResourceType"] has an ["id"], so has the
    ["license"] when there is one, every language is a key of the table,
    and ["name"] and ["id"] are there. *)
Definition complete (r : oersi_record) : bool :=
  forallb has_id (default [] (audience r))
  && forallb has_id (default [] (about r))
  && forallb known (default [] (inLanguage r))
  && forallb has_id (default [] (learningResourceType r))
  && match license r with
     | Some o => has_id o
     | None => true
     end
  && match name r, id r with
     | Some _, Some _ => true
     | _, _ => false
     end.

(** The record without the entries that [_process] pops. *)
Definition consumed (r : oersi_record) : oersi_record :=
  {| context := None; conditionsOfAccess := None; audience := None;
     about := None; description := None; inLanguage := None;
     learningResourceType := None; datePublished := None;
     license := None; name := None; id := None; others := others r |}.

End WithModel.

Arguments context {Value}.
Arguments conditionsOfAccess {Value}.
Arguments audience {Value}.
Arguments about {Value}.
Arguments description {Value}.
Arguments inLanguage {Value}.
Arguments learningResourceType {Value}.
Arguments datePublished {Value}.
Arguments license {Value}.
Arguments name {Value}.
Arguments id {Value}.
Arguments others {Value}.
Arguments pop_context {Value}.
Arguments pop_conditionsOfAccess {Value}.
Arguments pop_audience {Value}.
Arguments pop_about {Value}.
Arguments pop_description {Value}.
Arguments pop_inLanguage {Value}.
Arguments pop_learningResourceType {Value}.
Arguments pop_datePublished {Value}.
Arguments pop_license {Value}.
Arguments pop_name {Value}.
Arguments pop_id {Value}.
Arguments oer_platform {Value}.
Arguments oer_external_uri {Value}.
Arguments oer_title {Value}.
Arguments oer_description {Value}.
Arguments oer_date_published {Value}.
Arguments oer_audience {Value}.
Arguments oer_resource_types {Value}.
Arguments oer_disciplines {Value}.
Arguments oer_languages {Value}.
Arguments _process {Value}.
Arguments get_oersi {Value}.
Arguments complete {Value}.
Arguments consumed {Value}.

End Oersi.

(** * Properties *)

(** ** Facts about the string built-ins *)

Section StringFacts.
Import PyStr.

Lemma lower_char_idem c : lower_char (lower_char c) = lower_char c.
Proof. destruct c as [[] [] [] [] [] [] [] []]; reflexivity. Qed.

Lemma lower_idem s : lower (lower s) = lower s.
Proof.
  induction s as [|c s IH]; simpl; [reflexivity|].
  now rewrite lower_char_idem, IH.
Qed.

Lemma string_length_app (s t : string) :
  String.length (s +:+ t) = String.length s + String.length t.
Proof. induction s as [|c s IH]; simpl; [reflexivity | now rewrite IH]. Qed.

Lemma string_app_inv_tail (s1 s2 t : string) :
  s1 +:+ t = s2 +:+ t -> s1 = s2.
Proof.
  revert s2. induction s1 as [|c s1 IH]; intros [|d s2] H; simpl in H.
  - reflexivity.
  - apply (f_equal String.length) in H.
    rewrite !string_length_app in H. simpl in H. lia.
  - apply (f_equal String.length) in H.
    rewrite !string_length_app in H. simpl in H. lia.
  - injection H as -> H. f_equal. now apply IH.
Qed.

Lemma string_app_inv_head (s t1 t2 : string) :
  s +:+ t1 = s +:+ t2 -> t1 = t2.
Proof.
  induction s as [|c s IH]; simpl; intros H; [exact H|].
  injection H as H. now apply IH.
Qed.

End StringFacts.

(** ** The tables *)

Section Tables.
Import PyStr Tess.

(** Looking a key up in a dict literal finds one of its items. *)
Lemma lookup_items {V} (items : list (string * V)) key v :
  (list_to_map items : gmap string V) !! key = Some v -> (key, v) ∈ items.
Proof. apply elem_of_list_to_map_2. Qed.

Lemma forallb_items {V} (p : string * V -> bool) (items : list (string * V))
  key v :
  forallb p items = true ->
  (list_to_map items : gmap string V) !! key = Some v ->
  p (key, v) = true.
Proof.
  intros Hall Hin. apply lookup_items in Hin.
  rewrite forallb_forall in Hall. apply Hall.
  now apply list_elem_of_In.
Qed.

(** Every key of [LICENSES] is already lower-cased and trimmed. *)
Lemma LICENSES_key_normal key uri :
  LICENSES !! key = Some uri -> strip (lower key) = key.
Proof.
  intros H.
  apply (forallb_items
           (fun kv => String.eqb (strip (lower (fst kv))) (fst kv))) in H;
    [|vm_compute; reflexivity].
  now apply String.eqb_eq in H.
Qed.

Lemma LICENSES_key_lower key uri :
  LICENSES !! key = Some uri -> lower key = key.
Proof.
  intros H.
  apply (forallb_items
           (fun kv => String.eqb (lower (fst kv)) (fst kv))) in H;
    [|vm_compute; reflexivity].
  now apply String.eqb_eq in H.
Qed.

Lemma RESOURCE_TYPE_MAP_key_normal key v :
  RESOURCE_TYPE_MAP !! key = Some v -> strip (lower key) = key.
Proof.
  intros H.
  apply (forallb_items
           (fun kv => String.eqb (strip (lower (fst kv))) (fst kv))) in H;
    [|vm_compute; reflexivity].
  now apply String.eqb_eq in H.
Qed.

Lemma notspecified_not_license : LICENSES !! "notspecified" = None.
Proof. vm_compute. reflexivity. Qed.

Lemma empty_not_license : LICENSES !! EmptyString = None.
Proof. vm_compute. reflexivity. Qed.

End Tables.

(** ** The license normaliser *)

Section License.
Import PyStr Tess Vocabulary.
Local Open Scope tess_scope.

(** What [_get_license] does on a string, in one equation. *)
Lemma _get_license_str a raw g :
  licence a = Some raw ->
  _get_license a g =
    let t := strip (lower raw) in
    if String.eqb t "notspecified" then (Ok None, g)
    else match LICENSES !! t with
         | Some uri => (Ok (Some (LicenseURI uri)), g)
         | None =>
             (Ok (Some (LicenseText t)),
              {| unknown_resource_type := unknown_resource_type g;
                 unknown_difficulty := unknown_difficulty g;
                 license_counter := counter_incr (license_counter g) t;
                 written :=
                   if bool_decide (license_counter g !! t = None)
                   then (written g ++ [missing_license_line t])%list
                   else written g |})
         end.
Proof.
  intros Hraw. unfold _get_license, bind, method_lower, method_strip.
  rewrite Hraw. unfold ret. cbv beta iota.
  destruct (String.eqb (strip (lower raw)) "notspecified"); [reflexivity|].
  destruct (LICENSES !! strip (lower raw)); [reflexivity|].
  unfold get, incr_license_counter, tqdm_write, ret.
  destruct (bool_decide _); reflexivity.
Qed.

Lemma _get_license_notspecified a raw g :
  licence a = Some raw ->
  strip (lower raw) = "notspecified" ->
  _get_license a g = (Ok None, g).
Proof.
  intros Hraw Ht. rewrite (_get_license_str a raw g Hraw). cbv zeta.
  now rewrite Ht.
Qed.

Lemma _get_license_known a raw g uri :
  licence a = Some raw ->
  LICENSES !! strip (lower raw) = Some uri ->
  _get_license a g = (Ok (Some (LicenseURI uri)), g).
Proof.
  intros Hraw Ht. rewrite (_get_license_str a raw g Hraw). cbv zeta.
  destruct (String.eqb_spec (strip (lower raw)) "notspecified") as [E|_].
  - rewrite E, notspecified_not_license in Ht. discriminate.
  - now rewrite Ht.
Qed.

Lemma counter_get_incr_eq c k :
  counter_get (counter_incr c k) k = counter_get c k + 1.
Proof. unfold counter_get, counter_incr. now rewrite lookup_insert_eq. Qed.

Lemma counter_get_incr_ne c k v :
  k <> v -> counter_get (counter_incr c k) v = counter_get c v.
Proof.
  intros Hne. unfold counter_get, counter_incr.
  now rewrite lookup_insert_ne.
Qed.

Lemma _get_license_unknown a raw g :
  licence a = Some raw ->
  LICENSES !! strip (lower raw) = None ->
  strip (lower raw) <> "notspecified" ->
  let t := strip (lower raw) in
  let g' := snd (_get_license a g) in
  fst (_get_license a g) = Ok (Some (LicenseText t))
  /\ counter_get (license_counter g') t
     = counter_get (license_counter g) t + 1
  /\ written g'
     = (written g
        ++ if bool_decide (license_counter g !! t = None)
           then [missing_license_line t] else [])%list
  /\ unknown_resource_type g' = unknown_resource_type g.
Proof.
  intros Hraw Ht Hns. cbv zeta.
  rewrite (_get_license_str a raw g Hraw). cbv zeta.
  destruct (String.eqb_spec (strip (lower raw)) "notspecified") as [E|_];
    [contradiction|].
  rewrite Ht. cbn [fst snd license_counter written unknown_resource_type].
  repeat split.
  - apply counter_get_incr_eq.
  - destruct (bool_decide _); [reflexivity|]. now rewrite app_nil_r.
Qed.

End License.

Section LicenseClaims.
Import PyStr Tess Vocabulary.

Lemma same_letter_lower a b :
  same_letter a b = true -> lower_char a = lower_char b.
Proof.
  unfold same_letter. intros H.
  apply orb_true_iff in H as [H|H]; [apply orb_true_iff in H as [H|H]|].
  - now apply Ascii.eqb_eq in H as ->.
  - apply andb_true_iff in H as [_ H]. apply Ascii.eqb_eq in H as <-.
    now rewrite lower_char_idem.
  - apply andb_true_iff in H as [_ H]. apply Ascii.eqb_eq in H as <-.
    now rewrite lower_char_idem.
Qed.

Lemma casing_variant_lower s t :
  casing_variant s t = true -> lower s = lower t.
Proof.
  revert t. induction s as [|a s IH]; intros [|b t] H; simpl in *;
    try discriminate; [reflexivity|].
  apply andb_true_iff in H as [Hab Hst].
  now rewrite (same_letter_lower _ _ Hab), (IH _ Hst).
Qed.

(** C3 (the code at the failing input).  A license text that is empty
    once lower-cased and trimmed is not answered with [None]:
    [_get_license] returns the empty text itself, counts it in
    [license_counter], and reports it as a missing license when it was
    not counted before. *)
Theorem get_license_empty_text_passed_through a raw g :
  licence a = Some raw ->
  strip (lower raw) = EmptyString ->
  fst (_get_license a g) = Ok (Some (LicenseText EmptyString))
  /\ counter_get (license_counter (snd (_get_license a g))) EmptyString
     = counter_get (license_counter g) EmptyString + 1
  /\ (license_counter g !! EmptyString = None ->
      written (snd (_get_license a g))
      = (written g ++ [Plain "Missing license for "])%list).
Proof.
  intros Hraw Ht.
  destruct (_get_license_unknown a raw g Hraw) as (Hr & Hc & Hw & _).
  - rewrite Ht. apply empty_not_license.
  - rewrite Ht. discriminate.
  - rewrite Ht in Hr, Hc, Hw. repeat split; [exact Hr|exact Hc|].
    intros Hnone. rewrite Hw, bool_decide_eq_true_2 by exact Hnone.
    reflexivity.
Qed.

Lemma get_license_empty_text_passed_through_witness :
  fst (_get_license (Attributes (Some "  ") None None) initial)
  = Ok (Some (LicenseText EmptyString))
  /\ counter_get
       (license_counter
          (snd (_get_license (Attributes (Some "  ") None None) initial)))
       EmptyString
     = counter_get (license_counter initial) EmptyString + 1
  /\ (license_counter initial !! EmptyString = None ->
      written (snd (_get_license (Attributes (Some "  ") None None) initial))
      = (written initial ++ [Plain "Missing license for "])%list).
Proof.
  apply (get_license_empty_text_passed_through
           (Attributes (Some "  ") None None) "  " initial);
    reflexivity.
Defined.

(** C4 (the code's three outcomes).  With [t] the lower-cased, trimmed
    license text: a [t] of the table gives the table's identifier and
    leaves the state alone; ["notspecified"] gives [None] and leaves the
    state alone; every other [t] is returned as it is and counted in
    [license_counter].  The empty text is neither in the table nor
    ["notspecified"], so it falls under the third outcome. *)
Theorem get_license_three_outcomes a raw g :
  licence a = Some raw ->
  let t := strip (lower raw) in
  (forall uri, LICENSES !! t = Some uri ->
               _get_license a g = (Ok (Some (LicenseURI uri)), g))
  /\ (t = "notspecified" -> _get_license a g = (Ok None, g))
  /\ (LICENSES !! t = None -> t <> "notspecified" ->
      fst (_get_license a g) = Ok (Some (LicenseText t))
      /\ counter_get (license_counter (snd (_get_license a g))) t
         = counter_get (license_counter g) t + 1)
  /\ LICENSES !! EmptyString = None
  /\ EmptyString <> "notspecified".
Proof.
  intros Hraw t. subst t. split; [|split; [|split; [|split]]].
  - intros uri Hu. now apply (_get_license_known a raw).
  - intros Hns. now apply (_get_license_notspecified a raw).
  - intros Hnone Hns.
    destruct (_get_license_unknown a raw g Hraw Hnone Hns) as (Hr & Hc & _).
    now split.
  - apply empty_not_license.
  - discriminate.
Qed.

Lemma get_license_three_outcomes_witness :
  _get_license (Attributes (Some " Apache-2.0") None None) initial
  = (Ok (Some (LicenseURI (NS SPDX_LICENSE "Apache-2.0"))), initial)
  /\ _get_license (Attributes (Some "NotSpecified") None None) initial
     = (Ok None, initial)
  /\ fst (_get_license (Attributes (Some "Proprietary ") None None) initial)
     = Ok (Some (LicenseText "proprietary"))
  /\ fst (_get_license (Attributes (Some EmptyString) None None) initial)
     = Ok (Some (LicenseText EmptyString)).
Proof.
  destruct (get_license_three_outcomes
              (Attributes (Some " Apache-2.0") None None) " Apache-2.0"
              initial eq_refl) as (H1 & _).
  destruct (get_license_three_outcomes
              (Attributes (Some "NotSpecified") None None) "NotSpecified"
              initial eq_refl) as (_ & H2 & _).
  destruct (get_license_three_outcomes
              (Attributes (Some "Proprietary ") None None) "Proprietary "
              initial eq_refl) as (_ & _ & H3 & _).
  destruct (get_license_three_outcomes
              (Attributes (Some EmptyString) None None) EmptyString
              initial eq_refl) as (_ & _ & H4 & _).
  split; [|split; [|split]].
  - apply H1. vm_compute. reflexivity.
  - apply H2. reflexivity.
  - apply H3; [vm_compute; reflexivity | discriminate].
  - apply H4; [vm_compute; reflexivity | discriminate].
Defined.

(** C5, against the claim as stated: the identifier of the entry
    ["gpl-3.0"] has the label ["GPL-3.0-or-later"], which is not a key of
    the table, so normalising that label does not give the identifier
    back. *)
Lemma license_label_not_idempotent :
  LICENSES !! "gpl-3.0" = Some (NS SPDX_LICENSE "GPL-3.0-or-later")
  /\ fst (_get_license
            (Attributes (Some "GPL-3.0-or-later") None None) initial)
     = Ok (Some (LicenseText "gpl-3.0-or-later"))
  /\ fst (_get_license
            (Attributes (Some "GPL-3.0-or-later") None None) initial)
     <> Ok (Some (LicenseURI (NS SPDX_LICENSE "GPL-3.0-or-later"))).
Proof.
  split; [vm_compute; reflexivity|].
  assert (E : fst (_get_license
                     (Attributes (Some "GPL-3.0-or-later") None None)
                     initial)
              = Ok (Some (LicenseText "gpl-3.0-or-later")))
    by (vm_compute; reflexivity).
  split; [exact E|]. rewrite E. discriminate.
Qed.

(** C5 (amended).  For every key of [LICENSES], every casing variant of
    the key is normalised to the key's identifier, with the state left
    alone (so ["mit"] and ["MIT"] give the same identifier); and for every
    key other than ["gpl-3.0"], normalising the label of the key's
    identifier gives that identifier again. *)
Theorem license_case_insensitive key uri :
  LICENSES !! key = Some uri ->
  (forall a variant g,
      licence a = Some variant ->
      casing_variant variant key = true ->
      _get_license a g = (Ok (Some (LicenseURI uri)), g))
  /\ (key <> "gpl-3.0" ->
      forall a g,
        licence a = Some (uri_label uri) ->
        _get_license a g = (Ok (Some (LicenseURI uri)), g)).
Proof.
  intros Hkey. split.
  - intros a variant g Hraw Hvar.
    apply (_get_license_known a variant g uri Hraw).
    rewrite (casing_variant_lower _ _ Hvar).
    now rewrite (LICENSES_key_normal key uri Hkey).
  - intros Hne a g Hraw.
    apply (_get_license_known a (uri_label uri) g uri Hraw).
    pose proof (forallb_items
                  (fun kv =>
                     String.eqb (fst kv) "gpl-3.0"
                     || bool_decide
                          (LICENSES !! strip (lower (uri_label (snd kv)))
                           = Some (snd kv)))
                  LICENSES_items key uri) as H.
    cbv beta in H. simpl fst in H. simpl snd in H.
    specialize (H ltac:(vm_compute; reflexivity) Hkey).
    apply orb_true_iff in H as [H|H].
    + apply String.eqb_eq in H. contradiction.
    + now apply bool_decide_eq_true in H.
Qed.

Lemma license_case_insensitive_witness :
  LICENSES !! "mit" = Some (NS SPDX_LICENSE "MIT")
  /\ _get_license (Attributes (Some "mit") None None) initial
     = (Ok (Some (LicenseURI (NS SPDX_LICENSE "MIT"))), initial)
  /\ _get_license (Attributes (Some "MIT") None None) initial
     = (Ok (Some (LicenseURI (NS SPDX_LICENSE "MIT"))), initial)
  /\ _get_license (Attributes (Some "Mit") None None) initial
     = (Ok (Some (LicenseURI (NS SPDX_LICENSE "MIT"))), initial).
Proof.
  assert (Hkey : LICENSES !! "mit" = Some (NS SPDX_LICENSE "MIT"))
    by (vm_compute; reflexivity).
  destruct (license_case_insensitive "mit" _ Hkey) as [Hcase Hlabel].
  split; [exact Hkey|]. split; [|split].
  - apply (Hcase (Attributes (Some "mit") None None) "mit" initial);
      reflexivity.
  - apply (Hlabel ltac:(discriminate)
             (Attributes (Some "MIT") None None) initial).
    reflexivity.
  - apply (Hcase (Attributes (Some "Mit") None None) "Mit" initial);
      reflexivity.
Defined.

End LicenseClaims.

(** ** The unknown-value tallies *)

Section Tallies.
Import PyStr Tess Vocabulary.

(** What one turn of the loop of [_get_resource_types] does. *)
Lemma _get_resource_types_body_eq rv raw g :
  _get_resource_types_body rv raw g =
    let k := strip (lower raw) in
    match dict_get RESOURCE_TYPE_MAP k with
    | Some uri => (Ok (rv ++ [uri])%list, g)
    | None =>
        (Ok rv,
         {| unknown_resource_type :=
              counter_incr (unknown_resource_type g) k;
            unknown_difficulty := unknown_difficulty g;
            license_counter := license_counter g;
            written :=
              if Nat.eqb (counter_get (unknown_resource_type g) k) 0
              then (written g ++ [unknown_resource_type_line k])%list
              else written g |})
    end.
Proof.
  unfold _get_resource_types_body. cbv zeta.
  destruct (dict_get RESOURCE_TYPE_MAP (strip (lower raw))); [reflexivity|].
  unfold bind, get, tqdm_write, incr_unknown_resource_type, ret.
  cbv beta iota.
  destruct (Nat.eqb _ 0); reflexivity.
Qed.

Lemma unknown_resource_type_line_inj v k :
  unknown_resource_type_line v = unknown_resource_type_line k -> v = k.
Proof.
  unfold unknown_resource_type_line. intros H. injection H as H.
  apply string_app_inv_head in H. now apply string_app_inv_tail in H.
Qed.

Lemma missing_license_line_inj v k :
  missing_license_line v = missing_license_line k -> v = k.
Proof.
  unfold missing_license_line. intros H. injection H as H.
  now apply string_app_inv_head in H.
Qed.

Lemma difficulty_line_not_resource_type_line d v :
  unmappable_difficulty_line d <> unknown_resource_type_line v.
Proof.
  unfold unmappable_difficulty_line, unknown_resource_type_line.
  intros H. injection H as H. cbv in H. discriminate.
Qed.

Lemma times_written_snoc l l' g u d c :
  times_written l
    {| unknown_resource_type := u; unknown_difficulty := d;
       license_counter := c; written := (written g ++ [l'])%list |}
  = times_written l g + (if decide (l' = l) then 1 else 0).
Proof.
  unfold times_written. cbn [written].
  rewrite count_occ_app. cbn [count_occ].
  destruct (line_eq_dec l' l) as [E|E]; destruct (decide (l' = l));
    try contradiction; reflexivity.
Qed.

Lemma tallies_agree_initial : tallies_agree initial.
Proof. intros v. repeat split; try reflexivity. Qed.

Lemma tallies_agree_resource_type g k :
  tallies_agree g ->
  tallies_agree
    {| unknown_resource_type := counter_incr (unknown_resource_type g) k;
       unknown_difficulty := unknown_difficulty g;
       license_counter := license_counter g;
       written :=
         if Nat.eqb (counter_get (unknown_resource_type g) k) 0
         then (written g ++ [unknown_resource_type_line k])%list
         else written g |}.
Proof.
  intros Hg v. destruct (Hg v) as (Hrt & Hlic & Hkey).
  cbn [unknown_resource_type license_counter].
  split; [|split; [|exact Hkey]].
  - destruct (Nat.eqb_spec (counter_get (unknown_resource_type g) k) 0)
      as [Hz|Hnz].
    + rewrite times_written_snoc. destruct (decide (k = v)) as [->|Hne].
      * rewrite decide_True by reflexivity.
        rewrite counter_get_incr_eq, Hrt, Hz. reflexivity.
      * rewrite decide_False
          by (intros E; apply unknown_resource_type_line_inj in E;
              contradiction).
        rewrite counter_get_incr_ne by exact Hne. lia.
    + destruct (decide (k = v)) as [->|Hne].
      * rewrite counter_get_incr_eq. unfold times_written in *.
        cbn [written]. rewrite Hrt. lia.
      * rewrite counter_get_incr_ne by exact Hne.
        unfold times_written in *. cbn [written]. exact Hrt.
  - destruct (Nat.eqb (counter_get (unknown_resource_type g) k) 0).
    + rewrite times_written_snoc, decide_False by discriminate. lia.
    + unfold times_written in *. cbn [written]. exact Hlic.
Qed.

Lemma tallies_agree_license g k :
  tallies_agree g ->
  tallies_agree
    {| unknown_resource_type := unknown_resource_type g;
       unknown_difficulty := unknown_difficulty g;
       license_counter := counter_incr (license_counter g) k;
       written :=
         if bool_decide (license_counter g !! k = None)
         then (written g ++ [missing_license_line k])%list
         else written g |}.
Proof.
  intros Hg v. destruct (Hg v) as (Hrt & Hlic & Hkey).
  destruct (Hg k) as (_ & _ & Hkeyk).
  cbn [unknown_resource_type license_counter].
  split; [|split].
  - destruct (bool_decide _).
    + rewrite times_written_snoc, decide_False by discriminate. lia.
    + unfold times_written in *. cbn [written]. exact Hrt.
  - destruct (decide (k = v)) as [->|Hne].
    + rewrite counter_get_incr_eq. case_bool_decide as Hnone.
      * rewrite times_written_snoc, decide_True by reflexivity.
        apply Hkeyk in Hnone. rewrite Hlic, Hnone. reflexivity.
      * unfold times_written in *. cbn [written]. rewrite Hlic.
        assert (counter_get (license_counter g) v <> 0)
          by (intros E; apply Hkeyk in E; contradiction).
        lia.
    + rewrite counter_get_incr_ne by exact Hne. case_bool_decide.
      * rewrite times_written_snoc.
        rewrite decide_False
          by (intros E; apply missing_license_line_inj in E;
              contradiction).
        lia.
      * unfold times_written in *. cbn [written]. exact Hlic.
  - destruct (decide (k = v)) as [->|Hne].
    + rewrite counter_get_incr_eq. unfold counter_incr.
      rewrite lookup_insert_eq. split; [discriminate|lia].
    + rewrite counter_get_incr_ne by exact Hne. unfold counter_incr.
      rewrite lookup_insert_ne by exact Hne. exact Hkey.
Qed.

Lemma tallies_agree_difficulty g d s :
  tallies_agree g ->
  tallies_agree
    {| unknown_resource_type := unknown_resource_type g;
       unknown_difficulty := s;
       license_counter := license_counter g;
       written := (written g ++ [unmappable_difficulty_line d])%list |}.
Proof.
  intros Hg v. destruct (Hg v) as (Hrt & Hlic & Hkey).
  cbn [unknown_resource_type license_counter].
  split; [|split; [|exact Hkey]].
  - rewrite times_written_snoc.
    rewrite decide_False by apply difficulty_line_not_resource_type_line.
    lia.
  - rewrite times_written_snoc, decide_False by discriminate. lia.
Qed.

End Tallies.

Section TallyClaims.
Import PyStr Tess Vocabulary.

Lemma for_each_cons {A S} (body : S -> A -> M S) acc x xs g :
  for_each body acc (x :: xs) g =
    match body acc x g with
    | (Ok acc', g') => for_each body acc' xs g'
    | (Raise e, g') => (Raise e, g')
    end.
Proof. reflexivity. Qed.

Lemma tallies_agree_resource_types labels rv g :
  tallies_agree g ->
  tallies_agree (snd (for_each _get_resource_types_body rv labels g)).
Proof.
  revert rv g. induction labels as [|raw labels IH]; intros rv g Hg.
  - exact Hg.
  - rewrite for_each_cons, _get_resource_types_body_eq. cbv zeta.
    destruct (dict_get RESOURCE_TYPE_MAP (strip (lower raw))).
    + now apply IH.
    + apply IH. now apply tallies_agree_resource_type.
Qed.

Lemma tallies_agree_difficulty_levels a g :
  tallies_agree g -> tallies_agree (snd (_get_difficulty_levels a g)).
Proof.
  intros Hg. unfold _get_difficulty_levels.
  destruct (difficulty_level a) as [[|c d]|]; try exact Hg.
  set (t := strip (lower (String c d))).
  destruct (String.eqb t "notspecified"); [exact Hg|].
  destruct (dict_get DIFFICULTY_LEVEL_MAP t); [exact Hg|].
  unfold bind, get, add_unknown_difficulty, tqdm_write, ret.
  cbv beta iota.
  destruct (bool_decide _); [exact Hg|].
  cbn [snd unknown_resource_type license_counter written
         unknown_difficulty].
  now apply (tallies_agree_difficulty g).
Qed.

Lemma tallies_agree_get_license a g :
  tallies_agree g -> tallies_agree (snd (_get_license a g)).
Proof.
  intros Hg. destruct (licence a) as [raw|] eqn:Hraw.
  - rewrite (_get_license_str a raw g Hraw). cbv zeta.
    destruct (String.eqb _ "notspecified"); [exact Hg|].
    destruct (LICENSES !! _); [exact Hg|].
    now apply tallies_agree_license.
  - unfold _get_license, bind, method_lower. rewrite Hraw. exact Hg.
Qed.

Lemma reachable_tallies_agree g : reachable g -> tallies_agree g.
Proof.
  induction 1 as [|a g _ IH|a g _ IH|a g _ IH].
  - apply tallies_agree_initial.
  - now apply tallies_agree_resource_types.
  - now apply tallies_agree_difficulty_levels.
  - now apply tallies_agree_get_license.
Qed.

(** After the loop, each counter has grown by the occurrences of its
    value among the labels. *)
Lemma resource_types_counted labels rv g v :
  counter_get
    (unknown_resource_type
       (snd (for_each _get_resource_types_body rv labels g))) v
  = counter_get (unknown_resource_type g) v + occurrences v labels.
Proof.
  revert rv g. induction labels as [|raw labels IH]; intros rv g.
  - cbn. lia.
  - rewrite for_each_cons, _get_resource_types_body_eq. cbv zeta.
    unfold occurrences. cbn [List.filter]. unfold tallied_as at 1.
    destruct (dict_get RESOURCE_TYPE_MAP (strip (lower raw))) eqn:Hget.
    + rewrite andb_false_r. apply IH.
    + rewrite andb_true_r, IH. cbn [unknown_resource_type].
      destruct (String.eqb_spec (strip (lower raw)) v) as [->|Hne].
      * rewrite counter_get_incr_eq. unfold occurrences. cbn [length].
        lia.
      * rewrite counter_get_incr_ne by exact Hne. reflexivity.
Qed.

(** C6.  In every state a run can reach, the diagnostic about a value
    has been written exactly once if the value has been counted and never
    otherwise; an occurrence of a value that is not in the table adds one
    to its counter, and writes the diagnostic only when the counter was
    still at zero (the first occurrence); a whole call adds to each
    counter the number of occurrences among its labels. *)
Theorem unknown_value_reported_once g :
  reachable g ->
  (forall v,
      times_written (unknown_resource_type_line v) g
      = Nat.min 1 (counter_get (unknown_resource_type g) v)
      /\ times_written (missing_license_line v) g
         = Nat.min 1 (counter_get (license_counter g) v))
  /\ (forall rv raw,
         let v := strip (lower raw) in
         let g' := snd (_get_resource_types_body rv raw g) in
         RESOURCE_TYPE_MAP !! v = None ->
         counter_get (unknown_resource_type g') v
         = counter_get (unknown_resource_type g) v + 1
         /\ written g'
            = (written g
               ++ if Nat.eqb (counter_get (unknown_resource_type g) v) 0
                  then [unknown_resource_type_line v] else [])%list)
  /\ (forall a raw,
         let v := strip (lower raw) in
         let g' := snd (_get_license a g) in
         licence a = Some raw ->
         LICENSES !! v = None ->
         v <> "notspecified" ->
         counter_get (license_counter g') v
         = counter_get (license_counter g) v + 1
         /\ written g'
            = (written g
               ++ if Nat.eqb (counter_get (license_counter g) v) 0
                  then [missing_license_line v] else [])%list)
  /\ (forall a v,
         counter_get
           (unknown_resource_type (snd (_get_resource_types a g))) v
         = counter_get (unknown_resource_type g) v
           + occurrences v (default [] (resource_type a))).
Proof.
  intros Hreach. pose proof (reachable_tallies_agree g Hreach) as Hg.
  split; [|split; [|split]].
  - intros v. destruct (Hg v) as (Hrt & Hlic & _). now split.
  - intros rv raw v g' Habsent. subst v g'.
    rewrite _get_resource_types_body_eq. cbv zeta.
    unfold dict_get. rewrite Habsent.
    cbn [snd unknown_resource_type written].
    split; [apply counter_get_incr_eq|].
    destruct (Nat.eqb _ 0); [reflexivity|]. now rewrite app_nil_r.
  - intros a raw v g' Hraw Habsent Hns. subst v g'.
    destruct (_get_license_unknown a raw g Hraw Habsent Hns)
      as (_ & Hc & Hw & _).
    split; [exact Hc|]. rewrite Hw.
    destruct (Hg (strip (lower raw))) as (_ & _ & Hkey).
    case_bool_decide as Hnone.
    + apply Hkey in Hnone. now rewrite Hnone.
    + destruct (Nat.eqb_spec
                  (counter_get (license_counter g) (strip (lower raw))) 0)
        as [E|_]; [|reflexivity].
      apply Hkey in E. contradiction.
  - intros a v. apply resource_types_counted.
Qed.

End TallyClaims.

Section TallyWitnesses.
Import PyStr Tess Vocabulary.

Lemma unknown_value_reported_once_witness :
  let g :=
    snd (_get_resource_types
           (Attributes None (Some ["Foo"; "foo "]) None) initial) in
  let g' := snd (_get_resource_types_body [] " FOO" g) in
  let h := snd (_get_license (Attributes (Some "Foo") None None) g) in
  reachable g
  /\ times_written (unknown_resource_type_line "foo") g = 1
  /\ counter_get (unknown_resource_type g) "foo" = 2
  /\ counter_get (unknown_resource_type g') "foo" = 3
  /\ written g' = written g
  /\ counter_get (license_counter h) "foo" = 1
  /\ written h = (written g ++ [Plain "Missing license for foo"])%list.
Proof.
  intros g g' h.
  assert (Hreach : reachable g) by (apply reach_resource_types, reach_initial).
  destruct (unknown_value_reported_once g Hreach) as (Hw & Hrt & Hlic & Hn).
  split; [exact Hreach|].
  destruct (Hw "foo") as [Hw1 _].
  destruct (Hrt [] " FOO" ltac:(vm_compute; reflexivity)) as [Hc1 Hc2].
  destruct (Hlic (Attributes (Some "Foo") None None) "Foo" eq_refl
              ltac:(vm_compute; reflexivity) ltac:(discriminate))
    as [Hl1 Hl2].
  pose proof (Hn (Attributes None (Some ["Foo"; "foo "]) None) "foo") as Hn1.
  assert (Hcount : counter_get (unknown_resource_type g) "foo" = 2)
    by (vm_compute; reflexivity).
  split; [|split; [|split; [|split; [|split]]]].
  - rewrite Hw1, Hcount. reflexivity.
  - exact Hcount.
  - fold g' in Hc1. change (strip (lower " FOO")) with "foo" in Hc1.
    rewrite Hc1, Hcount. reflexivity.
  - fold g' in Hc2. change (strip (lower " FOO")) with "foo" in Hc2.
    rewrite Hc2, Hcount. apply app_nil_r.
  - fold h in Hl1. change (strip (lower "Foo")) with "foo" in Hl1.
    rewrite Hl1. reflexivity.
  - fold h in Hl2. change (strip (lower "Foo")) with "foo" in Hl2.
    rewrite Hl2. reflexivity.
Defined.

(** C1 (the code at the failing inputs).  A label that the table maps to
    [None] is left out of the returned list, but it takes the same path as
    a label that is missing from the table: on its first occurrence the
    line that reports an unknown value is written, and the label is
    counted in [unknown_resource_type]. *)
Theorem null_mapped_resource_type_is_reported label a g :
  RESOURCE_TYPE_MAP !! label = Some None ->
  resource_type a = Some [label] ->
  counter_get (unknown_resource_type g) label = 0 ->
  fst (_get_resource_types a g) = Ok []
  /\ written (snd (_get_resource_types a g))
     = (written g ++ [unknown_resource_type_line label])%list
  /\ counter_get (unknown_resource_type (snd (_get_resource_types a g)))
       label = 1.
Proof.
  intros Hnull Ha Hzero. unfold _get_resource_types. rewrite Ha.
  change (default [] (Some [label])) with [label].
  rewrite for_each_cons, _get_resource_types_body_eq.
  cbv zeta. rewrite (RESOURCE_TYPE_MAP_key_normal label None Hnull).
  unfold dict_get. rewrite Hnull, Hzero.
  cbn [for_each ret fst snd written unknown_resource_type Nat.eqb].
  split; [reflexivity|]. split; [reflexivity|].
  rewrite counter_get_incr_eq, Hzero. reflexivity.
Qed.

Lemma null_mapped_resource_type_is_reported_witness :
  fst (_get_resource_types
         (Attributes None (Some ["blog post"]) None) initial) = Ok []
  /\ written (snd (_get_resource_types
                    (Attributes None (Some ["blog post"]) None) initial))
     = [Styled "red" (dquote +:+ "blog post" +:+ dquote +:+ ": None,")]
  /\ counter_get
       (unknown_resource_type
          (snd (_get_resource_types
                  (Attributes None (Some ["blog post"]) None) initial)))
       "blog post" = 1.
Proof.
  apply (null_mapped_resource_type_is_reported "blog post"
           (Attributes None (Some ["blog post"]) None) initial);
    [vm_compute; reflexivity | reflexivity | reflexivity].
Defined.

(** C10.  When the ["licence"] value is [None], [_get_license] raises
    [AttributeError] and leaves the state alone; and whatever the value,
    once [.lower().strip()] has returned, its result is a string, so the
    test [license_text is None] never holds. *)
Theorem get_license_none_raises a g :
  licence a = None ->
  _get_license a g = (Raise AttributeError, g)
  /\ (forall x g0 t g1,
         bind (method_lower x) method_strip g0 = (Ok t, g1) -> t <> None).
Proof.
  intros Hnone. split.
  - unfold _get_license, bind, method_lower. rewrite Hnone. reflexivity.
  - intros [s|] g0 t g1; unfold bind, method_lower, method_strip, ret, raise;
      intros H; inversion H; discriminate.
Qed.

Lemma get_license_none_raises_witness :
  _get_license (Attributes None None None) initial
  = (Raise AttributeError, initial)
  /\ (forall x g0 t g1,
         bind (method_lower x) method_strip g0 = (Ok t, g1) -> t <> None).
Proof.
  apply (get_license_none_raises (Attributes None None None) initial).
  reflexivity.
Defined.

End TallyWitnesses.

(** ** The matcher against the matches of a pattern *)

Section Matcher.
Import PyStr Regex.
Context {A : Type}.

Lemma or_else_Some (x y : option A) a :
  or_else x y = Some a -> x = Some a \/ (x = None /\ y = Some a).
Proof. destruct x; simpl; intros H; [left|right]; auto. Qed.

Lemma or_else_not_None (x y : option A) :
  x <> None \/ y <> None -> or_else x y <> None.
Proof. destruct x; simpl; intros [H|H]; congruence. Qed.

Lemma one_sound ok st (k : mstate -> option A) a :
  one ok st k = Some a ->
  exists c t, rest st = String c t /\ ok c = true
              /\ k (advance st t) = Some a.
Proof.
  unfold one. destruct (rest st) as [|c t]; [discriminate|].
  destruct (ok c) eqn:Hok; [|discriminate].
  intros H. now exists c, t.
Qed.

Lemma one_complete ok st (k : mstate -> option A) c t :
  rest st = String c t -> ok c = true ->
  k (advance st t) <> None -> one ok st k <> None.
Proof. unfold one. intros -> ->. auto. Qed.

(** Whatever the loop of a [*] returns comes from a match of the
    starred pattern. *)
Lemma star_sound r (k : mstate -> option A) :
  (forall st (k' : mstate -> option A) a,
      run r st k' = Some a ->
      exists st', matches r st st' /\ k' st' = Some a) ->
  forall fuel st a,
    star (run r) k fuel st = Some a ->
    exists st', matches (Star r) st st' /\ k st' = Some a.
Proof.
  intros Hr. induction fuel as [|fuel IH]; intros st a H; simpl in H.
  - exists st. split; [constructor | exact H].
  - apply or_else_Some in H as [H|[_ H]].
    + apply Hr in H as (st1 & Hm & H).
      destruct (Nat.ltb_spec (String.length (rest st1))
                  (String.length (rest st))) as [Hlt|_]; [|discriminate].
      apply IH in H as (st2 & Hstar & H).
      exists st2. split; [|exact H]. now apply (m_star_more r st st1).
    + exists st. split; [constructor | exact H].
Qed.

Lemma star_complete r (k : mstate -> option A) :
  (forall st st' (k' : mstate -> option A),
      matches r st st' -> k' st' <> None -> run r st k' <> None) ->
  forall st st',
    matches (Star r) st st' ->
    forall fuel,
      String.length (rest st) < fuel ->
      k st' <> None ->
      star (run r) k fuel st <> None.
Proof.
  intros Hr st st' Hm. remember (Star r) as sr eqn:Hsr.
  induction Hm as [| | | | | | | | r0 st | r0 st st1 st2 H1 _ Hlt H2 IH
                  |]; try discriminate; injection Hsr as ->.
  - intros [|fuel] Hfuel Hk; [lia|]. simpl.
    apply or_else_not_None. now right.
  - intros [|fuel] Hfuel Hk; [lia|]. simpl.
    apply or_else_not_None. left.
    apply (Hr st st1); [exact H1|].
    destruct (Nat.ltb_spec (String.length (rest st1))
                (String.length (rest st))) as [_|Hge]; [|lia].
    apply IH; [reflexivity | lia | exact Hk].
Qed.

End Matcher.

Section MatcherCorrect.
Import PyStr Regex.

(** The matcher finds only matches of the pattern... *)
Theorem run_sound {A} r :
  forall st (k : mstate -> option A) a,
    run r st k = Some a ->
    exists st', matches r st st' /\ k st' = Some a.
Proof.
  induction r as [c| | | | |r1 IH1 r2 IH2|r1 IH1 r2 IH2|r IH|name r IH];
    intros st k a H; cbn [run] in H.
  - apply one_sound in H as (c' & t & Hrest & Hok & H).
    apply Ascii.eqb_eq in Hok as <-.
    exists (advance st t). split; [now constructor | exact H].
  - apply one_sound in H as (c' & t & Hrest & Hok & H).
    exists (advance st t). split; [|exact H].
    apply (m_dot c'); [exact Hrest|].
    intros ->. rewrite Ascii.eqb_refl in Hok. discriminate.
  - apply one_sound in H as (c' & t & Hrest & Hok & H).
    exists (advance st t). split; [|exact H]. now apply (m_space c').
  - destruct (Nat.eqb_spec (pos st) 0) as [Hp|_]; [|discriminate].
    exists st. split; [now constructor | exact H].
  - destruct (at_end (rest st)) eqn:He; [|discriminate].
    exists st. split; [now constructor | exact H].
  - apply IH1 in H as (st1 & H1 & H). apply IH2 in H as (st2 & H2 & H).
    exists st2. split; [now apply (m_seq r1 r2 st st1) | exact H].
  - apply or_else_Some in H as [H|[_ H]].
    + apply IH1 in H as (st' & Hm & H). exists st'.
      split; [now apply m_alt_l | exact H].
    + apply IH2 in H as (st' & Hm & H). exists st'.
      split; [now apply m_alt_r | exact H].
  - now apply (star_sound r k IH) in H.
  - apply IH in H as (st' & Hm & H).
    exists (set_group name (consumed (rest st) (rest st')) st').
    split; [now constructor | exact H].
Qed.

(** ... and finds one whenever there is one the continuation accepts. *)
Theorem run_complete {A} r :
  forall st st' (k : mstate -> option A),
    matches r st st' -> k st' <> None -> run r st k <> None.
Proof.
  induction r as [c| | | | |r1 IH1 r2 IH2|r1 IH1 r2 IH2|r IH|name r IH];
    intros st st' k Hm Hk; cbn [run].
  - inversion Hm; subst.
    apply (one_complete _ st k c t); auto using Ascii.eqb_refl.
  - inversion Hm; subst. apply (one_complete _ st k c t); auto.
    destruct (Ascii.eqb_spec c LF); [contradiction|reflexivity].
  - inversion Hm; subst. now apply (one_complete _ st k c t).
  - inversion Hm; subst.
    match goal with H : pos _ = 0 |- _ => rewrite H end. exact Hk.
  - inversion Hm; subst.
    match goal with H : at_end _ = true |- _ => rewrite H end. exact Hk.
  - inversion Hm; subst. eapply IH1; [eassumption|].
    eapply IH2; eassumption.
  - apply or_else_not_None. inversion Hm; subst.
    + left. eapply IH1; eassumption.
    + right. eapply IH2; eassumption.
  - eapply (star_complete r k IH); [exact Hm | lia | exact Hk].
  - inversion Hm; subst. eapply IH; [eassumption|exact Hk].
Qed.

End MatcherCorrect.

(** ** The relation-marker pattern *)

Section RelationMarker.
Import PyStr Regex Dalia Vocabulary.

Lemma take_app nm r : take (String.length nm) (nm +:+ r) = nm.
Proof. induction nm as [|c nm IH]; [now destruct r | simpl; now rewrite IH]. Qed.

Lemma consumed_app nm r : consumed (nm +:+ r) r = nm.
Proof.
  unfold consumed. rewrite string_length_app.
  replace (String.length nm + String.length r - String.length r)
    with (String.length nm) by lia.
  apply take_app.
Qed.

Lemma star_dot_inv st st' :
  matches (Star Dot) st st' ->
  exists nm, rest st = nm +:+ rest st'
             /\ no_newline nm = true
             /\ groups st' = groups st.
Proof.
  intros Hm. remember (Star Dot) as sr eqn:Hsr.
  induction Hm as [| | | | | | | | r0 st | r0 st st1 st2 H1 _ Hlt H2 IH
                  |]; try discriminate; injection Hsr as ->.
  - exists EmptyString. repeat split.
  - destruct (IH eq_refl) as (nm & Hrest & Hnl & Hg).
    inversion H1 as [|c st0 t Hc Hne| | | | | | | | |]; subst.
    exists (String c nm). simpl in *. rewrite Hc, Hrest.
    repeat split; [|exact Hg].
    destruct (Ascii.eqb_spec c LF); [contradiction|exact Hnl].
Qed.

Lemma star_dot_intro nm :
  no_newline nm = true ->
  forall p r g,
    matches (Star Dot) (MState p (nm +:+ r) g)
      (MState (p + String.length nm) r g).
Proof.
  induction nm as [|c nm IH]; intros Hnl p r g.
  - replace (p + String.length EmptyString) with p by (simpl; lia).
    apply m_star_stop.
  - simpl in Hnl. apply andb_true_iff in Hnl as [Hc Hnl].
    apply (m_star_more Dot _ (MState (S p) (nm +:+ r) g)).
    + apply (m_dot c (MState p (String c nm +:+ r) g) (nm +:+ r));
        [reflexivity|].
      intros ->. rewrite Ascii.eqb_refl in Hc. discriminate.
    + simpl. lia.
    + replace (p + String.length (String c nm))
        with (S p + String.length nm) by (simpl; lia).
      now apply IH.
Qed.

End RelationMarker.

Section RelationMarkerPattern.
Import PyStr Regex Dalia Vocabulary.

Ltac invm H := inversion H; subst; clear H.

Lemma at_end_inv t :
  at_end t = true -> t = EmptyString \/ t = String LF EmptyString.
Proof.
  destruct t as [|c [|d t]]; simpl; intros H; try discriminate; auto.
  right. now apply Ascii.eqb_eq in H as ->.
Qed.

(** The alternatives of the group [relation] read one of the markers. *)
Lemma relation_alt_inv st st' :
  matches
    (Alt (Lit "S")
       (Alt (Lit "R")
          (Alt (Seq (Lit "S") (Lit "R")) (Seq (Lit "R") (Lit "S")))))
    st st' ->
  exists relation,
    In relation markers
    /\ rest st = relation +:+ rest st'
    /\ groups st' = groups st.
Proof.
  intros H. invm H; [|match goal with H : matches _ _ _ |- _ => invm H end;
                      [|match goal with H : matches _ _ _ |- _ => invm H end]].
  - match goal with H : matches _ _ _ |- _ => invm H end.
    exists "S". split; [cbn; tauto|]. split; [|reflexivity].
    match goal with H : rest st = _ |- _ => rewrite H end. reflexivity.
  - match goal with H : matches _ _ _ |- _ => invm H end.
    exists "R". split; [cbn; tauto|]. split; [|reflexivity].
    match goal with H : rest st = _ |- _ => rewrite H end. reflexivity.
  - match goal with H : matches _ _ _ |- _ => invm H end.
    repeat match goal with H : matches (Lit _) _ _ |- _ => invm H end.
    exists "SR". split; [cbn; tauto|]. split; [|reflexivity].
    cbn [rest advance] in *.
    match goal with H : rest st = _ |- _ => rewrite H end.
    match goal with H : _ = String "R" _ |- _ => rewrite H end.
    reflexivity.
  - match goal with H : matches _ _ _ |- _ => invm H end.
    repeat match goal with H : matches (Lit _) _ _ |- _ => invm H end.
    exists "RS". split; [cbn; tauto|]. split; [|reflexivity].
    cbn [rest advance] in *.
    match goal with H : rest st = _ |- _ => rewrite H end.
    match goal with H : _ = String "S" _ |- _ => rewrite H end.
    reflexivity.
Qed.

Lemma relation_alt_intro relation p r g :
  In relation markers ->
  matches
    (Alt (Lit "S")
       (Alt (Lit "R")
          (Alt (Seq (Lit "S") (Lit "R")) (Seq (Lit "R") (Lit "S")))))
    (MState p (relation +:+ r) g)
    (MState (p + String.length relation) r g).
Proof.
  intros [<-|[<-|[<-|[<-|[]]]]].
  - apply m_alt_l.
    replace (p + _) with (S p) by (simpl; lia).
    now apply (m_lit "S" (MState p ("S" +:+ r) g) r).
  - apply m_alt_r, m_alt_l.
    replace (p + _) with (S p) by (simpl; lia).
    now apply (m_lit "R" (MState p ("R" +:+ r) g) r).
  - apply m_alt_r, m_alt_r, m_alt_l.
    replace (p + _) with (S (S p)) by (simpl; lia).
    apply (m_seq _ _ _ (MState (S p) ("R" +:+ r) g)).
    + now apply (m_lit "S" (MState p ("SR" +:+ r) g) ("R" +:+ r)).
    + now apply (m_lit "R" (MState (S p) ("R" +:+ r) g) r).
  - apply m_alt_r, m_alt_r, m_alt_r.
    replace (p + _) with (S (S p)) by (simpl; lia).
    apply (m_seq _ _ _ (MState (S p) ("S" +:+ r) g)).
    + now apply (m_lit "R" (MState p ("RS" +:+ r) g) ("S" +:+ r)).
    + now apply (m_lit "S" (MState (S p) ("S" +:+ r) g) r).
Qed.

(** A successful match splits the subject as [marked] says. *)
Lemma RE_match_inv s m :
  re_match RE s = Some m ->
  exists name relation,
    m = [("relation", relation); ("name", name)] /\ marked s name relation.
Proof.
  unfold re_match. intros H.
  apply run_sound in H as (st' & Hm & H). injection H as <-.
  unfold RE in Hm.
  invm Hm.
  match goal with H : matches Bol _ _ |- _ => invm H end.
  match goal with H : matches (Seq (Group _ _) _) _ _ |- _ => invm H end.
  match goal with H : matches (Group "name" _) _ _ |- _ => invm H end.
  match goal with H : matches (Star Dot) _ _ |- _ =>
    apply star_dot_inv in H as (nm & Hrest & Hnl & Hg) end.
  cbn [rest groups] in Hrest, Hg.
  match goal with H : matches (Seq Space _) _ _ |- _ => invm H end.
  match goal with H : matches Space _ _ |- _ => invm H end.
  match goal with H : matches (Seq (Lit _) _) _ _ |- _ => invm H end.
  match goal with H : matches (Lit "(") _ _ |- _ => invm H end.
  match goal with H : matches (Seq (Group _ _) _) _ _ |- _ => invm H end.
  match goal with H : matches (Group "relation" _) _ _ |- _ => invm H end.
  match goal with H : matches (Seq (Lit _) _) _ _ |- _ => invm H end.
  match goal with H : matches (Lit ")") _ _ |- _ => invm H end.
  match goal with H : matches Eol _ _ |- _ => invm H end.
  match goal with H : matches (Alt _ _) _ _ |- _ =>
    apply relation_alt_inv in H as (relation & Hin & Hrel & Hg') end.
  cbn [rest advance set_group pos groups] in *.
  repeat match goal with
         | H : rest _ = _ |- _ => rewrite H in *; clear H
         | H : _ = _ +:+ _ |- _ => rewrite H in *; clear H
         end.
  subst.
  match goal with H : at_end _ = true |- _ =>
    apply at_end_inv in H as Htail end.
  rewrite Hg', Hg, !consumed_app.
  exists nm, relation. split; [reflexivity|].
  split; [exact Hnl|]. split; [exact Hin|].
  match goal with
  | |- context [String ?c (String "(" (_ +:+ String ")" ?t))] =>
      exists c, t
  end.
  repeat split; assumption.
Qed.

(** Every subject that splits as [marked] says is matched. *)
Lemma RE_match_complete s name relation :
  marked s name relation -> re_match RE s <> None.
Proof.
  intros (Hnl & Hin & ws & tail & Hws & Htail & ->).
  unfold re_match.
  apply (run_complete RE
           (MState 0 (name +:+ String ws ("(" +:+ relation +:+ ")" +:+ tail))
              [])
           (MState (S (S (S (0 + String.length name))
                       + String.length relation))
              tail [("relation", relation); ("name", name)]));
    [|discriminate].
  unfold RE.
  eapply m_seq; [apply m_bol; reflexivity|].
  eapply m_seq.
  { pose proof (m_group "name" (Star Dot) _ _
                  (star_dot_intro name Hnl 0
                     (String ws ("(" +:+ relation +:+ ")" +:+ tail)) []))
      as H.
    cbn [rest] in H. rewrite consumed_app in H. exact H. }
  eapply m_seq.
  { eapply (m_space ws); [reflexivity | exact Hws]. }
  eapply m_seq.
  { eapply (m_lit "("). reflexivity. }
  eapply m_seq.
  { pose proof (m_group "relation" _ _ _
                  (relation_alt_intro relation
                     (S (S (0 + String.length name)))
                     (")" +:+ tail) [("name", name)] Hin)) as H.
    cbn [rest] in H. rewrite consumed_app in H. exact H. }
  eapply m_seq.
  { eapply (m_lit ")"). reflexivity. }
  apply (m_eol (MState _ tail _)).
  destruct Htail as [->| ->]; reflexivity.
Qed.

End RelationMarkerPattern.

Section RelationMarkerClaims.
Import PyStr Regex Dalia Vocabulary.

Lemma string_app_eq_cases a t a' t' :
  a +:+ t = a' +:+ t' ->
  (exists d, a = a' +:+ d /\ t' = d +:+ t)
  \/ (exists d, a' = a +:+ d /\ t = d +:+ t').
Proof.
  revert a'. induction a as [|c a IH]; intros a' H.
  - right. exists a'. split; [reflexivity | exact H].
  - destruct a' as [|c' a'].
    + left. exists (String c a). split; [reflexivity | now symmetry].
    + injection H as -> H. destruct (IH a' H) as [(d & -> & ->)|(d & -> & ->)].
      * left. now exists d.
      * right. now exists d.
Qed.

(** One suffix cannot end with another one that is shorter. *)
Lemma suffix_of_not_nested d ws relation tail ws' relation' tail' :
  isspace ws = true -> isspace ws' = true ->
  In relation markers -> In relation' markers ->
  (tail = EmptyString \/ tail = String LF EmptyString) ->
  (tail' = EmptyString \/ tail' = String LF EmptyString) ->
  String ws' ("(" +:+ relation' +:+ ")" +:+ tail')
  = d +:+ String ws ("(" +:+ relation +:+ ")" +:+ tail) ->
  d = EmptyString /\ relation = relation'.
Proof.
  intros Hws Hws' Hin Hin' Htail Htail' H.
  cbn in Hin, Hin'.
  destruct Hin as [<-|[<-|[<-|[<-|[]]]]];
    destruct Hin' as [<-|[<-|[<-|[<-|[]]]]];
    destruct Htail as [->| ->]; destruct Htail' as [->| ->];
    destruct d as [|d1 [|d2 [|d3 [|d4 [|d5 [|d6 [|d7 d]]]]]]]; cbv in H;
    repeat (injection H as ? H); subst;
    try congruence;
    try (cbv in Hws; congruence);
    try (split; reflexivity).
Qed.

Lemma string_app_nil_r s : s +:+ EmptyString = s.
Proof.
  induction s as [|c s IH]; [reflexivity|].
  change (String c s +:+ EmptyString) with (String c (s +:+ EmptyString)).
  now rewrite IH.
Qed.

(** A subject is marked in one way at most. *)
Lemma marked_unique s name relation name' relation' :
  marked s name relation -> marked s name' relation' ->
  name = name' /\ relation = relation'.
Proof.
  intros (_ & Hin & ws & tail & Hws & Htail & Hs)
         (_ & Hin' & ws' & tail' & Hws' & Htail' & Hs').
  rewrite Hs in Hs'.
  apply string_app_eq_cases in Hs' as [(d & Hn & Hd)|(d & Hn & Hd)].
  - apply suffix_of_not_nested in Hd as [-> ->]; try assumption.
    now rewrite string_app_nil_r in Hn.
  - apply suffix_of_not_nested in Hd as [-> ->]; try assumption.
    now rewrite string_app_nil_r in Hn.
Qed.

(** C7, against the claim as stated: a name that runs over two lines,
    followed by [" (S)"], is not accepted by the pattern. *)
Lemma relation_marker_pattern_rejects_two_line_name :
  re_match RE (("A" +:+ String LF "B") +:+ " (S)") = None.
Proof. vm_compute. reflexivity. Qed.

(** C7 (amended).  The pattern accepts exactly the subjects made of a
    name on one line, one white-space character and one of the markers S,
    R, SR, RS in parentheses, possibly followed by one final line feed;
    the group [name] is then the text before the white-space character
    and the group [relation] is the marker.  Every other subject is
    rejected, so no group is captured from it. *)
Theorem relation_marker_pattern s :
  (forall name relation,
      marked s name relation ->
      re_match RE s = Some [("relation", relation); ("name", name)])
  /\ ((~ exists name relation, marked s name relation) ->
      re_match RE s = None).
Proof.
  split.
  - intros name relation Hmarked.
    destruct (re_match RE s) as [m|] eqn:Hm.
    + destruct (RE_match_inv s m Hm) as (name' & relation' & -> & Hmarked').
      now destruct (marked_unique _ _ _ _ _ Hmarked Hmarked') as [-> ->].
    + now apply RE_match_complete in Hmarked.
  - intros Hnot. destruct (re_match RE s) as [m|] eqn:Hm; [|reflexivity].
    destruct (RE_match_inv s m Hm) as (name & relation & _ & Hmarked).
    exfalso. apply Hnot. now exists name, relation.
Qed.

Lemma relation_marker_pattern_witness :
  re_match RE "TU Darmstadt (SR)"
  = Some [("relation", "SR"); ("name", "TU Darmstadt")]
  /\ re_match RE "TU Darmstadt" = None.
Proof.
  split.
  - apply (proj1 (relation_marker_pattern "TU Darmstadt (SR)")).
    split; [reflexivity|]. split; [cbn; tauto|].
    exists " "%char, EmptyString.
    split; [reflexivity|]. split; [now left | reflexivity].
  - apply (proj2 (relation_marker_pattern "TU Darmstadt")).
    intros (name & relation & Hmarked).
    apply RE_match_complete in Hmarked. apply Hmarked.
    vm_compute. reflexivity.
Defined.

End RelationMarkerClaims.

(** ** The export to TeSS *)

Section ExportClaims.
Import ExportTess.
Variable EN : string.
Variable get_discipline_label : URIRef -> string.





End ExportClaims.

Section ExportWitnesses.
Import ExportTess.


End ExportWitnesses.

(** ** The size of a file *)

Section ProcessSize.
Import PyStr Dalia Vocabulary.

Lemma string_eqb_length s t :
  String.eqb s t = true -> String.length s = String.length t.
Proof. intros H. now apply String.eqb_eq in H as ->. Qed.

Lemma eqb_longer_false c p suffix :
  String.eqb (String c (p +:+ suffix)) suffix = false.
Proof.
destruct (String.eqb _ suffix) eqn:E; [|reflexivity].
apply string_eqb_length in E. cbn [String.length] in E.
rewrite string_length_app in E. lia.
Qed.

Lemma endswith_app p suffix : endswith (p +:+ suffix) suffix = true.
Proof.
induction p as [|c p IH].
- change (EmptyString +:+ suffix) with suffix.
  destruct suffix; cbn [endswith]; now rewrite String.eqb_refl.
- change (String c p +:+ suffix) with (String c (p +:+ suffix)).
  cbn [endswith]. now rewrite eqb_longer_false.
Qed.

Lemma removesuffix_app p suffix : removesuffix (p +:+ suffix) suffix = p.
Proof.
induction p as [|c p IH].
- change (EmptyString +:+ suffix) with suffix.
  destruct suffix; cbn [removesuffix]; now rewrite String.eqb_refl.
- change (String c p +:+ suffix) with (String c (p +:+ suffix)).
  cbn [removesuffix]. now rewrite eqb_longer_false, IH.
Qed.

(** [int] cuts the fractional part off. *)
Lemma int_truncates x n : PyFloat.int x = Ok n -> truncation_of x n.
Proof.
destruct x as [s|s| |s m e]; cbn [PyFloat.int truncation_of];
  try discriminate; intros H; injection H as <-; [reflexivity|].
destruct e as [|k|k].
- rewrite Z.shiftl_mul_pow2 by lia. change (2 ^ 0)%Z with 1%Z.
  destruct s; split; lia.
- rewrite Z.shiftl_mul_pow2 by lia.
  assert (0 < 2 ^ Zpos k)%Z by (apply Z.pow_pos_nonneg; lia).
  destruct s; split; nia.
- rewrite Z.shiftr_div_pow2 by lia.
  assert (Hp : (0 < 2 ^ Zpos k)%Z) by (apply Z.pow_pos_nonneg; lia).
  pose proof (Z.div_pos (Zpos m) (2 ^ Zpos k) ltac:(lia) Hp) as Hq.
  pose proof (Z.mul_div_le (Zpos m) (2 ^ Zpos k) Hp) as Hle.
  pose proof (Z.mul_succ_div_gt (Zpos m) (2 ^ Zpos k) Hp) as Hgt.
  destruct s; (split; [lia|]).
  + rewrite Z.abs_opp, Z.abs_eq by exact Hq. split; nia.
  + rewrite Z.abs_eq by exact Hq. split; nia.
Qed.

(** C2, against the claim as stated: the product for ["0.0000007 MB"]
    rounds to 1, and [_process_size] returns 0. *)
Lemma process_size_does_not_round :
  _process_size (Some "0.0000007 MB") = Ok (Some 0%Z)
  /\ exists f,
      PyFloat.float "0.0000007" = Ok f
      /\ PyFloat.round (PyFloat.mul f (PyFloat.of_int 1000000)) = Ok 1%Z.
Proof.
split; [vm_compute; reflexivity|].
eexists. split; vm_compute; reflexivity.
Qed.

(** C2 (amended).  When [float] accepts the text before [" MB"] and the
    product with one million is finite, [_process_size] returns that
    product cut down to its integer part (towards zero, not rounded); and
    every string that does not end with [" MB"] makes it raise
    [ValueError]. *)
Theorem process_size_truncates prefix f n :
  PyFloat.float prefix = Ok f ->
  PyFloat.int (PyFloat.mul f (PyFloat.of_int 1000000)) = Ok n ->
  _process_size (Some (prefix +:+ " MB")) = Ok (Some n)
  /\ truncation_of (PyFloat.mul f (PyFloat.of_int 1000000)) n
  /\ (forall x, endswith x " MB" = false ->
                _process_size (Some x) = Raise ValueError).
Proof.
intros Hf Hn. split; [|split].
- unfold _process_size.
  now rewrite endswith_app, removesuffix_app, Hf, Hn.
- now apply int_truncates.
- intros x Hx. unfold _process_size. now rewrite Hx.
Qed.

Lemma process_size_truncates_witness :
  _process_size (Some "1.9999999 MB") = Ok (Some 1999999%Z)
  /\ _process_size (Some "12 GB") = Raise ValueError.
Proof.
destruct (process_size_truncates "1.9999999"
            (S754_finite false 9007198804381029 (-52)) 1999999
            ltac:(vm_compute; reflexivity) ltac:(vm_compute; reflexivity))
  as (Hsize & _ & Hraise).
split; [exact Hsize|]. apply Hraise. reflexivity.
Defined.

End ProcessSize.

(** * Further properties of the code *)

(** ** Resource types and difficulty levels *)

Section ResourceTypesAndLevels.
Import PyStr Tess Vocabulary.

Lemma for_each_resource_types labels rv g :
  fst (for_each _get_resource_types_body rv labels g)
  = Ok (rv ++ omap (fun label =>
                      dict_get RESOURCE_TYPE_MAP (strip (lower label)))
                labels)%list
  /\ license_counter (snd (for_each _get_resource_types_body rv labels g))
     = license_counter g
  /\ unknown_difficulty (snd (for_each _get_resource_types_body rv labels g))
     = unknown_difficulty g.
Proof.
revert rv g. induction labels as [|raw labels IH]; intros rv g.
- cbn. now rewrite app_nil_r.
- rewrite for_each_cons, _get_resource_types_body_eq. cbv zeta.
  cbn [omap list_omap].
  destruct (dict_get RESOURCE_TYPE_MAP (strip (lower raw))) as [uri|].
  + destruct (IH (rv ++ [uri])%list g) as (Hr & Hl & Hd).
    rewrite Hr, Hl, Hd, <- app_assoc. repeat split.
  + match goal with
    | |- context [for_each _ rv labels ?h] =>
        destruct (IH rv h) as (Hr & Hl & Hd)
    end.
    rewrite Hr, Hl, Hd. repeat split.
Qed.

(** X1.  [_get_resource_types] never raises: it returns the identifiers
    that the table gives for the labels, lower-cased and trimmed, in the
    order of the labels and with their repetitions; and it touches neither
    the license counter nor the set of unknown difficulty levels. *)
Theorem resource_types_are_the_mapped_labels a g :
  fst (_get_resource_types a g)
  = Ok (omap (fun label => dict_get RESOURCE_TYPE_MAP (strip (lower label)))
          (default [] (resource_type a)))
  /\ license_counter (snd (_get_resource_types a g)) = license_counter g
  /\ unknown_difficulty (snd (_get_resource_types a g))
     = unknown_difficulty g.
Proof.
unfold _get_resource_types.
exact (for_each_resource_types (default [] (resource_type a)) [] g).
Qed.

(** What [_get_difficulty_levels] does on a non-empty string. *)
Lemma _get_difficulty_levels_str a raw g :
  difficulty_level a = Some raw ->
  raw <> EmptyString ->
  _get_difficulty_levels a g =
    let d := strip (lower raw) in
    if String.eqb d "notspecified" then (Ok [], g)
    else match dict_get DIFFICULTY_LEVEL_MAP d with
         | Some xx => (Ok [xx], g)
         | None =>
             if bool_decide (d ∈ unknown_difficulty g) then (Ok [], g)
             else
               (Ok [],
                {| unknown_resource_type := unknown_resource_type g;
                   unknown_difficulty := {[ d ]} ∪ unknown_difficulty g;
                   license_counter := license_counter g;
                   written :=
                     (written g ++ [unmappable_difficulty_line d])%list |})
         end.
Proof.
intros Hraw Hne. unfold _get_difficulty_levels. rewrite Hraw.
destruct raw as [|c raw]; [contradiction|]. cbv zeta.
destruct (String.eqb _ "notspecified"); [reflexivity|].
destruct (dict_get DIFFICULTY_LEVEL_MAP _); [reflexivity|].
unfold bind, get, add_unknown_difficulty, tqdm_write, ret. cbv beta iota.
destruct (bool_decide _); reflexivity.
Qed.

(** X2.  A difficulty level that is missing, empty or ["notspecified"] (in
    any casing, with white space around it) gives no identifier and leaves
    the state alone: nothing is reported for it. *)
Theorem difficulty_level_not_specified a g :
  difficulty_level a = None
  \/ difficulty_level a = Some EmptyString
  \/ (exists raw, difficulty_level a = Some raw
                  /\ strip (lower raw) = "notspecified") ->
  _get_difficulty_levels a g = (Ok [], g).
Proof.
intros [H|[H|(raw & H & Hns)]].
- unfold _get_difficulty_levels. now rewrite H.
- unfold _get_difficulty_levels. now rewrite H.
- rewrite (_get_difficulty_levels_str a raw g H).
  + cbv zeta. now rewrite Hns.
  + intros ->. discriminate.
Qed.

Lemma difficulty_level_not_specified_witness :
  _get_difficulty_levels (Attributes None None (Some " NotSpecified ")) initial
  = (Ok [], initial).
Proof.
apply difficulty_level_not_specified. right. right.
exists " NotSpecified ". split; reflexivity.
Defined.

(** X3.  A difficulty level that is a key of the table once lower-cased
    and trimmed gives the one identifier of that key and leaves the state
    alone; and whatever the level, the call never raises and returns at
    most one identifier. *)
Theorem difficulty_level_known key uri a raw g :
  DIFFICULTY_LEVEL_MAP !! key = Some (Some uri) ->
  difficulty_level a = Some raw ->
  strip (lower raw) = key ->
  _get_difficulty_levels a g = (Ok [uri], g)
  /\ (forall b h, exists levels,
         fst (_get_difficulty_levels b h) = Ok levels
         /\ length levels <= 1).
Proof.
intros Hkey Hraw Hnorm. split.
- assert (Hne : raw <> EmptyString).
  { intros ->. cbn in Hnorm. subst key. vm_compute in Hkey. discriminate. }
  rewrite (_get_difficulty_levels_str a raw g Hraw Hne). cbv zeta.
  rewrite Hnorm. unfold dict_get. rewrite Hkey.
  destruct (String.eqb_spec key "notspecified") as [->|_]; [|reflexivity].
  vm_compute in Hkey. discriminate.
- intros b h. destruct (difficulty_level b) as [[|c raw']|] eqn:Hb.
  + exists []. unfold _get_difficulty_levels. rewrite Hb. (split; [reflexivity | cbn; lia]).
  + rewrite (_get_difficulty_levels_str b (String c raw') h Hb)
      by discriminate.
    cbv zeta. destruct (String.eqb _ "notspecified").
    * exists []. (split; [reflexivity | cbn; lia]).
    * destruct (dict_get DIFFICULTY_LEVEL_MAP _) as [xx|].
      -- exists [xx]. (split; [reflexivity | cbn; lia]).
      -- destruct (bool_decide _); exists []; (split; [reflexivity | cbn; lia]).
  + exists []. unfold _get_difficulty_levels. rewrite Hb. (split; [reflexivity | cbn; lia]).
Qed.

Lemma difficulty_level_known_witness :
  _get_difficulty_levels (Attributes None None (Some "Advanced ")) initial
  = (Ok [NS MODALIA "Expert"], initial).
Proof.
refine (proj1 (difficulty_level_known "advanced" (NS MODALIA "Expert")
         (Attributes None None (Some "Advanced ")) "Advanced " initial
         _ _ _)); [vm_compute; reflexivity | reflexivity | reflexivity].
Defined.

End ResourceTypesAndLevels.

(** ** Normalisation of a value *)

Section Normalisation.
Import PyStr Tess Vocabulary Invariants.

Lemma isspace_lower_char c : isspace (lower_char c) = isspace c.
Proof. destruct c as [[] [] [] [] [] [] [] []]; reflexivity. Qed.

Lemma rstrip_cons c s :
  rstrip (String c s)
  = match rstrip s with
    | EmptyString => if isspace c then EmptyString else String c EmptyString
    | r => String c r
    end.
Proof. reflexivity. Qed.

Lemma lower_lstrip s : lower (lstrip s) = lstrip (lower s).
Proof.
induction s as [|c s IH]; [reflexivity|].
cbn [lstrip lower]. rewrite isspace_lower_char.
destruct (isspace c); [exact IH | reflexivity].
Qed.

Lemma lower_rstrip s : lower (rstrip s) = rstrip (lower s).
Proof.
induction s as [|c s IH]; [reflexivity|].
cbn [lower]. rewrite !rstrip_cons, <- IH, isspace_lower_char.
destruct (rstrip s) as [|d r]; cbn [lower]; [|reflexivity].
destruct (isspace c); reflexivity.
Qed.

Lemma lower_strip s : lower (strip s) = strip (lower s).
Proof. unfold strip. now rewrite lower_rstrip, lower_lstrip. Qed.

Lemma rstrip_idem s : rstrip (rstrip s) = rstrip s.
Proof.
induction s as [|c s IH]; [reflexivity|].
rewrite rstrip_cons. destruct (rstrip s) as [|d r] eqn:E.
- destruct (isspace c) eqn:Hc; [reflexivity|].
  rewrite rstrip_cons. cbn [rstrip]. now rewrite Hc.
- rewrite rstrip_cons, IH. reflexivity.
Qed.

Lemma lstrip_head s :
  lstrip s = EmptyString
  \/ exists c r, lstrip s = String c r /\ isspace c = false.
Proof.
induction s as [|c s IH]; [now left|].
cbn [lstrip]. destruct (isspace c) eqn:Hc; [exact IH|].
right. now exists c, s.
Qed.

Lemma lstrip_rstrip_lstrip s : lstrip (rstrip (lstrip s)) = rstrip (lstrip s).
Proof.
destruct (lstrip_head s) as [->|(c & r & -> & Hc)]; [reflexivity|].
rewrite rstrip_cons. destruct (rstrip r); rewrite ?Hc; cbn [lstrip];
  now rewrite Hc.
Qed.

Lemma strip_idem s : strip (strip s) = strip s.
Proof.
unfold strip. now rewrite lstrip_rstrip_lstrip, rstrip_idem.
Qed.

(** Lower-casing and trimming a value twice is lower-casing and trimming
    it once. *)
Lemma normalised_strip_lower s : normalised (strip (lower s)).
Proof.
unfold normalised. now rewrite lower_strip, lower_idem, strip_idem.
Qed.

End Normalisation.

(** ** What the module state records *)

Section StateInvariants.
Import PyStr Tess Vocabulary Invariants.

Lemma unmappable_difficulty_line_inj d e :
  unmappable_difficulty_line d = unmappable_difficulty_line e -> d = e.
Proof.
unfold unmappable_difficulty_line. intros H. injection H as H.
now apply string_app_inv_head in H.
Qed.

Lemma times_written_same l g u d c :
  times_written l
    {| unknown_resource_type := u; unknown_difficulty := d;
       license_counter := c; written := written g |}
  = times_written l g.
Proof. reflexivity. Qed.

Lemma levels_agree_initial : levels_agree initial.
Proof. intros d. reflexivity. Qed.

(** Lines that are not about a level leave [levels_agree] alone. *)
Lemma levels_agree_other g u c (extra : list line) :
  (forall l d, In l extra -> l <> unmappable_difficulty_line d) ->
  levels_agree g ->
  levels_agree
    {| unknown_resource_type := u;
       unknown_difficulty := unknown_difficulty g;
       license_counter := c;
       written := (written g ++ extra)%list |}.
Proof.
intros Hextra Hg d. unfold times_written. cbn [written unknown_difficulty].
rewrite count_occ_app. rewrite (proj1 (count_occ_not_In line_eq_dec extra _)).
- rewrite Nat.add_0_r. apply Hg.
- intros Hin. now apply (Hextra _ d Hin).
Qed.

Lemma levels_agree_resource_types labels rv g :
  levels_agree g ->
  levels_agree (snd (for_each _get_resource_types_body rv labels g)).
Proof.
revert rv g. induction labels as [|raw labels IH]; intros rv g Hg.
- exact Hg.
- rewrite for_each_cons, _get_resource_types_body_eq. cbv zeta.
  destruct (dict_get RESOURCE_TYPE_MAP (strip (lower raw))).
  + now apply IH.
  + apply IH. destruct (Nat.eqb _ 0).
    * apply (levels_agree_other g _ _ [_]); [|exact Hg].
      intros l d [<-|[]] E. symmetry in E.
      now apply difficulty_line_not_resource_type_line in E.
    * intros d. rewrite times_written_same. apply Hg.
Qed.

Lemma levels_agree_get_license a g :
  levels_agree g -> levels_agree (snd (_get_license a g)).
Proof.
intros Hg. destruct (licence a) as [raw|] eqn:Hraw.
- rewrite (_get_license_str a raw g Hraw). cbv zeta.
  destruct (String.eqb _ "notspecified"); [exact Hg|].
  destruct (LICENSES !! _); [exact Hg|].
  cbn [snd]. destruct (bool_decide _).
  + apply (levels_agree_other g _ _ [_]); [|exact Hg].
    intros l d [<-|[]]. discriminate.
  + intros d. rewrite times_written_same. apply Hg.
- unfold _get_license, bind, method_lower. rewrite Hraw. exact Hg.
Qed.

Lemma levels_agree_difficulty_levels a g :
  levels_agree g -> levels_agree (snd (_get_difficulty_levels a g)).
Proof.
intros Hg. destruct (difficulty_level a) as [[|c raw]|] eqn:Hraw;
  try (unfold _get_difficulty_levels; rewrite Hraw; exact Hg).
rewrite (_get_difficulty_levels_str a (String c raw) g Hraw) by discriminate.
cbv zeta. set (d := strip (lower (String c raw))).
destruct (String.eqb d "notspecified"); [exact Hg|].
destruct (dict_get DIFFICULTY_LEVEL_MAP d); [exact Hg|].
case_bool_decide as Hin; [exact Hg|].
intros e. cbn [snd]. rewrite times_written_snoc. cbn [unknown_difficulty].
rewrite (Hg e). destruct (decide (unmappable_difficulty_line d
                                  = unmappable_difficulty_line e)) as [E|E].
- apply unmappable_difficulty_line_inj in E. subst e.
  rewrite bool_decide_eq_false_2 by exact Hin.
  rewrite bool_decide_eq_true_2 by set_solver. reflexivity.
- assert (d <> e) by (intros ->; now apply E).
  rewrite Nat.add_0_r.
  rewrite (bool_decide_ext (e ∈ {[d]} ∪ unknown_difficulty g)
             (e ∈ unknown_difficulty g)); [reflexivity|].
  rewrite elem_of_union, elem_of_singleton.
  split; [intros [->|He]; [contradiction|exact He] | now right].
Qed.

Lemma reachable_levels_agree g : reachable g -> levels_agree g.
Proof.
induction 1 as [|a g _ IH|a g _ IH|a g _ IH].
- apply levels_agree_initial.
- now apply levels_agree_resource_types.
- now apply levels_agree_difficulty_levels.
- now apply levels_agree_get_license.
Qed.

(** X4.  In every state a run can reach, the line about an unmappable
    difficulty level has been written exactly once if the level is in
    [unknown_difficulty] and never otherwise; and a call on a level
    without an identifier puts the level, lower-cased and trimmed, into
    the set and writes the line only if the level was not yet in it,
    leaving the two counters alone. *)
Theorem unmappable_level_reported_once g :
  reachable g ->
  (forall d,
      times_written (unmappable_difficulty_line d) g
      = if bool_decide (d ∈ unknown_difficulty g) then 1 else 0)
  /\ (forall a raw,
         let d := strip (lower raw) in
         let g' := snd (_get_difficulty_levels a g) in
         difficulty_level a = Some raw ->
         raw <> EmptyString ->
         dict_get DIFFICULTY_LEVEL_MAP d = None ->
         d <> "notspecified" ->
         fst (_get_difficulty_levels a g) = Ok []
         /\ unknown_difficulty g' = {[ d ]} ∪ unknown_difficulty g
         /\ written g'
            = (written g
               ++ if bool_decide (d ∈ unknown_difficulty g)
                  then [] else [unmappable_difficulty_line d])%list
         /\ unknown_resource_type g' = unknown_resource_type g
         /\ license_counter g' = license_counter g).
Proof.
intros Hreach. split; [exact (reachable_levels_agree g Hreach)|].
intros a raw d g' Hraw Hne Hnone Hns. subst g'.
rewrite (_get_difficulty_levels_str a raw g Hraw Hne). cbv zeta.
fold d. rewrite Hnone.
destruct (String.eqb_spec d "notspecified") as [E|_]; [contradiction|].
case_bool_decide as Hin; cbn [fst snd unknown_difficulty written
                               unknown_resource_type license_counter].
- split; [reflexivity|]. split; [|split; [|split; reflexivity]].
  + apply set_eq. intros e. rewrite elem_of_union, elem_of_singleton.
    split; [now right | intros [->|He]; assumption].
  + now rewrite app_nil_r.
- repeat split; reflexivity.
Qed.

Lemma unmappable_level_reported_once_witness :
  let g :=
    snd (_get_difficulty_levels
           (Attributes None None (Some " Expert")) initial) in
  let g' :=
    snd (_get_difficulty_levels (Attributes None None (Some "EXPERT ")) g) in
  reachable g
  /\ times_written (Styled "red" "unmappable difficulty-level: expert") g = 1
  /\ written g' = written g
  /\ unknown_difficulty g' = {[ "expert" ]} ∪ unknown_difficulty g.
Proof.
intros g g'.
assert (Hreach : reachable g)
  by (apply reach_difficulty_levels, reach_initial).
destruct (unmappable_level_reported_once g Hreach) as (Hw & Hstep).
split; [exact Hreach|].
destruct (Hstep (Attributes None None (Some "EXPERT ")) "EXPERT " eq_refl
            ltac:(discriminate) ltac:(vm_compute; reflexivity)
            ltac:(discriminate)) as (_ & Hset & Hwr & _).
assert (Hin : "expert" ∈ unknown_difficulty g)
  by (apply (bool_decide_unpack _); vm_compute; exact I).
split; [|split].
- change (Styled "red" "unmappable difficulty-level: expert")
    with (unmappable_difficulty_line "expert").
  rewrite (Hw "expert"). now rewrite bool_decide_eq_true_2.
- fold g' in Hwr. change (strip (lower "EXPERT ")) with "expert" in Hwr.
  rewrite Hwr, bool_decide_eq_true_2 by exact Hin. apply app_nil_r.
- fold g' in Hset. exact Hset.
Defined.

End StateInvariants.
Section StateGrows.
Import PyStr Tess Vocabulary Invariants.

Lemma grows_refl g : grows g g.
Proof. repeat split; try reflexivity; intros; lia. Qed.

Lemma grows_trans g1 g2 g3 : grows g1 g2 -> grows g2 g3 -> grows g1 g3.
Proof.
intros (Hw & Hr & Hl & Hd) (Hw' & Hr' & Hl' & Hd').
split; [|split; [|split]].
- now transitivity (written g2).
- intros v. specialize (Hr v). specialize (Hr' v). lia.
- intros v. specialize (Hl v). specialize (Hl' v). lia.
- now transitivity (unknown_difficulty g2).
Qed.

Lemma counter_get_incr_le c k v :
  counter_get c v <= counter_get (counter_incr c k) v.
Proof.
destruct (decide (k = v)) as [->|Hne].
- rewrite counter_get_incr_eq. lia.
- now rewrite counter_get_incr_ne.
Qed.

Lemma written_prefix_if (b : bool) (w : list line) l :
  w `prefix_of` (if b then (w ++ [l])%list else w).
Proof. destruct b; [now apply prefix_app_r | reflexivity]. Qed.

Lemma grows_resource_types labels rv g :
  grows g (snd (for_each _get_resource_types_body rv labels g)).
Proof.
revert rv g. induction labels as [|raw labels IH]; intros rv g.
- apply grows_refl.
- rewrite for_each_cons, _get_resource_types_body_eq. cbv zeta.
  destruct (dict_get RESOURCE_TYPE_MAP (strip (lower raw))); [apply IH|].
  eapply grows_trans; [|apply IH].
  split; [|split; [|split]]; cbn [written unknown_resource_type
                                    license_counter unknown_difficulty].
  + apply written_prefix_if.
  + intros v. apply counter_get_incr_le.
  + intros v. lia.
  + reflexivity.
Qed.

Lemma grows_difficulty_levels a g :
  grows g (snd (_get_difficulty_levels a g)).
Proof.
destruct (difficulty_level a) as [[|c raw]|] eqn:Hraw;
  try (unfold _get_difficulty_levels; rewrite Hraw; apply grows_refl).
rewrite (_get_difficulty_levels_str a (String c raw) g Hraw) by discriminate.
cbv zeta. destruct (String.eqb _ "notspecified"); [apply grows_refl|].
destruct (dict_get DIFFICULTY_LEVEL_MAP _); [apply grows_refl|].
destruct (bool_decide _); [apply grows_refl|].
split; [|split; [|split]]; cbn [snd written unknown_resource_type
                                  license_counter unknown_difficulty].
- now apply prefix_app_r.
- intros v. lia.
- intros v. lia.
- apply union_subseteq_r.
Qed.

Lemma grows_get_license a g : grows g (snd (_get_license a g)).
Proof.
destruct (licence a) as [raw|] eqn:Hraw.
- rewrite (_get_license_str a raw g Hraw). cbv zeta.
  destruct (String.eqb _ "notspecified"); [apply grows_refl|].
  destruct (LICENSES !! _); [apply grows_refl|].
  split; [|split; [|split]]; cbn [snd written unknown_resource_type
                                    license_counter unknown_difficulty].
  + apply written_prefix_if.
  + intros v. lia.
  + intros v. apply counter_get_incr_le.
  + reflexivity.
- unfold _get_license, bind, method_lower. rewrite Hraw. apply grows_refl.
Qed.

(** X5.  None of the three functions loses anything the module state
    records, whether the call returns or raises: the lines written before
    the call are the first lines written after it, no counter goes down,
    and no level leaves [unknown_difficulty]. *)
Theorem module_state_only_grows a g :
  grows g (snd (_get_resource_types a g))
  /\ grows g (snd (_get_difficulty_levels a g))
  /\ grows g (snd (_get_license a g)).
Proof.
split; [|split].
- apply grows_resource_types.
- apply grows_difficulty_levels.
- apply grows_get_license.
Qed.

End StateGrows.

Section RecordsUnmapped.
Import PyStr Tess Vocabulary Invariants.

Lemma records_unmapped_initial : records_unmapped initial.
Proof.
split; [|split]; cbn [initial unknown_resource_type license_counter
                        unknown_difficulty].
- intros k n H. now rewrite lookup_empty in H.
- intros k n H. now rewrite lookup_empty in H.
- intros d H. set_solver.
Qed.

Lemma records_unmapped_resource_types labels rv g :
  records_unmapped g ->
  records_unmapped (snd (for_each _get_resource_types_body rv labels g)).
Proof.
revert rv g. induction labels as [|raw labels IH]; intros rv g Hg.
- exact Hg.
- rewrite for_each_cons, _get_resource_types_body_eq. cbv zeta.
  destruct (dict_get RESOURCE_TYPE_MAP (strip (lower raw))) eqn:Hget;
    [now apply IH|].
  apply IH. destruct Hg as (Hr & Hl & Hd).
  split; [|split]; cbn [unknown_resource_type license_counter
                          unknown_difficulty]; [|exact Hl|exact Hd].
  intros k n. unfold counter_incr.
  destruct (decide (strip (lower raw) = k)) as [<-|Hne].
  + rewrite lookup_insert_eq. intros [= <-].
    split; [lia|]. split; [apply normalised_strip_lower | exact Hget].
  + rewrite lookup_insert_ne by exact Hne. apply Hr.
Qed.

Lemma records_unmapped_difficulty_levels a g :
  records_unmapped g -> records_unmapped (snd (_get_difficulty_levels a g)).
Proof.
intros Hg. destruct (difficulty_level a) as [[|c raw]|] eqn:Hraw;
  try (unfold _get_difficulty_levels; rewrite Hraw; exact Hg).
rewrite (_get_difficulty_levels_str a (String c raw) g Hraw) by discriminate.
cbv zeta. set (d := strip (lower (String c raw))).
destruct (String.eqb_spec d "notspecified") as [|Hns]; [exact Hg|].
destruct (dict_get DIFFICULTY_LEVEL_MAP d) eqn:Hget; [exact Hg|].
destruct (bool_decide _); [exact Hg|].
destruct Hg as (Hr & Hl & Hd).
split; [|split]; cbn [snd unknown_resource_type license_counter
                        unknown_difficulty]; [exact Hr|exact Hl|].
intros e [He|He]%elem_of_union.
- apply elem_of_singleton in He. subst e.
  split; [apply normalised_strip_lower|]. now split.
- now apply Hd.
Qed.

Lemma records_unmapped_get_license a g :
  records_unmapped g -> records_unmapped (snd (_get_license a g)).
Proof.
intros Hg. destruct (licence a) as [raw|] eqn:Hraw.
- rewrite (_get_license_str a raw g Hraw). cbv zeta.
  destruct (String.eqb_spec (strip (lower raw)) "notspecified") as [|Hns];
    [exact Hg|].
  destruct (LICENSES !! strip (lower raw)) eqn:Hget; [exact Hg|].
  destruct Hg as (Hr & Hl & Hd).
  split; [|split]; cbn [snd unknown_resource_type license_counter
                          unknown_difficulty]; [exact Hr| |exact Hd].
  intros k n. unfold counter_incr.
  destruct (decide (strip (lower raw) = k)) as [<-|Hne].
  + rewrite lookup_insert_eq. intros [= <-].
    split; [lia|]. split; [apply normalised_strip_lower|]. now split.
  + rewrite lookup_insert_ne by exact Hne. apply Hl.
- unfold _get_license, bind, method_lower. rewrite Hraw. exact Hg.
Qed.

(** X6.  In every state a run can reach, the two counters and the set of
    unknown levels record only values without an identifier in their
    table: each recorded value is spelled lower-cased and trimmed, is not
    a key with an identifier (for licenses: is no key at all and is not
    ["notspecified"]), and a counted value has a count of at least one. *)
Theorem recorded_values_are_unmapped g :
  reachable g -> records_unmapped g.
Proof.
induction 1 as [|a g _ IH|a g _ IH|a g _ IH].
- apply records_unmapped_initial.
- now apply records_unmapped_resource_types.
- now apply records_unmapped_difficulty_levels.
- now apply records_unmapped_get_license.
Qed.

Lemma recorded_values_are_unmapped_witness :
  records_unmapped
    (snd (_get_license (Attributes (Some " Custom ") None None)
            (snd (_get_resource_types
                    (Attributes None (Some ["Video"; "Quiz"]) None)
                    initial)))).
Proof.
apply recorded_values_are_unmapped.
apply reach_license, reach_resource_types, reach_initial.
Defined.

(** X7.  A license text that [_get_license] passes through is the
    lower-cased and trimmed input, and it is stable: given back as the
    ["licence"] value, in any state, it is passed through unchanged and
    counted under the same key. *)
Theorem passed_through_license_is_stable a raw g t :
  licence a = Some raw ->
  fst (_get_license a g) = Ok (Some (LicenseText t)) ->
  t = strip (lower raw)
  /\ forall b h,
       licence b = Some t ->
       fst (_get_license b h) = Ok (Some (LicenseText t))
       /\ counter_get (license_counter (snd (_get_license b h))) t
          = counter_get (license_counter h) t + 1.
Proof.
intros Hraw Hres. rewrite (_get_license_str a raw g Hraw) in Hres.
cbv zeta in Hres.
destruct (String.eqb_spec (strip (lower raw)) "notspecified") as [|Hns];
  [discriminate|].
destruct (LICENSES !! strip (lower raw)) eqn:Hget; [discriminate|].
cbn [fst] in Hres. injection Hres as <-.
split; [reflexivity|]. intros b h Hb.
pose proof (normalised_strip_lower raw) as Hn. unfold normalised in Hn.
destruct (_get_license_unknown b (strip (lower raw)) h Hb) as (H1 & H2 & _).
- now rewrite Hn.
- now rewrite Hn.
- rewrite Hn in H1, H2. now split.
Qed.

Lemma passed_through_license_is_stable_witness :
  fst (_get_license (Attributes (Some "custom") None None)
         (snd (_get_license (Attributes (Some " Custom ") None None)
                 initial)))
  = Ok (Some (LicenseText "custom")).
Proof.
destruct (passed_through_license_is_stable
            (Attributes (Some " Custom ") None None) " Custom " initial
            "custom" eq_refl ltac:(vm_compute; reflexivity)) as [_ H].
apply (H (Attributes (Some "custom") None None)). reflexivity.
Defined.

End RecordsUnmapped.

(** ** The DOI of a material *)

Section Doi.
Import PyStr Tess Harvest.

Lemma startswith_nil s : startswith s EmptyString = true.
Proof. destruct s; reflexivity. Qed.

Lemma startswith_app p s : startswith (p +:+ s) p = true.
Proof.
induction p as [|c p IH]; [apply startswith_nil|].
change (String c p +:+ s) with (String c (p +:+ s)).
cbn [startswith]. now rewrite Ascii.eqb_refl, IH.
Qed.

Lemma slice_from_app p s : slice_from (String.length p) (p +:+ s) = s.
Proof. induction p as [|c p IH]; [now destruct s | exact IH]. Qed.

Lemma removeprefix_app p s : removeprefix (p +:+ s) p = s.
Proof. unfold removeprefix. now rewrite startswith_app, slice_from_app. Qed.

Lemma removeprefix_absent s p : startswith s p = false -> removeprefix s p = s.
Proof. unfold removeprefix. now intros ->. Qed.

(** [" " in s], character by character. *)
Lemma contains_space_cons c s :
  contains (String c s) " " = Ascii.eqb c " " || contains s " ".
Proof.
cbn [contains startswith]. rewrite startswith_nil, andb_true_r.
now destruct (Ascii.eqb c " ").
Qed.

Lemma contains_space_app s t :
  contains (s +:+ t) " " = contains s " " || contains t " ".
Proof.
induction s as [|c s IH]; [reflexivity|].
change (String c s +:+ t) with (String c (s +:+ t)).
now rewrite !contains_space_cons, IH, orb_assoc.
Qed.

Lemma contains_space_slice_from n s :
  contains s " " = false -> contains (slice_from n s) " " = false.
Proof.
revert s. induction n as [|n IH]; intros [|c s] H; try exact H.
rewrite contains_space_cons in H. apply orb_false_elim in H as [_ H].
now apply IH.
Qed.

Lemma contains_space_removeprefix s p :
  contains s " " = false -> contains (removeprefix s p) " " = false.
Proof.
intros H. unfold removeprefix. destruct (startswith s p); [|exact H].
now apply contains_space_slice_from.
Qed.

Lemma contains_space_lstrip s :
  contains s " " = false -> contains (lstrip s) " " = false.
Proof.
induction s as [|c s IH]; intros H; [exact H|].
cbn [lstrip]. destruct (isspace c); [|exact H].
rewrite contains_space_cons in H. apply orb_false_elim in H as [_ H].
now apply IH.
Qed.

Lemma contains_space_rstrip s :
  contains s " " = false -> contains (rstrip s) " " = false.
Proof.
induction s as [|c s IH]; intros H; [exact H|].
rewrite contains_space_cons in H. apply orb_false_elim in H as [Hc H].
rewrite rstrip_cons. specialize (IH H).
destruct (rstrip s) as [|d r].
- destruct (isspace c); [reflexivity|].
  now rewrite contains_space_cons, Hc.
- now rewrite contains_space_cons, Hc, IH.
Qed.

Lemma contains_space_strip s :
  contains s " " = false -> contains (strip s) " " = false.
Proof.
intros H. now apply contains_space_rstrip, contains_space_lstrip.
Qed.

(** A text that starts with a character that is no white space keeps it
    when trimmed. *)
Lemma strip_keeps_head c r :
  isspace c = false -> exists r', strip (String c r) = String c r'.
Proof.
intros Hc. unfold strip. cbn [lstrip]. rewrite Hc, rstrip_cons.
destruct (rstrip r) as [|d r']; rewrite ?Hc; eauto.
Qed.

(** What lines 199 to 205 give for a non-empty text. *)
Lemma doi_uri_str c s :
  doi_uri (Some (String c s))
  = if String.eqb (strip (String c s)) EmptyString
       || contains (String c s) " "
    then None
    else Some ("https://doi.org/"
               +:+ strip (removeprefix
                            (removeprefix (String c s) "https://doi.org/")
                            "http://doi.org/")).
Proof. reflexivity. Qed.

(** X8.  The DOI of a material becomes [None] exactly when it is [None],
    or is a non-empty text that is blank or holds a space; it becomes the
    empty text exactly when it is the empty text, so an empty text stays
    empty; and every other DOI becomes a text that starts with
    [https://doi.org/] and holds no space. *)
Theorem doi_uri_shape d :
  (doi_uri d = None
   <-> d = None
       \/ exists s, d = Some s /\ s <> EmptyString
                    /\ (strip s = EmptyString \/ contains s " " = true))
  /\ (doi_uri d = Some EmptyString <-> d = Some EmptyString)
  /\ (forall u,
         doi_uri d = Some u ->
         (u = EmptyString /\ d = Some EmptyString)
         \/ (u <> EmptyString /\ d <> Some EmptyString
             /\ startswith u "https://doi.org/" = true
             /\ contains u " " = false)).
Proof.
destruct d as [[|c s]|].
- split; [|split].
  + split; [discriminate|]. intros [H|(s & H & Hne & _)]; [discriminate|].
    injection H as <-. contradiction.
  + split; reflexivity.
  + intros u [= <-]. now left.
- rewrite doi_uri_str. split; [|split].
  + destruct (String.eqb_spec (strip (String c s)) EmptyString) as [E|E].
    * split; [intros _|reflexivity]. right. exists (String c s).
      split; [reflexivity|]. split; [discriminate|]. now left.
    * cbn [orb]. destruct (contains (String c s) " ") eqn:Hsp.
      -- split; [intros _|reflexivity]. right. exists (String c s).
         split; [reflexivity|]. split; [discriminate|]. now right.
      -- split; [discriminate|].
         intros [H|(s' & H & _ & [H'|H'])]; [discriminate| |];
           injection H as <-; congruence.
  + split; [|discriminate].
    destruct (String.eqb (strip (String c s)) EmptyString
              || contains (String c s) " "); discriminate.
  + intros u Hu. right.
    destruct (String.eqb (strip (String c s)) EmptyString); [discriminate|].
    cbn [orb] in Hu.
    destruct (contains (String c s) " ") eqn:Hsp; [discriminate|].
    injection Hu as <-. split; [discriminate|]. split; [discriminate|].
    split; [apply startswith_app|].
    rewrite contains_space_app. apply orb_false_intro; [reflexivity|].
    now apply contains_space_strip, contains_space_removeprefix,
      contains_space_removeprefix.
- split; [|split].
  + split; [now left | reflexivity].
  + split; discriminate.
  + discriminate.
Qed.

(** X9.  A bare DOI, and the same DOI after [https://doi.org/] or after
    [http://doi.org/], become the same text, the DOI after
    [https://doi.org/]; so that text is left as it is. *)
Theorem doi_spellings_agree d :
  d <> EmptyString ->
  strip d = d ->
  contains d " " = false ->
  startswith d "https://doi.org/" = false ->
  startswith d "http://doi.org/" = false ->
  doi_uri (Some d) = Some ("https://doi.org/" +:+ d)
  /\ doi_uri (Some ("https://doi.org/" +:+ d))
     = Some ("https://doi.org/" +:+ d)
  /\ doi_uri (Some ("http://doi.org/" +:+ d))
     = Some ("https://doi.org/" +:+ d).
Proof.
intros Hne Hstrip Hsp Hs Hp.
assert (Hhead : forall c p,
           isspace c = false ->
           contains (String c p) " " = false ->
           String.eqb (strip (String c p +:+ d)) EmptyString
           || contains (String c p +:+ d) " " = false).
{ intros c p Hc Hcp. rewrite contains_space_app, Hsp, Hcp.
  change (String c p +:+ d) with (String c (p +:+ d)).
  destruct (strip_keeps_head c (p +:+ d) Hc) as [r' ->]. reflexivity. }
split; [|split].
- destruct d as [|c s]; [contradiction|]. rewrite doi_uri_str.
  rewrite Hstrip, Hsp. cbn [String.eqb orb].
  rewrite (removeprefix_absent _ "https://doi.org/") by exact Hs.
  rewrite removeprefix_absent by exact Hp.
  now rewrite Hstrip.
- change ("https://doi.org/" +:+ d)
    with (String "h" ("ttps://doi.org/" +:+ d)) at 1.
  rewrite doi_uri_str.
  change (String "h" ("ttps://doi.org/" +:+ d))
    with ("https://doi.org/" +:+ d).
  rewrite (Hhead "h"%char "ttps://doi.org/") by reflexivity.
  rewrite removeprefix_app, removeprefix_absent by exact Hp.
  now rewrite Hstrip.
- change ("http://doi.org/" +:+ d)
    with (String "h" ("ttp://doi.org/" +:+ d)) at 1.
  rewrite doi_uri_str.
  change (String "h" ("ttp://doi.org/" +:+ d))
    with ("http://doi.org/" +:+ d).
  rewrite (Hhead "h"%char "ttp://doi.org/") by reflexivity.
  rewrite (removeprefix_absent ("http://doi.org/" +:+ d) "https://doi.org/")
    by reflexivity.
  now rewrite removeprefix_app, Hstrip.
Qed.

Lemma doi_spellings_agree_witness :
  doi_uri (Some "10.5281/zenodo.1") = Some "https://doi.org/10.5281/zenodo.1"
  /\ doi_uri (Some "https://doi.org/10.5281/zenodo.1")
     = Some "https://doi.org/10.5281/zenodo.1"
  /\ doi_uri (Some "http://doi.org/10.5281/zenodo.1")
     = Some "https://doi.org/10.5281/zenodo.1".
Proof.
apply (doi_spellings_agree "10.5281/zenodo.1");
  [discriminate | reflexivity | reflexivity | reflexivity | reflexivity].
Defined.

End Doi.
(** ** The harvest of a TeSS instance *)

Section HarvestFacts.
Import PyStr Tess Vocabulary Invariants Harvest.

Variables RawAuthor Author Grounder Date : Type.
Variable resolve_authors : list RawAuthor -> Grounder -> result (list Author).
Variable pyobo_ror_grounder : Grounder.

Implicit Types (c : client RawAuthor Date) (m : material RawAuthor Date).
Implicit Types (r : EducationalResource Author Date).
Implicit Types (rv : list (EducationalResource Author Date)).
Implicit Types (INSTANCES cs : list (client RawAuthor Date)).

Lemma _get_difficulty_levels_returns a g :
  exists levels,
    fst (_get_difficulty_levels a g) = Ok levels
    /\ length levels <= 1
    /\ license_counter (snd (_get_difficulty_levels a g)) = license_counter g.
Proof.
destruct (difficulty_level a) as [[|c raw]|] eqn:Ha.
- exists []. unfold _get_difficulty_levels. rewrite Ha.
  split; [reflexivity|]. split; [cbn; lia | reflexivity].
- rewrite (_get_difficulty_levels_str a (String c raw) g Ha) by discriminate.
  cbv zeta. destruct (String.eqb _ "notspecified").
  + exists []. split; [reflexivity|]. split; [cbn; lia | reflexivity].
  + destruct (dict_get DIFFICULTY_LEVEL_MAP _) as [xx|].
    * exists [xx]. split; [reflexivity|]. split; [cbn; lia | reflexivity].
    * destruct (bool_decide _); exists [];
        (split; [reflexivity|]; split; [cbn; lia | reflexivity]).
- exists []. unfold _get_difficulty_levels. rewrite Ha.
  split; [reflexivity|]. split; [cbn; lia | reflexivity].
Qed.

(** One turn of the loop, when it returns: the material has its three
    texts, the authors are resolved, and one record is added. *)
Lemma get_tess_oers_body_Ok c gr rv m g
  (rv' : list (EducationalResource Author Date)) g' :
  get_tess_oers_body resolve_authors c gr rv m g = (Ok rv', g') ->
  exists r lic,
    rv' = (rv ++ [r])%list
    /\ made_from c m r
    /\ has_texts m = true
    /\ _get_license (attrs m) g
       = (Ok lic, snd (_get_license (attrs m) g))
    /\ oer_license r = lic
    /\ g' = snd (_get_difficulty_levels (attrs m)
                   (snd (_get_resource_types (attrs m)
                           (snd (_get_license (attrs m) g)))))
    /\ resolve_authors (default [] (authors m)) gr = Ok (oer_authors r).
Proof.
unfold get_tess_oers_body, has_texts, bind, str_strip, lift, ret, raise.
destruct (title m) as [t|] eqn:Ht; [|discriminate].
destruct (_get_license (attrs m) g) as [[lic|e] g1] eqn:HL; [|discriminate].
destruct (description m) as [d|] eqn:Hd; [|discriminate].
pose proof (for_each_resource_types
              (default [] (resource_type (attrs m))) [] g1) as (Hrt & _).
fold (_get_resource_types (attrs m)) in Hrt.
destruct (_get_resource_types (attrs m) g1) as [[rts|e] g2] eqn:HR;
  [|discriminate].
cbn [fst] in Hrt. injection Hrt as ->.
destruct (_get_difficulty_levels_returns (attrs m) g2) as (dls & Hdl & Hlen & _).
destruct (_get_difficulty_levels (attrs m) g2) as [[dls'|e] g3] eqn:HD;
  [|discriminate].
cbn [fst] in Hdl. injection Hdl as ->.
destruct (resolve_authors _ gr) as [au|e] eqn:HA; [|discriminate].
intros [= <- <-]. cbn [snd]. rewrite HR. cbn [snd]. rewrite HD. cbn [snd].
destruct (licence (attrs m)) as [l|] eqn:Hl.
- eexists _, lic. split; [reflexivity|].
  split; [|split; [reflexivity|split; [reflexivity|
           split; [reflexivity|split; [reflexivity|reflexivity]]]]].
  unfold made_from. cbn.
  split; [reflexivity|]. split; [reflexivity|]. split; [reflexivity|].
  split; [now exists t|]. split; [now exists d|].
  split; [reflexivity|]. split; [reflexivity|]. split; [reflexivity|].
  exact Hlen.
- unfold _get_license, bind, method_lower in HL. rewrite Hl in HL.
  discriminate.
Qed.

(** One turn of the loop raises [AttributeError] when one of the three
    texts is [None], and returns when they are there and the authors are
    resolved. *)
Lemma get_tess_oers_body_texts c gr rv m g :
  (has_texts m = false ->
   fst (get_tess_oers_body resolve_authors c gr rv m g)
   = Raise AttributeError)
  /\ (has_texts m = true ->
      forall au,
        resolve_authors (default [] (authors m)) gr = Ok au ->
        exists rv', fst (get_tess_oers_body resolve_authors c gr rv m g)
                    = Ok rv').
Proof.
unfold get_tess_oers_body, has_texts, bind, str_strip, lift, ret, raise.
destruct (title m) as [t|]; [|split; [reflexivity|discriminate]].
destruct (licence (attrs m)) as [l|] eqn:Hl.
- assert (HL : exists lic, fst (_get_license (attrs m) g) = Ok lic).
  { rewrite (_get_license_str (attrs m) l g Hl). cbv zeta.
    destruct (String.eqb _ "notspecified"); [now eexists|].
    destruct (LICENSES !! _); now eexists. }
  destruct HL as [lic HL].
  destruct (_get_license (attrs m) g) as [[lic'|e] g1]; [|discriminate].
  destruct (description m) as [d|]; [|split; [reflexivity|discriminate]].
  split; [discriminate|]. intros _ au Hau.
  pose proof (for_each_resource_types
                (default [] (resource_type (attrs m))) [] g1) as (Hrt & _).
  fold (_get_resource_types (attrs m)) in Hrt.
  destruct (_get_resource_types (attrs m) g1) as [[rts|e] g2];
    [|discriminate].
  destruct (_get_difficulty_levels_returns (attrs m) g2) as (dls & Hdl & _).
  destruct (_get_difficulty_levels (attrs m) g2) as [[dls'|e] g3];
    [|discriminate].
  rewrite Hau. now eexists.
- split; [intros _|discriminate].
  unfold _get_license, bind, method_lower. now rewrite Hl.
Qed.

(** Whatever the three functions keep, one turn of the loop keeps,
    whether it returns or raises. *)
Lemma get_tess_oers_body_keeps (P : globals -> Prop) :
  (forall a g, P g -> P (snd (_get_license a g))) ->
  (forall a g, P g -> P (snd (_get_resource_types a g))) ->
  (forall a g, P g -> P (snd (_get_difficulty_levels a g))) ->
  forall c gr rv m g,
    P g -> P (snd (get_tess_oers_body resolve_authors c gr rv m g)).
Proof.
intros HL HR HD c gr rv m g Hg.
unfold get_tess_oers_body, bind, str_strip, lift, ret, raise.
destruct (title m); [|exact Hg].
specialize (HL (attrs m) g Hg).
destruct (_get_license (attrs m) g) as [[lic|e] g1]; [|exact HL].
cbn [snd] in HL. destruct (description m); [|exact HL].
specialize (HR (attrs m) g1 HL).
destruct (_get_resource_types (attrs m) g1) as [[rts|e] g2]; [|exact HR].
cbn [snd] in HR. specialize (HD (attrs m) g2 HR).
destruct (_get_difficulty_levels (attrs m) g2) as [[dls|e] g3]; [|exact HD].
destruct (resolve_authors _ gr); exact HD.
Qed.

Lemma harvest_loop_keeps (P : globals -> Prop) :
  (forall a g, P g -> P (snd (_get_license a g))) ->
  (forall a g, P g -> P (snd (_get_resource_types a g))) ->
  (forall a g, P g -> P (snd (_get_difficulty_levels a g))) ->
  forall c gr ms rv g,
    P g ->
    P (snd (for_each (get_tess_oers_body resolve_authors c gr) rv ms g)).
Proof.
intros HL HR HD c gr ms. induction ms as [|m ms IH]; intros rv g Hg.
- exact Hg.
- rewrite for_each_cons.
  pose proof (get_tess_oers_body_keeps P HL HR HD c gr rv m g Hg) as H.
  destruct (get_tess_oers_body resolve_authors c gr rv m g) as [[rv'|e] g'];
    [now apply IH | exact H].
Qed.

(** How a call of [_get_license] that returns moves a counter. *)
Lemma _get_license_counts a g lic g1 t :
  _get_license a g = (Ok lic, g1) ->
  counter_get (license_counter g1) t
  = counter_get (license_counter g) t
    + match lic with
      | Some (LicenseText t') => if String.eqb t' t then 1 else 0
      | _ => 0
      end.
Proof.
destruct (licence a) as [raw|] eqn:Hraw.
- rewrite (_get_license_str a raw g Hraw). cbv zeta.
  destruct (String.eqb _ "notspecified"); [intros [= <- <-]; lia|].
  destruct (LICENSES !! _); intros [= <- <-]; [lia|].
  cbn [license_counter].
  destruct (String.eqb_spec (strip (lower raw)) t) as [->|Hne].
  + apply counter_get_incr_eq.
  + rewrite counter_get_incr_ne by exact Hne. lia.
- unfold _get_license, bind, method_lower. rewrite Hraw. discriminate.
Qed.

(** The loop, when it returns. *)
Lemma harvest_loop_Ok c gr ms rv g
  (rv' : list (EducationalResource Author Date)) g' :
  for_each (get_tess_oers_body resolve_authors c gr) rv ms g = (Ok rv', g') ->
  exists new,
    rv' = (rv ++ new)%list
    /\ Forall2 (made_from c) ms new
    /\ forallb has_texts ms = true
    /\ forall t,
         counter_get (license_counter g') t
         = counter_get (license_counter g) t
           + length (List.filter (licensed_as t) new).
Proof.
revert rv g. induction ms as [|m ms IH]; intros rv g.
- intros [= <- <-]. exists []. rewrite app_nil_r.
  split; [reflexivity|]. split; [constructor|]. split; [reflexivity|].
  intros t. cbn. lia.
- rewrite for_each_cons.
  destruct (get_tess_oers_body resolve_authors c gr rv m g)
    as [[rv1|e] g1] eqn:Hbody; [|discriminate].
  intros Hrest.
  destruct (get_tess_oers_body_Ok c gr rv m g rv1 g1 Hbody)
    as (r & lic & -> & Hmade & Htexts & HL & Hlic & Hg1 & _).
  destruct (IH _ _ Hrest) as (new & -> & Hall & Hts & Hcount).
  exists (r :: new). rewrite <- app_assoc.
  split; [reflexivity|]. split; [now constructor|].
  split; [cbn [forallb]; now rewrite Htexts|].
  intros t. rewrite Hcount, Hg1.
  destruct (_get_difficulty_levels_returns (attrs m)
              (snd (_get_resource_types (attrs m)
                      (snd (_get_license (attrs m) g)))))
    as (_ & _ & _ & ->).
  pose proof (for_each_resource_types
                (default [] (resource_type (attrs m))) []
                (snd (_get_license (attrs m) g))) as (_ & Hsame & _).
  fold (_get_resource_types (attrs m)) in Hsame. rewrite Hsame.
  rewrite (_get_license_counts _ _ _ _ t HL).
  cbn [List.filter]. unfold licensed_as at 2. rewrite Hlic.
  destruct lic as [[uri|t']|]; cbn [length]; try lia.
  destruct (String.eqb t' t); cbn [length]; lia.
Qed.

(** [get_tess_oers] is its loop and then the line that counts the
    records. *)
Lemma get_tess_oers_eq c include_description ror_grounder g :
  get_tess_oers resolve_authors pyobo_ror_grounder c include_description
    ror_grounder g
  = match for_each (get_tess_oers_body resolve_authors c
                      (default pyobo_ror_grounder ror_grounder))
            [] (get_materials c) g with
    | (Ok rv, g') =>
        (Ok rv,
         {| unknown_resource_type := unknown_resource_type g';
            unknown_difficulty := unknown_difficulty g';
            license_counter := license_counter g';
            written :=
              (written g' ++ [created_line (key c) (length rv)])%list |})
    | (Raise e, g') => (Raise e, g')
    end.
Proof.
unfold get_tess_oers. cbv zeta. unfold bind, tqdm_write, ret.
destruct (for_each _ _ _ g) as [[rv|e] g']; reflexivity.
Qed.

Lemma grows_harvest_loop c gr ms rv g :
  grows g (snd (for_each (get_tess_oers_body resolve_authors c gr) rv ms g)).
Proof.
apply (harvest_loop_keeps (grows g)); [| | |apply grows_refl].
- intros a h Hh. exact (grows_trans _ _ _ Hh (grows_get_license a h)).
- intros a h Hh. exact (grows_trans _ _ _ Hh (grows_resource_types _ [] h)).
- intros a h Hh. exact (grows_trans _ _ _ Hh (grows_difficulty_levels a h)).
Qed.

(** X10.  When [get_tess_oers] returns, it returns one record per
    material, in the order of the materials and skipping none: each
    record has the key of the client as platform, the address of its
    material under the base address, the DOI as lines 199 to 205 leave
    it, and the title, description and keywords trimmed; and the last
    line written counts the materials. *)
Theorem harvest_one_record_per_material c include_description ror_grounder g
  (rv : list (EducationalResource Author Date)) :
  fst (get_tess_oers resolve_authors pyobo_ror_grounder c include_description
         ror_grounder g) = Ok rv ->
  Forall2 (made_from c) (get_materials c) rv
  /\ exists before,
       written g `prefix_of` before
       /\ written (snd (get_tess_oers resolve_authors pyobo_ror_grounder c
                          include_description ror_grounder g))
          = (before
             ++ [created_line (key c) (length (get_materials c))])%list.
Proof.
rewrite get_tess_oers_eq.
set (gr := default pyobo_ror_grounder ror_grounder).
pose proof (grows_harvest_loop c gr (get_materials c) [] g) as (Hpre & _).
destruct (for_each (get_tess_oers_body resolve_authors c gr) []
            (get_materials c) g) as [[rv'|e] g'] eqn:Hloop; [|discriminate].
destruct (harvest_loop_Ok c gr _ _ _ _ _ Hloop) as (new & -> & Hall & _).
cbn [app fst snd written]. intros [= <-]. split; [exact Hall|].
exists (written g'). split; [exact Hpre|].
now rewrite (Forall2_length _ _ _ Hall).
Qed.

Lemma harvest_loop_outcome c gr ms rv g :
  (forall m, In m ms ->
             exists au, resolve_authors (default [] (authors m)) gr = Ok au) ->
  if forallb has_texts ms
  then exists rv',
         fst (for_each (get_tess_oers_body resolve_authors c gr) rv ms g)
         = Ok rv'
  else fst (for_each (get_tess_oers_body resolve_authors c gr) rv ms g)
       = Raise AttributeError.
Proof.
revert rv g. induction ms as [|m ms IH]; intros rv g Hau.
- now exists rv.
- cbn [forallb]. rewrite for_each_cons.
  destruct (get_tess_oers_body_texts c gr rv m g) as [Hbad Hgood].
  destruct (has_texts m).
  + destruct (Hau m (or_introl eq_refl)) as [au Hm].
    destruct (Hgood eq_refl au Hm) as [rv1 H1].
    destruct (get_tess_oers_body resolve_authors c gr rv m g)
      as [[rv1'|e] g1]; [|discriminate].
    cbn [andb]. apply IH. intros m' Hin. apply Hau. now right.
  + specialize (Hbad eq_refl).
    destruct (get_tess_oers_body resolve_authors c gr rv m g)
      as [[rv1'|e] g1]; [discriminate|].
    cbn [fst] in Hbad. cbn [andb fst]. exact Hbad.
Qed.

(** X11.  A harvest is all or nothing.  With authors that
    [resolve_authors] accepts: if every material has a title, a license
    and a description that are strings, [get_tess_oers] returns as many
    records as there are materials; and if one of those values is [None]
    in some material, the whole call raises [AttributeError] and returns
    no record, not even for the materials before that one. *)
Theorem harvest_all_or_nothing c include_description ror_grounder g :
  (forall m,
      In m (get_materials c) ->
      exists au,
        resolve_authors (default [] (authors m))
          (default pyobo_ror_grounder ror_grounder) = Ok au) ->
  if forallb has_texts (get_materials c)
  then exists rv,
         fst (get_tess_oers resolve_authors pyobo_ror_grounder c
                include_description ror_grounder g) = Ok rv
         /\ length rv = length (get_materials c)
  else fst (get_tess_oers resolve_authors pyobo_ror_grounder c
              include_description ror_grounder g) = Raise AttributeError.
Proof.
intros Hau. rewrite get_tess_oers_eq.
set (gr := default pyobo_ror_grounder ror_grounder) in *.
pose proof (harvest_loop_outcome c gr (get_materials c) [] g Hau) as H.
destruct (forallb has_texts (get_materials c)).
- destruct H as [rv' H].
  destruct (for_each (get_tess_oers_body resolve_authors c gr) []
              (get_materials c) g) as [[rv|e] g'] eqn:Hloop; [|discriminate].
  exists rv. split; [reflexivity|].
  destruct (harvest_loop_Ok c gr _ _ _ _ _ Hloop) as (new & -> & Hall & _).
  cbn [app]. symmetry. exact (Forall2_length _ _ _ Hall).
- destruct (for_each (get_tess_oers_body resolve_authors c gr) []
              (get_materials c) g) as [[rv|e] g']; [discriminate|].
  exact H.
Qed.

(** A line that is no diagnostic leaves the tallies alone. *)
Lemma tallies_agree_created g k n :
  tallies_agree g ->
  tallies_agree
    {| unknown_resource_type := unknown_resource_type g;
       unknown_difficulty := unknown_difficulty g;
       license_counter := license_counter g;
       written := (written g ++ [created_line k n])%list |}.
Proof.
intros Hg v. destruct (Hg v) as (Hrt & Hlic & Hkey).
cbn [unknown_resource_type license_counter].
split; [|split; [|exact Hkey]].
- rewrite times_written_snoc, decide_False by discriminate. lia.
- rewrite times_written_snoc, decide_False; [lia|].
  unfold created_line, missing_license_line. intros E. inversion E.
Qed.

Lemma get_tess_oers_keeps (P : globals -> Prop) :
  (forall a g, P g -> P (snd (_get_license a g))) ->
  (forall a g, P g -> P (snd (_get_resource_types a g))) ->
  (forall a g, P g -> P (snd (_get_difficulty_levels a g))) ->
  (forall g k n, P g -> P (snd (tqdm_write (created_line k n) g))) ->
  forall c include_description ror_grounder g,
    P g ->
    P (snd (get_tess_oers resolve_authors pyobo_ror_grounder c
              include_description ror_grounder g)).
Proof.
intros HL HR HD HW c b og g Hg. rewrite get_tess_oers_eq.
pose proof (harvest_loop_keeps P HL HR HD c
              (default pyobo_ror_grounder og) (get_materials c) [] g Hg) as H.
destruct (for_each _ _ _ g) as [[rv|e] g']; [|exact H].
exact (HW g' (key c) (length rv) H).
Qed.

Lemma get_tess_keeps (P : globals -> Prop) :
  (forall a g, P g -> P (snd (_get_license a g))) ->
  (forall a g, P g -> P (snd (_get_resource_types a g))) ->
  (forall a g, P g -> P (snd (_get_difficulty_levels a g))) ->
  (forall g k n, P g -> P (snd (tqdm_write (created_line k n) g))) ->
  forall INSTANCES include_description ror_grounder g,
    P g ->
    P (snd (get_tess resolve_authors pyobo_ror_grounder INSTANCES
              include_description ror_grounder g)).
Proof.
intros HL HR HD HW cs b og. unfold get_tess. cbv zeta.
generalize (@nil (EducationalResource Author Date)).
induction cs as [|c cs IH]; intros acc g Hg; [exact Hg|].
rewrite for_each_cons. unfold bind at 1.
pose proof (get_tess_oers_keeps P HL HR HD HW c b
              (Some pyobo_ror_grounder) g Hg) as H.
destruct (get_tess_oers _ _ c b _ g) as [[rv|e] g']; [|exact H].
unfold ret. now apply IH.
Qed.

(** X12.  A harvest keeps what holds of the module state between calls
    of the three functions, whether it returns or raises: after
    [get_tess_oers], and after [get_tess] over any instances, each
    diagnostic about an unknown value is still written once if the value
    is recorded and never otherwise, only unmapped values are recorded,
    and nothing recorded before is lost. *)
Theorem harvest_keeps_the_tallies c INSTANCES include_description
  ror_grounder g :
  tallies_agree g -> levels_agree g -> records_unmapped g ->
  let kept g' :=
    tallies_agree g' /\ levels_agree g' /\ records_unmapped g'
    /\ grows g g' in
  kept (snd (get_tess_oers resolve_authors pyobo_ror_grounder c
               include_description ror_grounder g))
  /\ kept (snd (get_tess resolve_authors pyobo_ror_grounder INSTANCES
                  include_description ror_grounder g)).
Proof.
intros Ht Hl Hr kept.
assert (Hkept : forall P : globals -> Prop,
           (forall a h, P h -> P (snd (_get_license a h))) ->
           (forall a h, P h -> P (snd (_get_resource_types a h))) ->
           (forall a h, P h -> P (snd (_get_difficulty_levels a h))) ->
           (forall h k n, P h -> P (snd (tqdm_write (created_line k n) h))) ->
           P g ->
           P (snd (get_tess_oers resolve_authors pyobo_ror_grounder c
                     include_description ror_grounder g))
           /\ P (snd (get_tess resolve_authors pyobo_ror_grounder INSTANCES
                        include_description ror_grounder g))).
{ intros P HL HR HD HW Hg. split.
  - now apply get_tess_oers_keeps.
  - now apply get_tess_keeps. }
destruct (Hkept tallies_agree) as [T1 T2]; try assumption.
{ apply tallies_agree_get_license. }
{ intros a h. apply tallies_agree_resource_types. }
{ apply tallies_agree_difficulty_levels. }
{ intros h k n. apply tallies_agree_created. }
destruct (Hkept levels_agree) as [L1 L2]; try assumption.
{ apply levels_agree_get_license. }
{ intros a h. apply levels_agree_resource_types. }
{ apply levels_agree_difficulty_levels. }
{ intros h k n Hh. apply (levels_agree_other h _ _ [_]); [|exact Hh].
  intros l d [<-|[]]. discriminate. }
destruct (Hkept records_unmapped) as [R1 R2]; try assumption.
{ apply records_unmapped_get_license. }
{ intros a h. apply records_unmapped_resource_types. }
{ apply records_unmapped_difficulty_levels. }
{ intros h k n Hh. exact Hh. }
destruct (Hkept (grows g)) as [G1 G2].
{ intros a h Hh. exact (grows_trans _ _ _ Hh (grows_get_license a h)). }
{ intros a h Hh. exact (grows_trans _ _ _ Hh (grows_resource_types _ [] h)). }
{ intros a h Hh. exact (grows_trans _ _ _ Hh (grows_difficulty_levels a h)). }
{ intros h k n (Hw & Hrest). split; [|exact Hrest].
  cbn [snd tqdm_write written]. etransitivity; [exact Hw|].
  now apply prefix_app_r. }
{ apply grows_refl. }
unfold kept. split.
- split; [exact T1|]. split; [exact L1|]. split; [exact R1|exact G1].
- split; [exact T2|]. split; [exact L2|]. split; [exact R2|exact G2].
Qed.

(** X13.  When [get_tess_oers] returns, [license_counter] has counted
    each record whose license is a text that was passed through, once
    and under that text: the count of a text has grown by the number of
    returned records that carry it. *)
Theorem harvest_counts_text_licenses c include_description ror_grounder g
  (rv : list (EducationalResource Author Date)) t :
  fst (get_tess_oers resolve_authors pyobo_ror_grounder c include_description
         ror_grounder g) = Ok rv ->
  counter_get
    (license_counter
       (snd (get_tess_oers resolve_authors pyobo_ror_grounder c
               include_description ror_grounder g))) t
  = counter_get (license_counter g) t
    + length (List.filter (licensed_as t) rv).
Proof.
rewrite get_tess_oers_eq.
destruct (for_each _ _ _ g) as [[rv'|e] g'] eqn:Hloop; [|discriminate].
destruct (harvest_loop_Ok _ _ _ _ _ _ _ Hloop) as (new & -> & _ & _ & Hcount).
cbn [app fst snd license_counter]. intros [= <-]. apply Hcount.
Qed.

Lemma get_tess_loop_Ok include_description cs acc g
  (rs : list (EducationalResource Author Date)) g' :
  for_each
    (fun resources c =>
       bind (get_tess_oers resolve_authors pyobo_ror_grounder c
               include_description (Some pyobo_ror_grounder))
         (fun oers => ret (resources ++ oers)%list))
    acc cs g = (Ok rs, g') ->
  exists new,
    rs = (acc ++ new)%list
    /\ Forall2 (fun cm r => made_from (fst cm) (snd cm) r)
         (flat_map (fun c => map (pair c) (get_materials c)) cs) new.
Proof.
revert acc g. induction cs as [|c cs IH]; intros acc g.
- intros [= <- <-]. exists []. rewrite app_nil_r. now split.
- rewrite for_each_cons. unfold bind at 1. rewrite get_tess_oers_eq.
  destruct (for_each (get_tess_oers_body _ _ _) _ _ g)
    as [[rv|e] g1] eqn:Hloop; [|discriminate].
  unfold ret at 1. intros Hrest.
  destruct (IH _ _ Hrest) as (new & -> & Hall).
  destruct (harvest_loop_Ok _ _ _ _ _ _ _ Hloop) as (rv' & -> & Hc & _).
  cbn [app] in *. exists (rv' ++ new)%list. rewrite app_assoc.
  split; [reflexivity|]. cbn [flat_map]. apply Forall2_app; [|exact Hall].
  clear -Hc. induction Hc; constructor; assumption.
Qed.

(** X14.  When [get_tess] returns, it returns the records of all the
    instances, instance after instance in the order of [INSTANCES]: one
    record per material of each instance, made with the key and the base
    address of that instance. *)
Theorem get_tess_concatenates INSTANCES include_description ror_grounder g
  (rs : list (EducationalResource Author Date)) :
  fst (get_tess resolve_authors pyobo_ror_grounder INSTANCES
         include_description ror_grounder g) = Ok rs ->
  Forall2 (fun cm r => made_from (fst cm) (snd cm) r)
    (flat_map (fun c => map (pair c) (get_materials c)) INSTANCES) rs.
Proof.
unfold get_tess. cbv zeta. intros H.
destruct (for_each _ [] INSTANCES g) as [[rs'|e] g'] eqn:Hloop;
  [|discriminate].
cbn [fst] in H. injection H as ->.
destruct (get_tess_loop_Ok _ _ _ _ _ _ Hloop) as (new & -> & Hall).
exact Hall.
Qed.

End HarvestFacts.

Section HarvestWitnesses.
Import PyStr Tess Vocabulary Invariants Harvest.

Lemma harvest_one_record_per_material_witness :
  let resolve (raw : list string) (_ : unit) := Ok raw in
  let m1 :=
    Material "/materials/1"
      (Attributes (Some "MIT") (Some ["Video"]) (Some "Beginner"))
      (Some "10.5281/zenodo.1") (Some " Title 1 ") (Some "Text 1")
      (Some ["fair "]) (Some "2024-01-01") (Some ["A. Author"]) in
  let m2 :=
    Material "/materials/2" (Attributes (Some "Custom") None None)
      None (Some "Title 2") (Some "Text 2") None None None in
  let c := Client "tess" "https://tess.elixir-europe.org" [m1; m2] in
  exists rv,
    fst (get_tess_oers resolve tt c true None initial) = Ok rv
    /\ Forall2 (made_from c) [m1; m2] rv.
Proof.
intros resolve m1 m2 c. eexists. split; [vm_compute; reflexivity|].
refine (proj1 (harvest_one_record_per_material string string unit string
                 resolve tt c true None initial _ _)).
vm_compute. reflexivity.
Defined.

Lemma harvest_all_or_nothing_witness :
  let resolve (raw : list string) (_ : unit) := Ok raw in
  let m1 :=
    Material (Date := string) "/materials/1"
      (Attributes (Some "MIT") None None)
      None (Some "Title 1") (Some "Text 1") None None None in
  let m2 :=
    Material (Date := string) "/materials/2" (Attributes None None None)
      None (Some "Title 2") (Some "Text 2") None None None in
  (exists rv,
      fst (get_tess_oers resolve tt (Client "tess" "https://tess" [m1; m1])
             true None initial) = Ok rv
      /\ length rv = 2)
  /\ fst (get_tess_oers resolve tt (Client "tess" "https://tess" [m1; m2])
            true None initial) = Raise AttributeError.
Proof.
intros resolve m1 m2. split.
- apply (harvest_all_or_nothing string string unit string resolve tt
           (Client "tess" "https://tess" [m1; m1]) true None initial).
  intros m _. now eexists.
- apply (harvest_all_or_nothing string string unit string resolve tt
           (Client "tess" "https://tess" [m1; m2]) true None initial).
  intros m _. now eexists.
Defined.

Lemma harvest_keeps_the_tallies_witness :
  let resolve (raw : list string) (_ : unit) := Ok raw in
  let m :=
    Material (Date := string) "/materials/1"
      (Attributes (Some "Custom") (Some ["Quiz"; "quiz"]) (Some "Expert"))
      None (Some "Title") (Some "Text") None None None in
  let c := Client "tess" "https://tess" [m; m] in
  let g' := snd (get_tess_oers resolve tt c true None initial) in
  tallies_agree g' /\ levels_agree g' /\ records_unmapped g'
  /\ grows initial g'.
Proof.
intros resolve m c g'.
exact (proj1 (harvest_keeps_the_tallies string string unit string resolve tt
                c [] true None initial tallies_agree_initial
                levels_agree_initial records_unmapped_initial)).
Defined.

Lemma harvest_counts_text_licenses_witness :
  let resolve (raw : list string) (_ : unit) := Ok raw in
  let m1 :=
    Material (Date := string) "/materials/1"
      (Attributes (Some " Custom") None None)
      None (Some "Title 1") (Some "Text 1") None None None in
  let m2 :=
    Material (Date := string) "/materials/2"
      (Attributes (Some "MIT") None None)
      None (Some "Title 2") (Some "Text 2") None None None in
  let c := Client "tess" "https://tess" [m1; m2; m1] in
  counter_get
    (license_counter (snd (get_tess_oers resolve tt c true None initial)))
    "custom" = 2.
Proof.
intros resolve m1 m2 c.
assert (H : exists rv,
           fst (get_tess_oers resolve tt c true None initial) = Ok rv
           /\ length (List.filter (licensed_as "custom") rv) = 2)
  by (eexists; split; vm_compute; reflexivity).
destruct H as (rv & H1 & H2).
rewrite (harvest_counts_text_licenses string string unit string resolve tt
           c true None initial rv "custom" H1), H2.
reflexivity.
Defined.

Lemma get_tess_concatenates_witness :
  let resolve (raw : list string) (_ : unit) := Ok raw in
  let m k :=
    Material (Date := string) k (Attributes (Some "MIT") None None)
      None (Some "Title") (Some "Text") None None None in
  let c1 := Client "tess" "https://tess" [m "/materials/1"; m "/materials/2"] in
  let c2 := Client "taxila" "https://taxila" [m "/materials/3"] in
  exists rs,
    fst (get_tess resolve tt [c1; c2] true None initial) = Ok rs
    /\ Forall2 (fun cm r => made_from (fst cm) (snd cm) r)
         [(c1, m "/materials/1"); (c1, m "/materials/2");
          (c2, m "/materials/3")] rs.
Proof.
intros resolve m c1 c2. eexists. split; [vm_compute; reflexivity|].
apply (get_tess_concatenates string string unit string resolve tt
         [c1; c2] true None initial).
vm_compute. reflexivity.
Defined.

End HarvestWitnesses.

(** ** From the rows of a sheet to resources *)

Section ConvertFacts.
Import PyStr Py Dalia Convert.

Variable EN : string.
Variables Value Row : Type.
Variable parse_dif13_row :
  string -> nat -> Row
  -> result (option (EducationalResourceDIF13 Value)).

Lemma comprehension_Ok {A B} (f : A -> result B) xs ys :
  comprehension f xs = Ok ys <-> Forall2 (fun x y => f x = Ok y) xs ys.
Proof.
revert ys. induction xs as [|x xs IH]; intros ys; cbn [comprehension].
- split; [intros [= <-]; constructor | intros H; now inversion H].
- destruct (f x) as [y|e] eqn:Hx.
  + destruct (comprehension f xs) as [ys'|e].
    * split.
      -- intros [= <-]. constructor; [exact Hx | now apply IH].
      -- intros H. inversion H as [|? y' ? ys'' Hy Hrest]; subst.
         apply IH in Hrest. congruence.
    * split; [discriminate|].
      intros H. inversion H as [|? y' ? ys'' Hy Hrest]; subst.
      apply IH in Hrest. discriminate.
  + split; [discriminate|].
    intros H. inversion H; subst. congruence.
Qed.

(** The authors of a record are converted, or one of them is of another
    class and [TypeError] is raised. *)
Lemma process_authors_outcome (es : list author_dif13) :
  match comprehension _process_author es with
  | Ok authors_ =>
      ~ In other_object es
      /\ Forall2 (fun e a => _process_author e = Ok a) es authors_
  | Raise x => x = TypeError /\ In other_object es
  end.
Proof.
induction es as [|e es IH]; cbn [comprehension].
- split; [intros [] | constructor].
- destruct e as [name orcid|name ror wikidata|]; cbn [_process_author].
  + destruct (comprehension _process_author es) as [authors_|x].
    * destruct IH as [Hno Hall]. split.
      -- intros [H|H]; [discriminate | contradiction].
      -- now constructor.
    * destruct IH as [-> Hin]. split; [reflexivity | now right].
  + destruct (comprehension _process_author es) as [authors_|x].
    * destruct IH as [Hno Hall]. split.
      -- intros [H|H]; [discriminate | contradiction].
      -- now constructor.
    * destruct IH as [-> Hin]. split; [reflexivity | now right].
  + split; [reflexivity | now left].
Qed.

(** X15.  [_convert] never returns [None].  It raises [TypeError] exactly
    when one of the authors is neither an [AuthorDIF13] nor an
    [OrganizationDIF13], whatever the file size is; with authors of these
    two classes it raises what [_process_size] raises on the file size;
    and otherwise it returns a resource whose authors are the converted
    authors, one for one and in the same order, whose file size is the
    result of [_process_size], and whose identifier, links, title,
    description and keywords are those of the record. *)
Theorem convert_outcome (e : EducationalResourceDIF13 Value) :
  match _convert EN e with
  | Raise x =>
      (x = TypeError /\ In other_object (dif_authors e))
      \/ (~ In other_object (dif_authors e)
          /\ _process_size (dif_file_size e) = Raise x)
  | Ok None => False
  | Ok (Some r) =>
      ~ In other_object (dif_authors e)
      /\ Forall2 (fun a b => _process_author a = Ok b)
           (dif_authors e) (authors r)
      /\ _process_size (dif_file_size e) = Ok (file_size r)
      /\ reference r = ("dalia.oer", uuid e)
      /\ external_uri r = links e
      /\ title r = {[ EN := dif_title e ]}
      /\ description r = {[ EN := dif_description e ]}
      /\ keywords r = map (fun k => {[ EN := k ]}) (dif_keywords e)
  end.
Proof.
unfold _convert.
pose proof (process_authors_outcome (dif_authors e)) as Ha.
destruct (comprehension _process_author (dif_authors e)) as [authors_|x].
- destruct Ha as [Hno Hall].
  destruct (_process_size (dif_file_size e)) as [size|x] eqn:Hsize.
  + cbn. repeat (split; [first [exact Hno | exact Hall | reflexivity]|]).
    reflexivity.
  + right. now split.
- left. exact Ha.
Qed.

(** The comprehension of [parse], from the row numbered [n] on. *)
Lemma parse_loop_outcome {Resource}
  (f : nat -> Row -> result (option Resource)) n rows :
  match collect (fun ir => f (fst ir) (snd ir)) (enumerate n rows) with
  | Ok out =>
      (forall i row, rows !! i = Some row -> exists y, f (i + n) row = Ok y)
      /\ out = omap (fun ir => match f (fst ir) (snd ir) with
                               | Ok y => y
                               | Raise _ => None
                               end) (enumerate n rows)
  | Raise x =>
      exists i row,
        rows !! i = Some row /\ f (i + n) row = Raise x
        /\ forall j row', j < i -> rows !! j = Some row' ->
                          exists y, f (j + n) row' = Ok y
  end.
Proof.
revert n. induction rows as [|row rows IH]; intros n.
- cbn. split; [intros i row H; discriminate | reflexivity].
- cbn [enumerate collect fst snd]. specialize (IH (S n)).
  destruct (f n row) as [y|x] eqn:Hrow.
  + destruct (collect _ (enumerate (S n) rows)) as [out|x].
    * destruct IH as [Hall Hout]. split.
      -- intros [|i] row' H.
         ++ injection H as <-. now exists y.
         ++ rewrite Nat.add_succ_comm. now apply Hall.
      -- cbn [omap list_omap fst snd]. rewrite Hrow.
         destruct y; now rewrite Hout.
    * destruct IH as (i & row' & Hi & Hx & Hbefore).
      exists (S i), row'. split; [exact Hi|].
      split; [now rewrite Nat.add_succ_comm|].
      intros [|j] row'' Hlt Hj.
      -- injection Hj as <-. now exists y.
      -- rewrite Nat.add_succ_comm. apply Hbefore; [lia | exact Hj].
  + exists 0, row. split; [reflexivity|]. split; [exact Hrow|].
    intros j row' Hlt. lia.
Qed.

(** X16.  [parse] gives the rows their line numbers, two for the first
    row.  When it returns, no row has raised and the result holds, in the
    order of the rows, the resources of the rows that gave one, the rows
    that gave [None] being left out; when it raises, it raises what the
    first row that raises has raised, and the rows before that one are
    lost with it. *)
Theorem parse_outcome {Resource}
  (f : nat -> Row -> result (option Resource)) rows :
  match Dalia.parse f rows with
  | Ok out =>
      (forall i row, rows !! i = Some row -> exists y, f (i + 2) row = Ok y)
      /\ out = omap (fun ir => match f (fst ir) (snd ir) with
                               | Ok y => y
                               | Raise _ => None
                               end) (enumerate 2 rows)
  | Raise x =>
      exists i row,
        rows !! i = Some row /\ f (i + 2) row = Raise x
        /\ forall j row', j < i -> rows !! j = Some row' ->
                          exists y, f (j + 2) row' = Ok y
  end.
Proof. exact (parse_loop_outcome f 2 rows). Qed.

(** The first row that raises decides. *)
Lemma parse_raises_at {Resource}
  (f : nat -> Row -> result (option Resource)) rows i row x :
  rows !! i = Some row ->
  f (i + 2) row = Raise x ->
  (forall j row', j < i -> rows !! j = Some row' ->
                  exists y, f (j + 2) row' = Ok y) ->
  Dalia.parse f rows = Raise x.
Proof.
intros Hi Hx Hbefore. pose proof (parse_loop_outcome f 2 rows) as H.
unfold Dalia.parse.
destruct (collect _ (enumerate 2 rows)) as [out|x'].
- destruct H as [Hall _]. destruct (Hall i row Hi) as [y Hy]. congruence.
- destruct H as (i' & row' & Hi' & Hx' & Hbefore').
  destruct (Nat.lt_trichotomy i i') as [Hlt|[->|Hlt]].
  + destruct (Hbefore' i row Hlt Hi) as [y Hy]. congruence.
  + congruence.
  + destruct (Hbefore i' row' Hlt Hi') as [y Hy]. congruence.
Qed.

(** X17.  One file size that is not in MB aborts the parsing.  When the
    rows before it do not raise, a row for which [parse_dif13_row] gives
    a record with authors of the two known classes and a file size that
    does not end in [" MB"] makes [_omni_process_row] raise [ValueError],
    [parse] raise [ValueError] for the whole sheet, and [get_dalia] raise
    [ValueError] when that sheet is the first one. *)
Theorem bad_file_size_aborts_parse path_name rows i row
  (e : EducationalResourceDIF13 Value) x files :
  rows !! i = Some row ->
  (forall j row', j < i -> rows !! j = Some row' ->
      exists y, _omni_process_row EN parse_dif13_row path_name (j + 2) row'
                = Ok y) ->
  parse_dif13_row path_name (i + 2) row = Ok (Some e) ->
  ~ In other_object (dif_authors e) ->
  dif_file_size e = Some x ->
  endswith x " MB" = false ->
  _omni_process_row EN parse_dif13_row path_name (i + 2) row
  = Raise ValueError
  /\ parse EN parse_dif13_row path_name rows = Raise ValueError
  /\ get_dalia EN parse_dif13_row ((path_name, rows) :: files)
     = Raise ValueError.
Proof.
intros Hi Hbefore Hrow Hauthors Hsize Hsuffix.
assert (Hraise : _omni_process_row EN parse_dif13_row path_name (i + 2) row
                 = Raise ValueError).
{ unfold _omni_process_row. rewrite Hrow. unfold _convert.
  pose proof (process_authors_outcome (dif_authors e)) as Ha.
  destruct (comprehension _process_author (dif_authors e)) as [authors_|y].
  - rewrite Hsize. unfold _process_size. now rewrite Hsuffix.
  - destruct Ha as [_ Hin]. contradiction. }
assert (Hparse : parse EN parse_dif13_row path_name rows = Raise ValueError).
{ unfold parse. now apply (parse_raises_at _ rows i row). }
split; [exact Hraise|]. split; [exact Hparse|].
cbn [get_dalia]. now rewrite Hparse.
Qed.

End ConvertFacts.

Section ConvertWitnesses.
Import PyStr Py Dalia Convert.

Lemma bad_file_size_aborts_parse_witness :
  let record size :=
    {| uuid := "0000";
       links := ["https://example.org"];
       dif_title := "Title";
       dif_description := Some "Text";
       dif_keywords := [];
       dif_authors := [AuthorDIF13 "A. Author" None];
       proficiency_levels := tt; dif_languages := tt; dif_license := tt;
       dif_file_formats := tt; publication_date := tt; dif_version := tt;
       target_groups := tt;
       dif_file_size := Some size;
       learning_resource_types := tt; dif_media_types := tt;
       dif_disciplines := tt |} in
  let parse_dif13_row (_ : string) (_ : nat) (row : string) :=
    Ok (Some (record row)) in
  parse "en" parse_dif13_row "sheet.tsv" ["1.5 MB"; "2 GB"; "3 MB"]
  = Raise ValueError.
Proof.
intros record parse_dif13_row.
refine (proj1 (proj2 (bad_file_size_aborts_parse "en" unit string
                        parse_dif13_row "sheet.tsv"
                        ["1.5 MB"; "2 GB"; "3 MB"] 1 "2 GB" (record "2 GB")
                        "2 GB" [] eq_refl _ eq_refl _ eq_refl eq_refl))).
- intros [|j] row' Hlt Hj; [|lia]. injection Hj as <-.
  eexists. vm_compute. reflexivity.
- intros [H|[]]. discriminate.
Defined.

End ConvertWitnesses.

(** ** Records without a description *)

Section SkippedRows.
Import PyStr Py Dalia Convert.

Variable EN : string.
Variable get_discipline_label : URIRef -> string.
Variables Value Row : Type.
Variable parse_dif13_row :
  string -> nat -> Row
  -> result (option (EducationalResourceDIF13 Value)).







End SkippedRows.

Section SkippedRowsWitnesses.
Import PyStr Py Dalia Convert.


End SkippedRowsWitnesses.

(** ** The ORCID pattern *)

Section OrcidPattern.
Import PyStr Regex Dalia Orcid.

Lemma run_digit {A} st (k : mstate -> option A) :
  run digit st k = one PyFloat.isdigit st k.
Proof.
unfold digit. cbn [run]. unfold one.
destruct (rest st) as [|c t]; [reflexivity|].
destruct c as [[] [] [] [] [] [] [] []]; cbn; try reflexivity;
  destruct (k _); reflexivity.
Qed.

Lemma one_Some {A} ok st (k : mstate -> option A) m :
  one ok st k = Some m
  <-> exists c t, rest st = String c t /\ ok c = true
                  /\ k (advance st t) = Some m.
Proof.
split; [apply one_sound|].
intros (c & t & Hrest & Hc & H). unfold one. now rewrite Hrest, Hc.
Qed.

Lemma run_digits {A} n tail st (k : mstate -> option A) m :
  run (repeat_then n digit tail) st k = Some m
  <-> exists a t,
        digits n a /\ rest st = a +:+ t
        /\ run tail {| pos := pos st + n; rest := t; groups := groups st |}
             k = Some m.
Proof.
revert st. induction n as [|n IH]; intros st.
- cbn [repeat_then]. rewrite Nat.add_0_r. split.
  + intros H. exists EmptyString, (rest st).
    split; [now split|]. split; [reflexivity|]. now destruct st.
  + intros (a & t & [Hlen _] & Hrest & H).
    destruct a; [|discriminate].
    change (EmptyString +:+ t) with t in Hrest. subst t. now destruct st.
- cbn [repeat_then run]. rewrite run_digit, one_Some. split.
  + intros (c & t & Hrest & Hc & H).
    apply IH in H as (a & t' & [Hlen Hall] & Hrest' & H).
    cbn [advance pos rest groups] in *.
    exists (String c a), t'. split.
    * split; [cbn; now rewrite Hlen | cbn; now rewrite Hc, Hall].
    * split; [now rewrite Hrest, Hrest'|].
      replace (pos st + S n) with (S (pos st) + n) by lia. exact H.
  + intros (a & t & [Hlen Hall] & Hrest & H).
    destruct a as [|c a]; [discriminate|].
    cbn in Hlen, Hall. apply andb_prop in Hall as [Hc Hall].
    exists c, (a +:+ t). split; [exact Hrest|]. split; [exact Hc|].
    apply IH. exists a, t. cbn [advance pos rest groups].
    split; [split; [lia | exact Hall]|]. split; [reflexivity|].
    replace (S (pos st) + n) with (pos st + S n) by lia. exact H.
Qed.

Lemma run_hyphen {A} r st (k : mstate -> option A) m :
  run (Seq (Lit "-") r) st k = Some m
  <-> exists t, rest st = String "-" t /\ run r (advance st t) k = Some m.
Proof.
cbn [run]. rewrite one_Some. split.
- intros (c & t & Hrest & Hc & H). apply Ascii.eqb_eq in Hc as <-.
  now exists t.
- intros (t & Hrest & H). exists "-"%char, t. now split.
Qed.

Lemma consumed_cons c t : consumed (String c t) t = String c EmptyString.
Proof. exact (consumed_app (String c EmptyString) t). Qed.

Lemma or_else_None_r {A} (x : option A) : or_else x None = x.
Proof. now destruct x. Qed.

Lemma or_else_diag {A} (x : option A) : or_else x x = x.
Proof. now destruct x. Qed.

Lemma run_check {A} st (k : mstate -> option A) m :
  run (Seq (Group "1" (Alt digit (Lit "X"))) Eol) st k = Some m
  <-> exists c t,
        rest st = String c t
        /\ (PyFloat.isdigit c = true \/ c = "X"%char)
        /\ at_end t = true
        /\ k (set_group "1" (String c EmptyString) (advance st t)) = Some m.
Proof.
cbn [run]. rewrite run_digit. unfold one.
destruct (rest st) as [|c t].
- split; [discriminate|]. intros [c' [t' [H _]]]. discriminate H.
- cbn [advance rest set_group]. rewrite consumed_cons.
  destruct (PyFloat.isdigit c) eqn:Hd;
    destruct (Ascii.eqb_spec "X"%char c) as [Hx|Hx];
    destruct (at_end t) eqn:He; cbn [or_else];
    rewrite ?or_else_diag, ?or_else_None_r.
  all: split.
  all: try discriminate.
  all: try (intros H; exists c, t; split; [reflexivity|];
            split; [first [left; assumption | right; now symmetry]|];
            split; [assumption|exact H]).
  all: intros (c' & t' & Heq & Hc & He' & H); injection Heq as <- <-;
    try congruence.
  all: destruct Hc as [Hc|Hc]; congruence.
Qed.

(** X18.  [ORCID_RE] accepts a subject exactly when it is made of three
    blocks of four digits and one block of three digits, with hyphens
    between them, then a digit or the capital letter X, and nothing after
    it but possibly one line feed; the group 1 is then that last
    character. *)
Theorem orcid_pattern s m :
  re_match ORCID_RE s = Some m
  <-> exists check,
        shaped s check /\ m = [("1", String check EmptyString)].
Proof.
unfold re_match, ORCID_RE. cbn [run pos Nat.eqb].
rewrite run_digits. split.
- intros (a & t1 & Ha & Hs & H). cbn [rest pos groups] in Hs, H.
  apply run_hyphen in H as (t2 & Ht1 & H).
  cbn [advance rest pos groups] in Ht1, H. subst t1.
  apply run_digits in H as (b & t3 & Hb & Ht2 & H).
  cbn [advance rest pos groups] in Ht2, H. subst t2.
  apply run_hyphen in H as (t4 & Ht3 & H).
  cbn [advance rest pos groups] in Ht3, H. subst t3.
  apply run_digits in H as (c & t5 & Hc & Ht4 & H).
  cbn [advance rest pos groups] in Ht4, H. subst t4.
  apply run_hyphen in H as (t6 & Ht5 & H).
  cbn [advance rest pos groups] in Ht5, H. subst t5.
  apply run_digits in H as (d & t7 & Hd & Ht6 & H).
  cbn [advance rest pos groups] in Ht6, H. subst t6.
  apply run_check in H as (x & tail & Ht7 & Hx & Hend & H).
  cbn [rest set_group advance groups] in Ht7, H. subst t7.
  injection H as <-. exists x. split; [|reflexivity].
  exists a, b, c, d, tail. apply at_end_inv in Hend.
  repeat (split; [assumption|]). exact Hs.
- intros (x & (a & b & c & d & tail & Ha & Hb & Hc & Hd & Hx & Hend & ->)
          & ->).
  exists a, ("-" +:+ b +:+ "-" +:+ c +:+ "-" +:+ d +:+ String x tail).
  split; [exact Ha|]. split; [reflexivity|]. cbn [pos groups].
  apply run_hyphen. eexists. split; [reflexivity|].
  cbn [advance rest pos groups]. apply run_digits.
  exists b, ("-" +:+ c +:+ "-" +:+ d +:+ String x tail).
  split; [exact Hb|]. split; [reflexivity|]. cbn [pos groups].
  apply run_hyphen. eexists. split; [reflexivity|].
  cbn [advance rest pos groups]. apply run_digits.
  exists c, ("-" +:+ d +:+ String x tail).
  split; [exact Hc|]. split; [reflexivity|]. cbn [pos groups].
  apply run_hyphen. eexists. split; [reflexivity|].
  cbn [advance rest pos groups]. apply run_digits.
  exists d, (String x tail).
  split; [exact Hd|]. split; [reflexivity|]. cbn [pos groups].
  apply run_check. exists x, tail. cbn [rest].
  split; [reflexivity|]. split; [exact Hx|].
  split; [|reflexivity]. destruct Hend as [-> | ->]; reflexivity.
Qed.

End OrcidPattern.

(** ** What [export_tess] gives *)

Section ExportFacts.
Import ExportTess.

Variable EN : string.
Variable get_discipline_label : URIRef -> string.



End ExportFacts.

(** ** The errors of [_process_size] *)

Section ProcessSizeErrors.
Import PyStr Dalia.

(** [float] raises nothing but [ValueError]. *)
Lemma float_raises text e : PyFloat.float text = Raise e -> e = ValueError.
Proof.
unfold PyFloat.float.
repeat case_match; intros Hraise; first [discriminate Hraise | congruence].
Qed.

Lemma int_raises x e :
  PyFloat.int x = Raise e ->
  (e = OverflowError /\ exists s, x = S754_infinity s)
  \/ (e = ValueError /\ x = S754_nan).
Proof.
destruct x as [s|s| |s m ex]; cbn [PyFloat.int]; intros H;
  try discriminate; injection H as <-; [left|right]; eauto.
Qed.

(** X20.  [_process_size] gives [None] for [None] only, and on a text it
    raises nothing but [ValueError] and [OverflowError].  It raises
    [OverflowError] exactly when the text ends in [" MB"], [float] accepts
    what is before it and the product with 1_000_000 is infinite, as it is
    for ["inf MB"] and for a number too large such as ["1e308 MB"].  It
    raises [ValueError] exactly when the text does not end in [" MB"], or
    [float] rejects what is before it, or the product is a NaN, as for
    ["nan MB"].  It returns a number exactly when the text ends in
    [" MB"], [float] accepts what is before it and [int] accepts the
    product, and the number is then what [int] gives. *)
Theorem process_size_errors x :
  _process_size None = Ok None
  /\ _process_size (Some x) <> Ok None
  /\ (forall e, _process_size (Some x) = Raise e ->
                e = ValueError \/ e = OverflowError)
  /\ (_process_size (Some x) = Raise OverflowError
      <-> endswith x " MB" = true
          /\ exists f s,
               PyFloat.float (removesuffix x " MB") = Ok f
               /\ PyFloat.mul f (PyFloat.of_int 1000000) = S754_infinity s)
  /\ (_process_size (Some x) = Raise ValueError
      <-> endswith x " MB" = false
          \/ PyFloat.float (removesuffix x " MB") = Raise ValueError
          \/ exists f,
               PyFloat.float (removesuffix x " MB") = Ok f
               /\ PyFloat.mul f (PyFloat.of_int 1000000) = S754_nan)
  /\ (forall n,
         _process_size (Some x) = Ok (Some n)
         <-> endswith x " MB" = true
             /\ exists f,
                  PyFloat.float (removesuffix x " MB") = Ok f
                  /\ PyFloat.int (PyFloat.mul f (PyFloat.of_int 1000000))
                     = Ok n)
  /\ _process_size (Some "inf MB") = Raise OverflowError
  /\ _process_size (Some "1e308 MB") = Raise OverflowError
  /\ _process_size (Some "nan MB") = Raise ValueError.
Proof.
split; [reflexivity|].
assert (Hexamples :
          _process_size (Some "inf MB") = Raise OverflowError
          /\ _process_size (Some "1e308 MB") = Raise OverflowError
          /\ _process_size (Some "nan MB") = Raise ValueError).
{ split; [|split]; vm_compute; reflexivity. }
revert Hexamples.
generalize (_process_size (Some "inf MB")) (_process_size (Some "1e308 MB"))
  (_process_size (Some "nan MB")).
intros r1 r2 r3 Hexamples.
unfold _process_size.
destruct (endswith x " MB") eqn:Hend; cbn [negb].
- destruct (PyFloat.float (removesuffix x " MB")) as [f|e] eqn:Hf.
  + destruct (PyFloat.int (PyFloat.mul f (PyFloat.of_int 1000000)))
      as [n|e] eqn:Hn.
    * split; [discriminate|]. split; [discriminate|].
      split; [|split; [|split; [|exact Hexamples]]].
      -- split; [discriminate|]. intros (_ & f' & s & [= <-] & Hs).
         rewrite Hs in Hn. discriminate.
      -- split; [discriminate|].
         intros [H|[H|(f' & [= <-] & Hs)]]; [discriminate..|].
         rewrite Hs in Hn. discriminate.
      -- intros n'. split.
         ++ intros [= <-]. split; [reflexivity|]. now exists f.
         ++ intros (_ & f' & [= <-] & Hn'). congruence.
    * split; [discriminate|].
      apply int_raises in Hn as Hcase.
      destruct Hcase as [[-> [s Hs]]|[-> Hs]].
      -- split; [intros e [= <-]; now right|].
         split; [|split; [|split; [|exact Hexamples]]].
         ++ split; [intros _|reflexivity]. split; [reflexivity|].
            now exists f, s.
         ++ split; [discriminate|].
            intros [H|[H|(f' & [= <-] & Hs')]]; [discriminate..|].
            congruence.
         ++ intros n'. split; [discriminate|].
            intros (_ & f' & [= <-] & Hn'). congruence.
      -- split; [intros e [= <-]; now left|].
         split; [|split; [|split; [|exact Hexamples]]].
         ++ split; [discriminate|]. intros (_ & f' & s & [= <-] & Hs').
            congruence.
         ++ split; [intros _|reflexivity]. right. right. now exists f.
         ++ intros n'. split; [discriminate|].
            intros (_ & f' & [= <-] & Hn'). congruence.
  + apply float_raises in Hf as Hv. subst e.
    split; [discriminate|]. split; [intros e [= <-]; now left|].
    split; [|split; [|split; [|exact Hexamples]]].
    * split; [discriminate|]. intros (_ & f' & s & H & _). discriminate.
    * split; [intros _|reflexivity]. right. now left.
    * intros n'. split; [discriminate|].
      intros (_ & f' & H & _). discriminate.
- split; [discriminate|]. split; [intros e [= <-]; now left|].
  split; [|split; [|split; [|exact Hexamples]]].
  + split; [discriminate|]. intros [H _]. discriminate.
  + split; [intros _|reflexivity]. now left.
  + intros n'. split; [discriminate|]. intros [H _]. discriminate.
Qed.

End ProcessSizeErrors.

(** ** The records of OERSI *)

Section OersiFacts.
Import Oersi.

Variable Value : Type.
Variable alpha3 : string -> option string.

Implicit Types (r : oersi_record Value).

Lemma ids_outcome (l : list object) :
  match comprehension get_id l with
  | Returns xs =>
      forallb has_id l = true
      /\ Forall2 (fun a x => a !! "id" = Some x) l xs
  | Raises e => e = KeyError "id" /\ forallb has_id l = false
  end.
Proof.
induction l as [|a l IH]; cbn [comprehension forallb].
- now split.
- change (get_id a) with (match a !! "id" with
                           | Some x => Returns x
                           | None => Raises (KeyError "id")
                           end).
  destruct (a !! "id") as [x|] eqn:Ha.
  + replace (has_id a) with true by (unfold has_id; now rewrite Ha).
    destruct (comprehension get_id l) as [xs|e]; cbv beta iota in IH.
    * destruct IH as [Hall Hids]. cbn [andb]. split; [exact Hall|].
      now constructor.
    * cbn [andb]. exact IH.
  + replace (has_id a) with false by (unfold has_id; now rewrite Ha).
    now split.
Qed.

Lemma languages_outcome (l : list string) :
  match comprehension (language_alpha3 alpha3) l with
  | Returns codes =>
      forallb (known alpha3) l = true
      /\ Forall2 (fun language code => alpha3 language = Some code) l codes
  | Raises e =>
      forallb (known alpha3) l = false
      /\ exists language,
           e = KeyError language /\ In language l
           /\ alpha3 language = None
  end.
Proof.
induction l as [|x l IH]; cbn [comprehension forallb].
- now split.
- change (language_alpha3 alpha3 x)
    with (match alpha3 x with
          | Some code => Returns code
          | None => Raises (KeyError x)
          end).
  destruct (alpha3 x) as [code|] eqn:Hx.
  + replace (known alpha3 x) with true by (unfold known; now rewrite Hx).
    destruct (comprehension _ l) as [codes|e]; cbv beta iota in IH.
    * destruct IH as [Hall Hcodes]. cbn [andb]. split; [exact Hall|].
      now constructor.
    * destruct IH as [Hall (language & -> & Hin & Hnone)]. cbn [andb].
      split; [exact Hall|]. exists language. split; [reflexivity|].
      split; [now right | exact Hnone].
  + replace (known alpha3 x) with false by (unfold known; now rewrite Hx).
    split; [reflexivity|]. exists x. split; [reflexivity|].
    split; [now left | exact Hx].
Qed.

Ltac unfold_process :=
  unfold _process; cbv zeta;
  cbn [context conditionsOfAccess audience about description inLanguage
         learningResourceType datePublished license name id others
         pop_context pop_conditionsOfAccess pop_audience pop_about
         pop_description pop_inLanguage pop_learningResourceType
         pop_datePublished pop_license pop_name pop_id].

(** [_process] returns on the complete records, and on them only. *)
Lemma _process_complete r :
  match fst (_process alpha3 r) with
  | Returns _ => complete alpha3 r = true
  | Raises _ => complete alpha3 r = false
  end.
Proof.
unfold complete. unfold_process.
pose proof (ids_outcome (default [] (audience r))) as Ha.
destruct (comprehension get_id (default [] (audience r))) as [audiences|e];
  cbv beta iota in Ha.
2:{ destruct Ha as [_ ->]. reflexivity. }
destruct Ha as [-> _]. cbn [andb].
pose proof (ids_outcome (default [] (about r))) as Hb.
destruct (comprehension get_id (default [] (about r))) as [disciplines|e];
  cbv beta iota in Hb.
2:{ destruct Hb as [_ ->]. reflexivity. }
destruct Hb as [-> _]. cbn [andb].
pose proof (languages_outcome (default [] (inLanguage r))) as Hl.
destruct (comprehension (language_alpha3 alpha3) (default [] (inLanguage r)))
  as [languages|e]; cbv beta iota in Hl.
2:{ destruct Hl as [-> _]. reflexivity. }
destruct Hl as [-> _]. cbn [andb].
pose proof (ids_outcome (default [] (learningResourceType r))) as Ht.
destruct (comprehension get_id (default [] (learningResourceType r)))
  as [resource_types|e]; cbv beta iota in Ht.
2:{ destruct Ht as [_ ->]. reflexivity. }
destruct Ht as [-> _]. cbn [andb].
destruct (license r) as [o|].
- unfold get_id, has_id. destruct (o !! "id"); [|reflexivity].
  destruct (name r); [|reflexivity]. destruct (id r); reflexivity.
- destruct (name r); [|reflexivity]. destruct (id r); reflexivity.
Qed.

(** X21.  [_process] returns exactly on a complete record: one whose
    entries of ["audience"], ["about"] and ["learningResourceType"] all
    have an ["id"], whose ["license"], if any, has one, whose languages
    are all keys of the table, and which has a ["name"] and an ["id"].
    The resource then has the platform ["oersi"], the name as English
    title, the identifiers and the language codes in the order of the
    entries, and a description unless the record has none or an empty
    one.  On any other record the call raises [KeyError], for the key
    ["id"], for ["name"], or for a language that is not in the table. *)
Theorem process_outcome r :
  match fst (_process alpha3 r) with
  | Returns res =>
      complete alpha3 r = true
      /\ oer_platform res = "oersi"
      /\ (exists text, name r = Some text
                       /\ oer_title res = {[ "en" := text ]})
      /\ id r = Some (oer_external_uri res)
      /\ Forall2 (fun a x => a !! "id" = Some x)
           (default [] (audience r)) (oer_audience res)
      /\ Forall2 (fun a x => a !! "id" = Some x)
           (default [] (about r)) (oer_disciplines res)
      /\ Forall2 (fun a x => a !! "id" = Some x)
           (default [] (learningResourceType r)) (oer_resource_types res)
      /\ Forall2 (fun language code => alpha3 language = Some code)
           (default [] (inLanguage r)) (oer_languages res)
      /\ (oer_description res = None
          <-> description r = None \/ description r = Some EmptyString)
      /\ oer_date_published res = datePublished r
  | Raises (KeyError key) =>
      complete alpha3 r = false
      /\ (key = "id" \/ key = "name"
          \/ (In key (default [] (inLanguage r)) /\ alpha3 key = None))
  end.
Proof.
unfold complete. unfold_process.
pose proof (ids_outcome (default [] (audience r))) as Ha.
destruct (comprehension get_id (default [] (audience r))) as [audiences|e];
  cbv beta iota in Ha.
2:{ destruct Ha as [-> ->]. cbn [fst andb]. auto. }
destruct Ha as [-> Haud]. cbn [andb].
pose proof (ids_outcome (default [] (about r))) as Hb.
destruct (comprehension get_id (default [] (about r))) as [disciplines|e];
  cbv beta iota in Hb.
2:{ destruct Hb as [-> ->]. cbn [fst andb]. auto. }
destruct Hb as [-> Habout]. cbn [andb].
pose proof (languages_outcome (default [] (inLanguage r))) as Hl.
destruct (comprehension (language_alpha3 alpha3) (default [] (inLanguage r)))
  as [languages|e]; cbv beta iota in Hl.
2:{ destruct Hl as [-> (language & -> & Hin & Hnone)]. cbn [fst andb].
    split; [reflexivity|]. right. right. now split. }
destruct Hl as [-> Hlang]. cbn [andb].
pose proof (ids_outcome (default [] (learningResourceType r))) as Ht.
destruct (comprehension get_id (default [] (learningResourceType r)))
  as [resource_types|e]; cbv beta iota in Ht.
2:{ destruct Ht as [-> ->]. cbn [fst andb]. auto. }
destruct Ht as [-> Htypes]. cbn [andb].
destruct (license r) as [o|].
- unfold get_id, has_id. destruct (o !! "id") as [x|].
  + destruct (name r) as [text|]; [|cbn [fst]; auto].
    destruct (id r) as [uri|]; [|cbn [fst]; auto].
    cbn [fst oer_platform oer_title oer_external_uri oer_audience
           oer_disciplines oer_resource_types oer_languages
           oer_description oer_date_published].
    split; [reflexivity|]. split; [reflexivity|].
    split; [now exists text|]. split; [reflexivity|].
    split; [exact Haud|]. split; [exact Habout|]. split; [exact Htypes|].
    split; [exact Hlang|]. split; [|reflexivity].
    destruct (description r) as [[|c d]|]; split; auto; try discriminate.
    intros [H|H]; discriminate.
  + cbn [fst]. auto.
- destruct (name r) as [text|]; [|cbn [fst]; auto].
  destruct (id r) as [uri|]; [|cbn [fst]; auto].
  cbn [fst oer_platform oer_title oer_external_uri oer_audience
         oer_disciplines oer_resource_types oer_languages
         oer_description oer_date_published].
  split; [reflexivity|]. split; [reflexivity|].
  split; [now exists text|]. split; [reflexivity|].
  split; [exact Haud|]. split; [exact Habout|]. split; [exact Htypes|].
  split; [exact Hlang|]. split; [|reflexivity].
  destruct (description r) as [[|c d]|]; split; auto; try discriminate.
  intros [H|H]; discriminate.
Qed.

(** What is left of a record on which [_process] has returned holds no
    ["name"]. *)
Lemma _process_consumed r :
  _process alpha3 (consumed r) = (Raises (KeyError "name"), consumed r).
Proof. reflexivity. Qed.

(** X22.  [_process] consumes its record.  A call that returns leaves the
    record without any of the eleven entries it pops and with its other
    entries as they were, so that a second call on the same record
    raises [KeyError] for ["name"] and leaves the record as it is; and a
    call that raises has popped the entries up to the one it raised on,
    the entries ["@context"], ["conditionsOfAccess"] and ["audience"] in
    any case, and has not touched the other entries. *)
Theorem process_consumes_its_record r res :
  fst (_process alpha3 r) = Returns res ->
  snd (_process alpha3 r) = consumed r
  /\ _process alpha3 (snd (_process alpha3 r))
     = (Raises (KeyError "name"), snd (_process alpha3 r))
  /\ forall r0 : oersi_record Value,
       others (snd (_process alpha3 r0)) = others r0
       /\ context (snd (_process alpha3 r0)) = None
       /\ conditionsOfAccess (snd (_process alpha3 r0)) = None
       /\ audience (snd (_process alpha3 r0)) = None.
Proof.
intros Hres.
assert (Hleft : snd (_process alpha3 r) = consumed r).
{ revert Hres. unfold_process.
  destruct (comprehension get_id (default [] (audience r)));
    [|discriminate].
  destruct (comprehension get_id (default [] (about r))); [|discriminate].
  destruct (comprehension (language_alpha3 alpha3)
              (default [] (inLanguage r))); [|discriminate].
  destruct (comprehension get_id (default [] (learningResourceType r)));
    [|discriminate].
  destruct (license r) as [o|].
  - destruct (get_id o); [|discriminate].
    destruct (name r); [|discriminate]. destruct (id r); [|discriminate].
    reflexivity.
  - destruct (name r); [|discriminate]. destruct (id r); [|discriminate].
    reflexivity. }
split; [exact Hleft|]. split; [rewrite Hleft; apply _process_consumed|].
intros r0. unfold_process.
destruct (comprehension get_id (default [] (audience r0)));
  [|repeat split].
destruct (comprehension get_id (default [] (about r0))); [|repeat split].
destruct (comprehension (language_alpha3 alpha3)
            (default [] (inLanguage r0))); [|repeat split].
destruct (comprehension get_id (default [] (learningResourceType r0)));
  [|repeat split].
destruct (license r0) as [o|].
- destruct (get_id o); [|repeat split].
  destruct (name r0); [|repeat split]. destruct (id r0); repeat split.
- destruct (name r0); [|repeat split]. destruct (id r0); repeat split.
Qed.

Lemma get_oersi_outcome (records : list (oersi_record Value)) :
  match get_oersi alpha3 records with
  | Returns rs =>
      forallb (complete alpha3) records = true
      /\ Forall2 (fun r res => fst (_process alpha3 r) = Returns res)
           records rs
  | Raises e => forallb (complete alpha3) records = false
  end.
Proof.
unfold get_oersi.
induction records as [|r records IH]; cbn [comprehension forallb].
- now split.
- pose proof (_process_complete r) as Hr.
  destruct (fst (_process alpha3 r)) as [res|e] eqn:Hres.
  + rewrite Hr. cbn [andb].
    destruct (comprehension _ records) as [rs|e]; cbv beta iota in IH.
    * destruct IH as [Hall Hrs]. split; [exact Hall|]. now constructor.
    * exact IH.
  + now rewrite Hr.
Qed.

(** X23.  [get_oersi] is all or nothing: it returns one resource per
    record, in the order of the records, when every record is complete,
    and it raises, returning no resource at all, as soon as one record
    is not. *)
Theorem get_oersi_all_or_nothing (records : list (oersi_record Value)) :
  if forallb (complete alpha3) records
  then exists rs,
         get_oersi alpha3 records = Returns rs
         /\ length rs = length records
         /\ Forall2 (fun r res => fst (_process alpha3 r) = Returns res)
              records rs
  else exists e, get_oersi alpha3 records = Raises e.
Proof.
pose proof (get_oersi_outcome records) as H.
destruct (get_oersi alpha3 records) as [rs|e].
- destruct H as [-> Hrs]. exists rs. split; [reflexivity|].
  split; [|exact Hrs]. symmetry. exact (Forall2_length _ _ _ Hrs).
- rewrite H. now exists e.
Qed.

End OersiFacts.

Section OersiWitnesses.
Import Oersi.

Lemma process_consumes_its_record_witness :
  let alpha3 (language : string) :=
    if String.eqb language "de" then Some "deu" else None in
  let r :=
    {| context := Some tt; conditionsOfAccess := None;
       audience := Some [{[ "id" := "http://purl.org/teacher" ]}];
       about := None; description := Some "Text";
       inLanguage := Some ["de"]; learningResourceType := None;
       datePublished := None;
       license := Some {[ "id" := "https://creativecommons.org/by/4.0" ]};
       name := Some "Kurs"; id := Some "https://example.org/1";
       others := {[ "publisher" := tt ]} |} in
  snd (_process alpha3 r) = consumed r
  /\ _process alpha3 (snd (_process alpha3 r))
     = (Raises (KeyError "name"), snd (_process alpha3 r)).
Proof.
intros alpha3 r.
destruct (process_consumes_its_record unit alpha3 r
            {| oer_platform := "oersi";
               oer_external_uri := "https://example.org/1";
               oer_title := {[ "en" := "Kurs" ]};
               oer_description := Some {[ "en" := "Text" ]};
               oer_date_published := None;
               oer_audience := ["http://purl.org/teacher"];
               oer_resource_types := [];
               oer_disciplines := [];
               oer_languages := ["deu"] |} eq_refl) as (H1 & H2 & _).
now split.
Defined.

End OersiWitnesses.
